(** * widepay_migrator: a shallow embedding of the migration core

    The development follows the Python sources of the repository:

    - [custom_helper.py]: [get_governorate_from_national_id],
      [settle_transactions], [settle_installments],
      [handle_early_settlement], [extract_lat_lon_from_wkb];
    - [CustomLogic.py]: the branches of [CustomLogic.process_columns] for
      the migrations [officers], [clients], [loan_products], [loans]
      (status and first payment date), [installments] and [transactions];
    - [MigrationManager.py]: [MigrationManager.__init__],
      [get_migration_by_index] and the row loop of [run_script] with its
      commit rule;
    - [general_helper.py]: [load_migration_config].

    Conventions.  A Python [dict] with string keys is a [gmap string val].
    A Python [float] (and a SQL DECIMAL) is a rational of [Q]: no
    infinities, no NaN.  The conversion of the loan product rates is
    computed as the machine does, every operation rounded to binary64
    (module [Binary64]); the sums and differences of amounts elsewhere are
    written with the exact operation of [Q] in the place of the float
    operation of the code.  A Python [str] is a
    [string] whose characters are code points below 256.  A function that
    can raise returns a [result]; the exception classes that the sources
    catch selectively are kept apart.  Database tables are lists of rows in
    storage order. *)

From Stdlib Require Import ZArith QArith Qround Qabs Qpower Lia Lqa List String Ascii Bool DecimalString.
From stdpp Require Import base option gmap strings list sorting.

Open Scope Z_scope.

(** ** Python values and exceptions *)

Module Py.

Inductive exn : Type :=
  | KeyError (key : string)
  | ValueError
  | TypeError
  | AttributeError
  | ZeroDivisionError
  | UnboundLocalError
  | OverflowError
  | DatabaseError.

Inductive result (A : Type) : Type :=
  | Ok (a : A)
  | Raise (e : exn).
Arguments Ok {A} a.
Arguments Raise {A} e.

Definition bind {A B : Type} (r : result A) (k : A -> result B) : result B :=
  match r with
  | Ok a => k a
  | Raise e => Raise e
  end.

Definition is_ok {A : Type} (r : result A) : bool :=
  match r with Ok _ => true | Raise _ => false end.

Definition result_or {A : Type} (r : result A) (dflt : A) : A :=
  match r with Ok a => a | Raise _ => dflt end.

(** A calendar date and a time of day in microseconds since midnight. *)
Record date : Type := mkdate { year : Z; month : Z; day : Z }.

Inductive val : Type :=
  | VNone
  | VBool (b : bool)
  | VInt (z : Z)
  | VFloat (q : Q)
  | VStr (s : string)
  | VBytes (s : string)
  | VDate (d : date)
  | VDateTime (d : date) (us : Z).

Abbreviation dict := (gmap string val).

(** [bool(v)]: the truth value Python gives to [v] in [if v], [not v] and
    [v or w]. *)
Definition truthy (v : val) : bool :=
  match v with
  | VNone => false
  | VBool b => b
  | VInt z => negb (z =? 0)
  | VFloat q => negb (Qeq_bool q 0)
  | VStr s => negb (String.length s =? 0)%nat
  | VBytes s => negb (String.length s =? 0)%nat
  | VDate _ => true
  | VDateTime _ _ => true
  end.

(** [d.get(k)] and [d[k]]. *)
Definition get (d : dict) (k : string) : val := default VNone (d !! k).

Definition get_or (d : dict) (k : string) (dflt : val) : val := default dflt (d !! k).

Definition item (d : dict) (k : string) : result val :=
  match d !! k with
  | Some v => Ok v
  | None => Raise (KeyError k)
  end.

Definition has_key (d : dict) (k : string) : bool := bool_decide (is_Some (d !! k)).

(** *** Text *)

Definition code (c : ascii) : N := N_of_ascii c.

Definition is_digit (c : ascii) : bool := ((48 <=? code c) && (code c <=? 57))%N.

Definition digit_value (c : ascii) : Z := Z.of_N (code c) - 48.

(** White space as [str.strip()] sees it, for code points below 256: TAB,
    LF, VT, FF, CR, FS, GS, RS, US, SPACE, NEL and NBSP. *)
Definition is_space (c : ascii) : bool :=
  let n := code c in
  (((9 <=? n) && (n <=? 13)) || ((28 <=? n) && (n <=? 32)) || (n =? 133) || (n =? 160))%N.

Fixpoint lstrip (l : list ascii) : list ascii :=
  match l with
  | c :: r => if is_space c then lstrip r else l
  | [] => []
  end.

Definition strip (l : list ascii) : list ascii := rev (lstrip (rev (lstrip l))).

(** White space as [int()] skips it around a number: TAB, LF, VT, FF, CR
    and SPACE, and of the code points from 128 on NEL and NBSP, which
    [int()] turns into a space before it reads the text.  The separators
    FS, GS, RS and US (28 to 31) are not skipped. *)
Definition is_int_space (c : ascii) : bool :=
  let n := code c in
  (((9 <=? n) && (n <=? 13)) || (n =? 32) || (n =? 133) || (n =? 160))%N.

Fixpoint int_lstrip (l : list ascii) : list ascii :=
  match l with
  | c :: r => if is_int_space c then int_lstrip r else l
  | [] => []
  end.

Definition int_strip (l : list ascii) : list ascii :=
  rev (int_lstrip (rev (int_lstrip l))).

(** Decimal digits, single underscores allowed between two digits. *)
Fixpoint digits_from (acc : Z) (after_underscore : bool) (l : list ascii) : option Z :=
  match l with
  | [] => if after_underscore then None else Some acc
  | c :: r =>
      if is_digit c then digits_from (10 * acc + digit_value c) false r
      else if Ascii.eqb c "_" then
        if after_underscore then None else digits_from acc true r
      else None
  end.

Definition digits (l : list ascii) : option Z :=
  match l with
  | c :: r => if is_digit c then digits_from (digit_value c) false r else None
  | [] => None
  end.

(** [int(s)] on a string, base 10: surrounding white space is dropped, one
    sign is accepted; [None] stands for [ValueError]. *)
Definition int_of_string (s : string) : option Z :=
  match int_strip (list_ascii_of_string s) with
  | c :: r =>
      if Ascii.eqb c "+" then digits r
      else if Ascii.eqb c "-" then Z.opp <$> digits r
      else digits (c :: r)
  | [] => None
  end.

(** [str(z)] for an integer. *)
Definition str_of_Z (z : Z) : string := NilZero.string_of_int (Z.to_int z).

(** [s[i:j]] for [0 <= i <= j]. *)
Definition slice (i j : nat) (s : string) : string := String.substring i (j - i) s.

(** What the embedding leaves to the Python runtime: parsing a float
    literal, printing the values whose text the model does not build
    (floats, dates, bytes), reading a little-endian double
    ([struct.unpack('<d', b)[0]]), the clock and
    [datetime.strptime(s, '%Y-%m-%d')].  [None] stands for [ValueError]. *)
Class Runtime : Type := {
  float_of_string : string -> option Q;
  str_other : val -> string;
  unpack_double : string -> val;
  today : date;
  time_of_day : Z;
  strptime_ymd : string -> option date
}.

Section with_runtime.
Context {runtime : Runtime}.

(** [str(v)]. *)
Definition str (v : val) : string :=
  match v with
  | VNone => "None"
  | VBool true => "True"
  | VBool false => "False"
  | VInt z => str_of_Z z
  | VStr s => s
  | _ => str_other v
  end.

(** [float(v)]. *)
Definition float (v : val) : result Q :=
  match v with
  | VBool b => Ok (if b then 1%Q else 0%Q)
  | VInt z => Ok (inject_Z z)
  | VFloat q => Ok q
  | VStr s | VBytes s =>
      match float_of_string s with
      | Some q => Ok q
      | None => Raise ValueError
      end
  | VNone | VDate _ | VDateTime _ _ => Raise TypeError
  end.

End with_runtime.

(** [int(v)]; a float is truncated towards zero. *)
Definition int (v : val) : result Z :=
  match v with
  | VBool b => Ok (if b then 1 else 0)
  | VInt z => Ok z
  | VFloat q => Ok (Z.quot (Qnum q) (Z.pos (Qden q)))
  | VStr s | VBytes s =>
      match int_of_string s with
      | Some z => Ok z
      | None => Raise ValueError
      end
  | VNone | VDate _ | VDateTime _ _ => Raise TypeError
  end.

(** [v == n] for an integer constant [n]: numbers compare by value, every
    other kind of value differs from a number. *)
Definition eq_int (v : val) (n : Z) : bool :=
  match v with
  | VInt z => z =? n
  | VBool b => (if b then 1 else 0) =? n
  | VFloat q => Qeq_bool q (inject_Z n)
  | _ => false
  end.

End Py.

Notation "x <- r ;; k" := (Py.bind r (fun x => k))
  (at level 100, r at next level, right associativity, only parsing).

(** ** [custom_helper.get_governorate_from_national_id] *)

Module Governorate.
Import Py.

Section with_runtime.
Context {runtime : Runtime}.

Definition get_governorate_from_national_id (national_id : val) : option Z :=
  if negb (truthy national_id) || negb (String.length (str national_id) =? 14)%nat
  then None
  else
    let gov_code := slice 7 9 (str national_id) in
    if String.eqb gov_code "88" then Some 1
    else int_of_string gov_code.

End with_runtime.

End Governorate.

(** The reading of [int()] on two characters that the properties below
    compare with [int_of_string]. *)
Module GovernorateSpec.
Import Py.


End GovernorateSpec.

(** ** Calendar dates, as [datetime.date] and [datetime.datetime] have them *)

Module Calendar.
Import Py.

Definition MINYEAR : Z := 1.
Definition MAXYEAR : Z := 9999.

Definition is_leap (y : Z) : bool :=
  (y mod 4 =? 0) && (negb (y mod 100 =? 0) || (y mod 400 =? 0)).

Definition days_in_month (y m : Z) : Z :=
  if m =? 2 then (if is_leap y then 29 else 28)
  else if (m =? 4) || (m =? 6) || (m =? 9) || (m =? 11) then 30
  else 31.

(** The dates that a [date] object can hold. *)
Definition valid_date (d : date) : bool :=
  (MINYEAR <=? year d) && (year d <=? MAXYEAR) &&
  (1 <=? month d) && (month d <=? 12) &&
  (1 <=? day d) && (day d <=? days_in_month (year d) (month d)).

(** [date(y, m, d)] and [datetime(y, m, d)]: [ValueError] outside the
    calendar. *)
Definition make_date (y m d : Z) : result date :=
  let r := mkdate y m d in
  if valid_date r then Ok r else Raise ValueError.

(** [d.replace(year=y, month=m)]. *)
Definition replace_year_month (d : date) (y m : Z) : result date :=
  make_date y m (day d).

(** [d - timedelta(days=1)]. *)
Definition previous_day (d : date) : result date :=
  if 1 <? day d then Ok (mkdate (year d) (month d) (day d - 1))
  else if 1 <? month d then
    Ok (mkdate (year d) (month d - 1) (days_in_month (year d) (month d - 1)))
  else if MINYEAR <? year d then Ok (mkdate (year d - 1) 12 31)
  else Raise OverflowError.

(** [d + timedelta(days=1)]. *)
Definition next_day (d : date) : result date :=
  if day d <? days_in_month (year d) (month d)
  then Ok (mkdate (year d) (month d) (day d + 1))
  else if month d <? 12 then Ok (mkdate (year d) (month d + 1) 1)
  else if year d <? MAXYEAR then Ok (mkdate (year d + 1) 1 1)
  else Raise OverflowError.

Definition microseconds_per_hour : Z := 3600 * 1000000.
Definition microseconds_per_day : Z := 24 * microseconds_per_hour.

(** [dt + timedelta(hours=1)] on a [datetime]. *)
Definition add_one_hour (d : date) (us : Z) : result (date * Z) :=
  let us' := us + microseconds_per_hour in
  if us' <? microseconds_per_day then Ok (d, us')
  else d' <- next_day d ;; Ok (d', us' - microseconds_per_day).

End Calendar.

(** ** [CustomLogic.process_columns], migration [loans]: the first payment
    date (the block that starts at "Set first_payment_date to one month
    after disbursed_on_date") *)

Module LoansFirstPayment.
Import Py Calendar.

(** The [try]/[except ValueError] around [replace]: the handler builds the
    first day of the month after the target month and steps one day back. *)
Definition one_month_later (d : date) : result (date * bool) :=
  let month := month d + 1 in
  let year := year d in
  let '(month, year) := if 12 <? month then (1, year + 1) else (month, year) in
  match replace_year_month d year month with
  | Ok d' => Ok (d', false)
  | Raise ValueError =>
      first <- (if month =? 12 then make_date (year + 1) 1 1
                else make_date year (month + 1) 1) ;;
      last <- previous_day first ;;
      Ok (last, true)
  | Raise e => Raise e
  end.

Definition set_first_payment_date (row_data : dict) : result dict :=
  if has_key row_data "disbursed_on_date" && truthy (get row_data "disbursed_on_date") then
    match get row_data "disbursed_on_date" with
    | VDate d =>
        r <- one_month_later d ;;
        let '(d', clamped) := r in
        Ok (<["first_payment_date" := if clamped then VDateTime d' 0 else VDate d']> row_data)
    | VDateTime d us =>
        r <- one_month_later d ;;
        let '(d', clamped) := r in
        Ok (<["first_payment_date" := if clamped then VDateTime d' 0 else VDateTime d' us]> row_data)
    | _ => Raise AttributeError
    end
  else Ok row_data.

(** The date that a value carries, if it is a date or a datetime. *)
Definition date_of (v : val) : option date :=
  match v with
  | VDate d | VDateTime d _ => Some d
  | _ => None
  end.

End LoansFirstPayment.

(** "Advanced by exactly one calendar month, clamped to the last valid day
    of the target month", in the words of the specification. *)
Module FirstPaymentSpec.
Import Py Calendar.

Definition target_year (d : date) : Z := if month d =? 12 then year d + 1 else year d.
Definition target_month (d : date) : Z := if month d =? 12 then 1 else month d + 1.

Definition advance_one_month (d : date) : date :=
  mkdate (target_year d) (target_month d)
         (Z.min (day d) (days_in_month (target_year d) (target_month d))).

End FirstPaymentSpec.

(** ** Rounding: [round(x, ndigits)] on the exact value, ties to even *)

Module Rounding.

Definition round_half_even (q : Q) : Z :=
  let f := Qfloor q in
  match (q - inject_Z f ?= 1 # 2)%Q with
  | Lt => f
  | Gt => f + 1
  | Eq => if Z.even f then f else f + 1
  end.

Definition round (q : Q) (ndigits : Z) : Q :=
  (inject_Z (round_half_even (q * inject_Z (10 ^ ndigits))) / inject_Z (10 ^ ndigits))%Q.

End Rounding.

(** ** The arithmetic of Python floats

    A finite binary64 number is the rational it stands for.  Every
    operation gives the binary64 number nearest to the exact result, ties
    to the even significand.  A result beyond the largest binary64 number,
    which the machine turns into an infinity, is outside the model: the
    properties bound their inputs. *)

Module Binary64.
Import Rounding.

(** [floor (log2 |q|)] for [q] other than 0. *)
Definition ilog2 (q : Q) : Z :=
  let k := Z.log2 (Z.abs (Qnum q)) - Z.log2 (Z.pos (Qden q)) in
  if Qle_bool (2 ^ k) (Qabs q) then k else k - 1.

(** The exponent of the last place of the binary64 numbers next to [q]:
    53 significant bits, and no exponent below -1074. *)
Definition exponent (q : Q) : Z := Z.max (ilog2 q - 52) (-1074).

(** The binary64 number nearest to [q]. *)
Definition b64 (q : Q) : Q :=
  if Qeq_bool q 0 then 0%Q
  else (inject_Z (round_half_even (q / 2 ^ exponent q)) * 2 ^ exponent q)%Q.

(** The unit roundoff [2^-53]. *)
Definition unit_roundoff : Q := (1 # 9007199254740992)%Q.

(** [float(z)] on an integer, and the four operations on floats. *)
Definition float_of_int (z : Z) : Q := b64 (inject_Z z).
Definition fadd (x y : Q) : Q := b64 (x + y).
Definition fsub (x y : Q) : Q := b64 (x - y).
Definition fmul (x y : Q) : Q := b64 (x * y).
Definition fdiv (x y : Q) : Q := b64 (x / y).

(** [round(x, ndigits)] on a float: the decimal number with [ndigits]
    places nearest to the exact value of [x], ties to even, and of it the
    nearest float. *)
Definition fround (x : Q) (ndigits : Z) : Q := b64 (round x ndigits).

End Binary64.

(** ** [CustomLogic.process_columns], migration [loan_products] *)

Module LoanProducts.
Import Py Rounding Binary64.

(** The nested function [flat_to_declining(flat_rate, periods)], operation
    by operation: [float(flat_rate) / 100], then [2 * flat_rate], the
    product with [periods] and the quotient by [periods + 1], each integer
    converted to a float, then the product with 100 and [round(., 4)].
    The constants 2 and 100 are floats as they stand.  Dividing a float
    by the integer zero raises. *)
Definition flat_to_declining (flat_rate : Q) (periods : Z) : result Q :=
  let flat_rate := fdiv (b64 flat_rate) 100 in
  if periods + 1 =? 0 then Raise ZeroDivisionError
  else
    let declining_rate :=
      fdiv (fmul (fmul 2 flat_rate) (float_of_int periods)) (float_of_int (periods + 1)) in
    Ok (fround (fmul declining_rate 100) 4).

Section with_runtime.
Context {runtime : Runtime}.

Definition process_loan_products (row_data : dict) : result dict :=
  let row_data := <["decimals" := VInt 0]> row_data in
  let row_data := <["product_type" := VStr "commercial"]> row_data in
  let row_data := <["active" := VInt 1]> row_data in
  let row_data := <["penalty_id" := VInt 3]> row_data in
  let row_data := <["fund_id" := VInt 1]> row_data in
  flat_default <- float (get_or row_data "flat_default_interest_rate" (VInt 0)) ;;
  flat_minimum <- float (get_or row_data "flat_minimum_interest_rate" (VInt 0)) ;;
  flat_maximum <- float (get_or row_data "flat_maximum_interest_rate" (VInt 0)) ;;
  default_term <- int (get_or row_data "default_loan_term" (VInt 12)) ;;
  minimum_term <- int (get_or row_data "minimum_loan_term" (VInt 12)) ;;
  maximum_term <- int (get_or row_data "maximum_loan_term" (VInt 12)) ;;
  r_default <- (if truthy (VFloat flat_default)
                then flat_to_declining flat_default default_term else Ok 0%Q) ;;
  let row_data := <["default_interest_rate" := VFloat r_default]> row_data in
  r_minimum <- (if truthy (VFloat flat_minimum)
                then flat_to_declining flat_minimum minimum_term else Ok 0%Q) ;;
  let row_data := <["minimum_interest_rate" := VFloat r_minimum]> row_data in
  r_maximum <- (if truthy (VFloat flat_maximum)
                then flat_to_declining flat_maximum maximum_term else Ok 0%Q) ;;
  let row_data := <["maximum_interest_rate" := VFloat r_maximum]> row_data in
  let row_data := <["interest_rate_type" := VStr "year"]> row_data in
  let row_data := <["repayment_frequency" := VInt 1]> row_data in
  let row_data := <["repayment_frequency_type" := VStr "months"]> row_data in
  let row_data := <["amortization_method" := VStr "equal_installments"]> row_data in
  let row_data := <["interest_methodology" := VStr "declining_balance"]> row_data in
  strategy <- item row_data "loan_transaction_processing_strategy_id" ;;
  Ok (<["loan_transaction_processing_strategy_id" :=
          VInt (if eq_int strategy 2 then 24 else 23)]> row_data).

End with_runtime.

End LoanProducts.

(** The conversion in the words of the specification:
    [round((2 x flat x n) / (n + 1), 4)], and 0 for a zero flat rate. *)
Module LoanProductsSpec.
Import Rounding Binary64.

Definition declining (flat : Q) (n : Z) : Q :=
  if Qeq_bool flat 0 then 0%Q
  else round ((2 * flat * inject_Z n) / (inject_Z n + 1))%Q 4.

(** The conversion as the floats give it: [((2 x (flat / 100) x n) /
    (n + 1)) x 100] evaluated in this order in binary64 and rounded to 4
    decimals, and 0 for a zero flat rate. *)
Definition declining_binary64 (flat : Q) (n : Z) : Q :=
  if Qeq_bool flat 0 then 0%Q
  else fround (fmul (fdiv (fmul (fmul 2 (fdiv (b64 flat) 100)) (float_of_int n))
                          (float_of_int (n + 1))) 100) 4.

End LoanProductsSpec.

(** ** The target tables that the two settlement engines read and write

    A numeric column is [option Q] ([None] is SQL NULL), a key column is
    [option Z].  COALESCE(x, 0) and Python's [float(x or 0)] are written
    out on these. *)

Module Schema.
Import Py.

Record loan_row : Type := mk_loan {
  loan_id : Z;
  loan_external_id : option string;
  loan_term : option Z;
  loan_status : string;
  loan_branch_id : option Z;
  loan_officer_id : option Z
}.

Record installment_row : Type := mk_installment {
  inst_id : Z;
  inst_loan_id : option Z;
  inst_installment : option Z;
  inst_principal : option Q;
  inst_interest : option Q;
  inst_fees : option Q;
  inst_penalties : option Q;
  inst_principal_repaid_derived : option Q;
  inst_interest_repaid_derived : option Q;
  inst_fees_repaid_derived : option Q;
  inst_penalties_repaid_derived : option Q;
  inst_principal_written_off_derived : option Q;
  inst_interest_written_off_derived : option Q;
  inst_fees_written_off_derived : option Q;
  inst_penalties_written_off_derived : option Q;
  inst_interest_waived_derived : option Q;
  inst_fees_waived_derived : option Q;
  inst_penalties_waived_derived : option Q;
  inst_paid_by_date : val;
  inst_status : option string;
  inst_is_early_repayment : option bool
}.

Record transaction_row : Type := mk_transaction {
  tx_id : Z;
  tx_loan_id : option Z;
  tx_repayment_schedule_id : option Z;
  tx_type : option Z;
  tx_amount : option Q;
  tx_debit : option Q;
  tx_credit : option Q;
  tx_principal_repaid_derived : option Q;
  tx_interest_repaid_derived : option Q;
  tx_fees_repaid_derived : option Q;
  tx_penalties_repaid_derived : option Q;
  tx_principal_balance : option Q;
  tx_interest_balance : option Q;
  tx_fees_balance : option Q;
  tx_penalties_balance : option Q;
  tx_total_balance : option Q;
  tx_created_at : val;
  tx_updated_at : val;
  tx_submitted_on : val;
  tx_branch_id : option Z;
  tx_loan_officer_id : option Z;
  tx_description : option string
}.

Record database : Type := mk_database {
  loans : list loan_row;
  loan_repayment_schedules : list installment_row;
  loan_transactions : list transaction_row;
  next_transaction_id : Z
}.

(** A connection: what has been committed and the uncommitted working
    state that the cursor reads and writes. *)
Record connection : Type := mk_connection {
  committed : database;
  working : database
}.

Definition commit (conn : connection) : connection :=
  mk_connection (working conn) (working conn).

Definition rollback (conn : connection) : connection :=
  mk_connection (committed conn) (committed conn).

(** [float(x or 0)] on a fetched numeric column. *)
Definition float_or_0 (x : option Q) : Q :=
  match x with
  | Some q => if Qeq_bool q 0 then 0%Q else q
  | None => 0%Q
  end.

(** COALESCE(x, 0). *)
Definition coalesce0 (x : option Q) : Q := default 0%Q x.

End Schema.

(** ** [custom_helper.settle_transactions] *)

Module Settlement.
Import Py Schema.

Record balances : Type := mk_balances {
  principal_balance : Q;
  interest_balance : Q;
  penalties_balance : Q
}.

Definition initial_balances : balances := mk_balances 0 0 0.

Definition total_balance (b : balances) : Q :=
  (principal_balance b + interest_balance b + penalties_balance b)%Q.

(** SELECT DISTINCT loan_id FROM loan_transactions WHERE loan_id IS NOT
    NULL, in the order of first occurrence. *)
Fixpoint distinct_loan_ids (seen : list Z) (table : list transaction_row) : list Z :=
  match table with
  | [] => []
  | tx :: rest =>
      match tx_loan_id tx with
      | Some l =>
          if bool_decide (l ∈ seen) then distinct_loan_ids seen rest
          else l :: distinct_loan_ids (l :: seen) rest
      | None => distinct_loan_ids seen rest
      end
  end.

(** ORDER BY id, as a stable insertion sort. *)
Fixpoint insert_by_id (tx : transaction_row) (sorted : list transaction_row)
  : list transaction_row :=
  match sorted with
  | [] => [tx]
  | tx' :: rest =>
      if tx_id tx <? tx_id tx' then tx :: sorted
      else tx' :: insert_by_id tx rest
  end.

Definition order_by_id (table : list transaction_row) : list transaction_row :=
  foldr insert_by_id [] table.

(** SELECT ... FROM loan_transactions WHERE loan_id = %s ORDER BY id. *)
Definition fetch_transactions (table : list transaction_row) (loan : Z)
  : list transaction_row :=
  order_by_id (filter (fun tx => tx_loan_id tx = Some loan) table).

(** [tx_type == n] on the fetched type column. *)
Definition type_is (tx : transaction_row) (n : Z) : bool :=
  match tx_type tx with
  | Some t => t =? n
  | None => false
  end.

(** The chain "if tx_type == 10 ... elif tx_type == 1 ... elif tx_type in
    (2, 6) ... else". *)
Definition update_balances (b : balances) (tx : transaction_row) : balances :=
  let principal_amount := float_or_0 (tx_principal_repaid_derived tx) in
  let interest_amount := float_or_0 (tx_interest_repaid_derived tx) in
  let penalties_amount := float_or_0 (tx_penalties_repaid_derived tx) in
  let amount := float_or_0 (tx_amount tx) in
  if type_is tx 10 then
    mk_balances (principal_balance b) (interest_balance b)
                (penalties_balance b + amount)
  else if type_is tx 1 then
    mk_balances principal_amount interest_amount (penalties_balance b)
  else if type_is tx 2 || type_is tx 6 then
    mk_balances (principal_balance b - principal_amount)
                (interest_balance b - interest_amount)
                (penalties_balance b - penalties_amount)
  else b.

Definition clear_repaid (tx : transaction_row) : bool :=
  type_is tx 1 || type_is tx 10.

(** The SET clause of the UPDATE, on one row. *)
Definition write_balances (b : balances) (clear : bool) (row : transaction_row)
  : transaction_row :=
  mk_transaction
    (tx_id row) (tx_loan_id row) (tx_repayment_schedule_id row) (tx_type row)
    (tx_amount row) (tx_debit row) (tx_credit row)
    (if clear then Some 0%Q else tx_principal_repaid_derived row)
    (if clear then Some 0%Q else tx_interest_repaid_derived row)
    (tx_fees_repaid_derived row) (tx_penalties_repaid_derived row)
    (Some (principal_balance b)) (Some (interest_balance b))
    (tx_fees_balance row) (Some (penalties_balance b)) (Some (total_balance b))
    (tx_created_at row) (tx_updated_at row) (tx_submitted_on row)
    (tx_branch_id row) (tx_loan_officer_id row) (tx_description row).

(** UPDATE loan_transactions SET ... WHERE id = %s. *)
Definition execute_update (table : list transaction_row) (b : balances)
    (clear : bool) (id : Z) : list transaction_row :=
  map (fun row => if tx_id row =? id then write_balances b clear row else row) table.

(** One turn of "for tx in transactions". *)
Definition settle_transaction (st : balances * list transaction_row)
    (tx : transaction_row) : balances * list transaction_row :=
  let b := update_balances (fst st) tx in
  (b, execute_update (snd st) b (clear_repaid tx) (tx_id tx)).

(** The body of "for i, loan_id in enumerate(loan_ids)", without the
    periodic commit. *)
Definition settle_loan (table : list transaction_row) (loan : Z)
  : list transaction_row :=
  let transactions := fetch_transactions table loan in
  snd (fold_left settle_transaction transactions (initial_balances, table)).

Definition with_transactions (db : database) (table : list transaction_row) : database :=
  mk_database (loans db) (loan_repayment_schedules db) table (next_transaction_id db).

Fixpoint settle_loans (conn : connection) (i : Z) (loan_ids : list Z) : connection :=
  match loan_ids with
  | [] => conn
  | loan :: rest =>
      let table := settle_loan (loan_transactions (working conn)) loan in
      let conn := mk_connection (committed conn) (with_transactions (working conn) table) in
      let conn := if (i + 1) mod 100 =? 0 then commit conn else conn in
      settle_loans conn (i + 1) rest
  end.

(** No statement of the run fails in this model, so the [except] branch
    (roll back and raise again) is never taken. *)
Definition settle_transactions (conn : connection) : connection :=
  let loan_ids := distinct_loan_ids [] (loan_transactions (working conn)) in
  match loan_ids with
  | [] => conn
  | _ => commit (settle_loans conn 0 loan_ids)
  end.

(** The four balance columns of a table, row by row. *)
Definition balance_columns (table : list transaction_row)
  : list (Z * (option Q * option Q * option Q * option Q)) :=
  map (fun row => (tx_id row, (tx_principal_balance row, tx_interest_balance row,
                               tx_penalties_balance row, tx_total_balance row))) table.

End Settlement.

(** The replay of one loan's ordered log as a function of that log alone:
    every row with the balances that stand after it. *)
Module SettlementSpec.
Import Schema Settlement.

Fixpoint replay (b : balances) (log : list transaction_row) : list transaction_row :=
  match log with
  | [] => []
  | tx :: rest =>
      let b' := update_balances b tx in
      write_balances b' (clear_repaid tx) tx :: replay b' rest
  end.

(** The balances that stand after a prefix of the log. *)
Definition balances_after (log : list transaction_row) : balances :=
  fold_left update_balances log initial_balances.

(** What the rest of the loop makes of one stored row: each turn rewrites
    the row if its id is the id of the transaction at hand. *)
Fixpoint written_by (txs : list transaction_row) (b : balances) (row : transaction_row)
  : transaction_row :=
  match txs with
  | [] => row
  | tx :: rest =>
      let b' := update_balances b tx in
      written_by rest b'
        (if tx_id row =? tx_id tx then write_balances b' (clear_repaid tx) row else row)
  end.

(** No disbursement row carries a repaid principal or interest. *)
Definition disbursements_clear (txs : list transaction_row) : Prop :=
  forall tx, tx ∈ txs -> tx_type tx = Some 1 ->
    (float_or_0 (tx_principal_repaid_derived tx) == 0)%Q /\
    (float_or_0 (tx_interest_repaid_derived tx) == 0)%Q.

End SettlementSpec.


(** ** [custom_helper.handle_early_settlement] and [settle_installments] *)

Module EarlySettlement.
Import Py Schema.

(** ORDER BY on a nullable integer column: NULL sorts below every number. *)
Definition key_lt (a b : option Z) : bool :=
  match a, b with
  | None, None => false
  | None, Some _ => true
  | Some _, None => false
  | Some x, Some y => x <? y
  end.

(** ORDER BY installment DESC LIMIT 1 and ORDER BY installment ASC LIMIT 1;
    among equal sequence numbers the row stored first is taken. *)
Fixpoint last_installment (rows : list installment_row) : option installment_row :=
  match rows with
  | [] => None
  | r :: rest =>
      match last_installment rest with
      | Some r' => if key_lt (inst_installment r) (inst_installment r') then Some r' else Some r
      | None => Some r
      end
  end.

Fixpoint first_installment (rows : list installment_row) : option installment_row :=
  match rows with
  | [] => None
  | r :: rest =>
      match first_installment rest with
      | Some r' => if key_lt (inst_installment r') (inst_installment r) then Some r' else Some r
      | None => Some r
      end
  end.

Definition of_loan (loan : Z) (r : installment_row) : bool :=
  bool_decide (inst_loan_id r = Some loan).

(** The WHERE clause of the unpaid query: due minus repaid, written off and
    waived. *)
Definition outstanding (r : installment_row) : Q :=
  ((coalesce0 (inst_principal r) + coalesce0 (inst_interest r)
    + coalesce0 (inst_fees r) + coalesce0 (inst_penalties r))
   - (coalesce0 (inst_principal_repaid_derived r) + coalesce0 (inst_interest_repaid_derived r)
      + coalesce0 (inst_fees_repaid_derived r) + coalesce0 (inst_penalties_repaid_derived r))
   - (coalesce0 (inst_principal_written_off_derived r)
      + coalesce0 (inst_interest_written_off_derived r)
      + coalesce0 (inst_fees_written_off_derived r)
      + coalesce0 (inst_penalties_written_off_derived r))
   - (coalesce0 (inst_interest_waived_derived r) + coalesce0 (inst_fees_waived_derived r)
      + coalesce0 (inst_penalties_waived_derived r)))%Q.

Definition positive (q : Q) : bool := negb (Qle_bool q 0).

Definition unpaid (r : installment_row) : bool := positive (outstanding r).

(** SUM(column): NULL when no row has a value. *)
Definition sum_column (xs : list (option Q)) : option Q :=
  foldr (fun x acc =>
           match x, acc with
           | Some q, Some s => Some (q + s)%Q
           | Some q, None => Some q
           | None, _ => acc
           end) None xs.

Definition set_installment
    (f : installment_row -> installment_row) (cond : installment_row -> bool)
    (rows : list installment_row) : list installment_row :=
  map (fun r => if cond r then f r else r) rows.

(** SET fees = %s, fees_repaid_derived = %s, is_early_repayment = TRUE. *)
Definition mark_early_repayment (fee : Q) (r : installment_row) : installment_row :=
  mk_installment (inst_id r) (inst_loan_id r) (inst_installment r)
    (inst_principal r) (inst_interest r) (Some fee) (inst_penalties r)
    (inst_principal_repaid_derived r) (inst_interest_repaid_derived r)
    (Some fee) (inst_penalties_repaid_derived r)
    (inst_principal_written_off_derived r) (inst_interest_written_off_derived r)
    (inst_fees_written_off_derived r) (inst_penalties_written_off_derived r)
    (inst_interest_waived_derived r) (inst_fees_waived_derived r)
    (inst_penalties_waived_derived r)
    (inst_paid_by_date r) (inst_status r) (Some true).

(** SET principal_repaid_derived = principal, interest_waived_derived =
    interest, paid_by_date = %s, status = 'payoff'. *)
Definition pay_off (paid_by_date : val) (r : installment_row) : installment_row :=
  mk_installment (inst_id r) (inst_loan_id r) (inst_installment r)
    (inst_principal r) (inst_interest r) (inst_fees r) (inst_penalties r)
    (inst_principal r) (inst_interest_repaid_derived r)
    (inst_fees_repaid_derived r) (inst_penalties_repaid_derived r)
    (inst_principal_written_off_derived r) (inst_interest_written_off_derived r)
    (inst_fees_written_off_derived r) (inst_penalties_written_off_derived r)
    (inst_interest r) (inst_fees_waived_derived r)
    (inst_penalties_waived_derived r)
    paid_by_date (Some "payoff"%string) (inst_is_early_repayment r).

Definition set_loan (f : loan_row -> loan_row) (loan : Z) (rows : list loan_row)
  : list loan_row :=
  map (fun l => if loan_id l =? loan then f l else l) rows.

(** SET loan_term = loan_term - 1. *)
Definition decrease_term (l : loan_row) : loan_row :=
  mk_loan (loan_id l) (loan_external_id l) ((fun t => t - 1) <$> loan_term l)
    (loan_status l) (loan_branch_id l) (loan_officer_id l).

(** SET status = 'closed'. *)
Definition close_loan (l : loan_row) : loan_row :=
  mk_loan (loan_id l) (loan_external_id l) (loan_term l)
    "closed" (loan_branch_id l) (loan_officer_id l).

(** ORDER BY id DESC LIMIT 1 on the transactions of a loan. *)
Fixpoint latest_transaction (rows : list transaction_row) : option transaction_row :=
  match rows with
  | [] => None
  | r :: rest =>
      match latest_transaction rest with
      | Some r' => if tx_id r <? tx_id r' then Some r' else Some r
      | None => Some r
      end
  end.

(** The synthetic rows; [insert_record] leaves every column that the dict
    does not name NULL and takes the next id of the table. *)
Record synthetic : Type := mk_synthetic {
  syn_type : Z;
  syn_amount : Q;
  syn_debit : option Q;
  syn_credit : option Q;
  syn_principal_repaid : option Q;
  syn_interest_repaid : option Q;
  syn_fees_repaid : option Q;
  syn_principal_balance : Q;
  syn_interest_balance : Q;
  syn_fees_balance : Q;
  syn_penalties_balance : Q;
  syn_total_balance : Q;
  syn_description : string
}.

Definition insert_record (db : database) (loan : Z) (when : val)
    (branch officer : option Z) (s : synthetic) : database :=
  let row :=
    mk_transaction (next_transaction_id db) (Some loan) None (Some (syn_type s))
      (Some (syn_amount s)) (syn_debit s) (syn_credit s)
      (syn_principal_repaid s) (syn_interest_repaid s) (syn_fees_repaid s) None
      (Some (syn_principal_balance s)) (Some (syn_interest_balance s))
      (Some (syn_fees_balance s)) (Some (syn_penalties_balance s))
      (Some (syn_total_balance s))
      when when when branch officer (Some (syn_description s)) in
  mk_database (loans db) (loan_repayment_schedules db)
    (loan_transactions db ++ [row]) (next_transaction_id db + 1).

Inductive ending : Type :=
  | NoInstallments
  | NoUnpaidInstallment
  | Settled.

Section with_runtime.
Context {runtime : Runtime}.

(** "transaction_date = settlement_paid_by_date if settlement_paid_by_date
    else datetime.now().strftime('%Y-%m-%d')", then [strptime] on a
    string. *)
Definition transaction_datetime (paid_by_date : val) : result val :=
  if truthy paid_by_date then
    match paid_by_date with
    | VStr s =>
        match strptime_ymd s with
        | Some d => Ok (VDateTime d 0)
        | None => Raise ValueError
        end
    | v => Ok v
    end
  else Ok (VDateTime today 0).

(** The body of the [try] block, on the uncommitted state. *)
Definition early_settlement_steps (db : database) (loan : Z)
  : result (database * ending) :=
  let schedule := filter (fun r => inst_loan_id r = Some loan) (loan_repayment_schedules db) in
  match last_installment schedule, List.find (fun l => loan_id l =? loan) (loans db) with
  | Some settlement, Some l =>
      let settlement_id := inst_id settlement in
      let settlement_fee := float_or_0 (inst_interest settlement) in
      let settlement_paid_by_date := inst_paid_by_date settlement in
      let branch_id := loan_branch_id l in
      let loan_officer := loan_officer_id l in
      (* DELETE FROM loan_transactions WHERE repayment_schedule_id = %s *)
      let txs := filter (fun t => tx_repayment_schedule_id t <> Some settlement_id)
                        (loan_transactions db) in
      let db := mk_database (loans db) (loan_repayment_schedules db) txs
                            (next_transaction_id db) in
      match first_installment (filter (fun r => unpaid r = true) schedule) with
      | None => Ok (db, NoUnpaidInstallment)
      | Some first_unpaid =>
          let unpaid_installment_id := inst_id first_unpaid in
          let rows := set_installment (mark_early_repayment settlement_fee)
                        (fun r => inst_id r =? unpaid_installment_id)
                        (loan_repayment_schedules db) in
          (* DELETE FROM loan_repayment_schedules WHERE id = %s *)
          let rows := filter (fun r => inst_id r <> settlement_id) rows in
          let loan_rows := set_loan decrease_term loan (loans db) in
          let in_range r := of_loan loan r && (unpaid_installment_id <=? inst_id r) in
          let rows := set_installment (pay_off settlement_paid_by_date) in_range rows in
          let range := List.filter in_range rows in
          let total_principal := float_or_0 (sum_column (map inst_principal range)) in
          let total_interest := float_or_0 (sum_column (map inst_interest range)) in
          let last_tx :=
            latest_transaction (filter (fun t => tx_loan_id t = Some loan) txs) in
          let last_of column :=
            match last_tx with Some t => float_or_0 (column t) | None => 0%Q end in
          let last_principal_balance := last_of tx_principal_balance in
          let last_interest_balance := last_of tx_interest_balance in
          let last_fees_balance := last_of tx_fees_balance in
          let last_penalties_balance := last_of tx_penalties_balance in
          when <- transaction_datetime settlement_paid_by_date ;;
          let db := mk_database loan_rows rows txs (next_transaction_id db) in
          let '(db, last_fees_balance) :=
            if positive settlement_fee then
              let new_fees_balance := (last_fees_balance + settlement_fee)%Q in
              (insert_record db loan when branch_id loan_officer
                 (mk_synthetic 15 settlement_fee (Some settlement_fee) None None None None
                    last_principal_balance last_interest_balance new_fees_balance
                    last_penalties_balance
                    (last_principal_balance + last_interest_balance + new_fees_balance
                     + last_penalties_balance)%Q
                    "Apply Early Settlement Fee"),
               new_fees_balance)
            else (db, last_fees_balance) in
          let total_settlement_amount := (total_principal + settlement_fee)%Q in
          let '(db, last_principal_balance, last_fees_balance) :=
            if positive total_settlement_amount then
              (insert_record db loan when branch_id loan_officer
                 (mk_synthetic 14 total_settlement_amount None (Some total_settlement_amount)
                    (Some total_principal) None (Some settlement_fee)
                    0 last_interest_balance 0 last_penalties_balance
                    (0 + last_interest_balance + 0 + last_penalties_balance)%Q
                    "Early settlement"),
               0%Q, 0%Q)
            else (db, last_principal_balance, last_fees_balance) in
          let db :=
            if positive total_interest then
              insert_record db loan when branch_id loan_officer
                (mk_synthetic 4 total_interest None (Some total_interest)
                   None (Some total_interest) None
                   0 0 0 last_penalties_balance 0
                   "Waive Interest")
            else db in
          let db := mk_database (set_loan close_loan loan (loans db))
                      (loan_repayment_schedules db) (loan_transactions db)
                      (next_transaction_id db) in
          Ok (db, Settled)
      end
  | _, _ => Ok (db, NoInstallments)
  end.

(** [handle_early_settlement]: the two early [return]s leave the
    connection as it stands, the end of the [try] block commits, the
    [except] branch rolls back and raises again. *)
Definition handle_early_settlement (conn : connection) (loan : Z)
  : connection * result ending :=
  match early_settlement_steps (working conn) loan with
  | Ok (db, Settled) => (commit (mk_connection (committed conn) db), Ok Settled)
  | Ok (db, e) => (mk_connection (committed conn) db, Ok e)
  | Raise e => (rollback conn, Raise e)
  end.

Fixpoint settle_each (conn : connection) (early_settled_loans : list loan_row)
  : connection * result unit :=
  match early_settled_loans with
  | [] => (conn, Ok tt)
  | l :: rest =>
      match handle_early_settlement conn (loan_id l) with
      | (conn, Ok _) => settle_each conn rest
      | (conn, Raise e) => (conn, Raise e)
      end
  end.

(** [settle_installments]; [early_settled_loan_keys] is the answer of the
    source database to "SELECT loan_key ... WHERE resc_type = 3". *)
Definition settle_installments (conn : connection) (early_settled_loan_keys : list string)
  : connection * result unit :=
  match early_settled_loan_keys with
  | [] => (conn, Ok tt)
  | _ =>
      let early_settled_loans :=
        List.filter (fun l => match loan_external_id l with
                              | Some key => bool_decide (key ∈ early_settled_loan_keys)
                              | None => false
                              end)
                    (loans (working conn)) in
      match early_settled_loans with
      | [] => (conn, Ok tt)
      | _ =>
          match settle_each conn early_settled_loans with
          | (conn, Ok tt) => (conn, Ok tt)
          | (conn, Raise e) => (rollback conn, Raise e)
          end
      end
  end.

(** The menu action "Settle Installments" of [run_script]: commit after
    the run, roll back when it raised. *)
Definition run_settle_installments (conn : connection) (early_settled_loan_keys : list string)
  : connection :=
  match settle_installments conn early_settled_loan_keys with
  | (conn, Ok tt) => commit conn
  | (conn, Raise _) => rollback conn
  end.

End with_runtime.

End EarlySettlement.


(** ** [custom_helper.extract_lat_lon_from_wkb] *)

Module Wkb.
Import Py.

Definition hex_value (c : ascii) : option N :=
  let n := code c in
  if ((48 <=? n) && (n <=? 57))%N then Some (n - 48)%N
  else if ((65 <=? n) && (n <=? 70))%N then Some (n - 55)%N
  else if ((97 <=? n) && (n <=? 102))%N then Some (n - 87)%N
  else None.

(** [binascii.unhexlify]: [None] stands for [binascii.Error], a
    [ValueError] (odd length or a character that is no hex digit). *)
Fixpoint unhexlify (s : string) : option string :=
  match s with
  | EmptyString => Some EmptyString
  | String _ EmptyString => None
  | String c1 (String c2 rest) =>
      match hex_value c1, hex_value c2, unhexlify rest with
      | Some h, Some l, Some bytes => Some (String (ascii_of_N (16 * h + l)) bytes)
      | _, _, _ => None
      end
  end.

Definition drop_0x (s : string) : string :=
  if String.prefix "0x" s || String.prefix "0X" s
  then String.substring 2 (String.length s - 2) s else s.

Definition specific_prefix : string := "E6100000010F".
Definition min_len : nat := 76.

(** The text branch: the hex string as bytes, or [None] where the source
    returns [None]. *)
Definition binary_of_text (wkb_data : string) : option string :=
  let wkb_data := drop_0x wkb_data in
  if negb (String.prefix specific_prefix wkb_data) then None
  else if (String.length wkb_data <? min_len)%nat then None
  else unhexlify wkb_data.

Section with_runtime.
Context {runtime : Runtime}.

Definition extract_lat_lon_from_wkb (wkb_data : val) : option (val * val) :=
  binary_data ← match wkb_data with
                | VBytes b => Some b
                | VStr s => binary_of_text s
                | _ => None
                end;
  if (String.length binary_data <? 22)%nat then None
  else
    let lat_bytes := slice 6 14 binary_data in
    let lon_bytes := slice 14 22 binary_data in
    if negb (String.length lon_bytes =? 8)%nat || negb (String.length lat_bytes =? 8)%nat
    then None
    else Some (unpack_double lat_bytes, unpack_double lon_bytes).

End with_runtime.

End Wkb.

(** ** The state that the row transformer works on *)

Module Transform.
Import Py.

(** The target database as the transformer uses it: lookups through
    [general_helper.get_record_value] (table, condition "column = value",
    column to return; [VNone] when no row matches or the query fails) and
    whether an INSERT of a record into a table is accepted.  The rows that
    the migrations modelled here insert are not among those their lookups
    match, so the answers are taken as fixed during a run. *)
Class Target : Type := {
  get_record_value : string -> string -> val -> string -> val;
  accepts : string -> dict -> bool
}.

(** What has been inserted so far, oldest first, and the id that the next
    INSERT gets ([cursor.lastrowid]). *)
Record store : Type := mk_store {
  inserted : list (string * dict);
  next_id : Z
}.

(** The counters of a [CustomLogic] instance. *)
Record counters : Type := mk_counters {
  skipped_transactions : Z;
  inserted_transactions : Z;
  skipped_types_count : gmap (option Z) Z
}.

(** The state that [process_columns] changes besides the row: the open
    transaction of the target and the counters.  What was inserted before
    an exception stays inserted. *)
Record world : Type := mk_world {
  db : store;
  self : counters
}.

Definition M (A : Type) : Type := world -> world * result A.

Definition ret {A : Type} (a : A) : M A := fun w => (w, Ok a).

Definition lift {A : Type} (r : result A) : M A := fun w => (w, r).

Definition mbind {A B : Type} (m : M A) (k : A -> M B) : M B :=
  fun w =>
    match m w with
    | (w', Ok a) => k a w'
    | (w', Raise e) => (w', Raise e)
    end.

Inductive migration : Type :=
  | Clients
  | LoanProducts
  | Transactions.

(** The rows inserted into one table. *)
Definition rows_of (table : string) (st : store) : list dict :=
  omap (fun '(t, row) => if String.eqb t table then Some row else None) (inserted st).

(** [part and str(part).strip()] as a condition. *)
Definition nonblank (s : string) : bool :=
  match strip (list_ascii_of_string s) with
  | [] => false
  | _ => true
  end.

(** [sep.join(parts)]: every part must be a [str]. *)
Fixpoint join (sep : string) (parts : list val) : result string :=
  match parts with
  | [] => Ok EmptyString
  | [VStr s] => Ok s
  | VStr s :: rest => r <- join sep rest ;; Ok (s ++ sep ++ r)%string
  | _ :: _ => Raise TypeError
  end.

Section with_target.
Context {runtime : Runtime} {target : Target}.

(** [general_helper.insert_record]. *)
Definition insert_record (table : string) (data : dict) : M val :=
  fun w =>
    if accepts table data
    then (mk_world (mk_store (inserted (db w) ++ [(table, data)]) (next_id (db w) + 1))
                   (self w),
          Ok (VInt (next_id (db w))))
    else (w, Raise DatabaseError).

(** The lookups at the head of [process_columns] that apply to the
    migrations [clients] and [transactions]: branch, original branch and
    loan officer. *)
Definition common_lookups (m : migration) (row_data source_row : dict) : dict :=
  match m with
  | LoanProducts => row_data
  | Clients | Transactions =>
      if bool_decide (source_row = ∅) then row_data
      else
        let row_data :=
          if truthy (get source_row "branch_code") then
            let branch_id :=
              get_record_value "branches" "external_id" (get source_row "branch_code") "id" in
            if truthy branch_id then <["branch_id" := branch_id]> row_data else row_data
          else row_data in
        let row_data :=
          if truthy (get source_row "org_branch_code") then
            let org_branch_id :=
              get_record_value "branches" "external_id" (get source_row "org_branch_code") "id" in
            if truthy org_branch_id then <["old_branch_code" := org_branch_id]> row_data
            else row_data
          else row_data in
        if truthy (get source_row "officer_key") then
          let loan_officer_id :=
            get_record_value "users" "external_id" (get source_row "officer_key") "id" in
          if truthy loan_officer_id
          then <["created_by_id" := loan_officer_id]>
                 (<["loan_officer_id" := loan_officer_id]> row_data)
          else row_data
        else row_data
  end.

End with_target.

End Transform.

Notation "x <~ m ;; k" := (Transform.mbind m (fun x => k))
  (at level 100, m at next level, right associativity, only parsing).

(** ** [CustomLogic.process_columns], migration [clients] *)

Module Clients.
Import Py Transform.

Section with_target.
Context {runtime : Runtime} {target : Target}.

(** "lat, lon = extract_lat_lon_from_wkb(...)" and the four assignments, or
    the defaults when the source has no blob. *)
Definition set_coordinates (row_data source_row : dict) : result dict :=
  if truthy (get source_row "home_geography") then
    match Wkb.extract_lat_lon_from_wkb (get source_row "home_geography") with
    | Some (lat, lon) =>
        Ok (<["approved_longitude" := lon]> (<["longitude" := lon]>
            (<["approved_latitude" := lat]> (<["latitude" := lat]> row_data))))
    | None => Raise TypeError
    end
  else
    Ok (<["approved_longitude" := VFloat 0]> (<["longitude" := VFloat 0]>
        (<["approved_latitude" := VFloat 0]> (<["latitude" := VFloat 0]> row_data)))).

(** "6 if v is None or v == 0 or v == '' else v". *)
Definition or_default (v dflt : val) : val :=
  match v with
  | VNone => dflt
  | VStr EmptyString => dflt
  | _ => if eq_int v 0 then dflt else v
  end.

(** The branch "elif migration_name == 'clients'". *)
Definition process_clients (row_data source_row : dict) : M dict :=
  name <~ lift (item row_data "name") ;;
  national_id <~ lift (item row_data "national_id") ;;
  branch_id <~ lift (item row_data "branch_id") ;;
  gender <~ lift (item row_data "gender") ;;
  created_at <~ lift (item row_data "created_at") ;;
  let user_data : dict :=
    <["name" := name]> (<["national_id" := national_id]> (<["branch_id" := branch_id]>
    (<["gender" := gender]> (<["created_at" := created_at]> (<["role_id" := VInt 3]> ∅))))) in
  user_id <~ insert_record "users" user_data ;;
  let row_data := <["user_id" := user_id]> row_data in
  let wallet_data : dict :=
    <["user_id" := user_id]> (<["role_id" := VInt 3]> (<["currency_id" := VInt 1]>
    (<["wallet_type" := VStr "cash"]> (<["amount" := VInt 0]> (<["active" := VBool true]>
    (<["created_at" := created_at]> ∅)))))) in
  _ <~ insert_record "wallets" wallet_data ;;
  source_gender <~ lift (item source_row "gender") ;;
  let row_data := <["gender" := VBool (eq_int source_gender 1)]> row_data in
  client_status <~ lift (item source_row "client_status") ;;
  let row_data := <["is_guarantor" := VBool (eq_int client_status 0)]> row_data in
  home_add_1 <~ lift (item source_row "home_add_1") ;;
  home_add_2 <~ lift (item source_row "home_add_2") ;;
  home_add_3 <~ lift (item source_row "home_add_3") ;;
  let address_parts :=
    List.filter (fun part => truthy part && nonblank (str part))
                [home_add_1; home_add_2; home_add_3] in
  address <~ lift (match address_parts with
                   | [] => Ok VNone
                   | _ => s <- join ", " address_parts ;; Ok (VStr s)
                   end) ;;
  let row_data := <["address" := address]> row_data in
  let row_data :=
    <["birthplace_id" :=
        match Governorate.get_governorate_from_national_id national_id with
        | Some z => VInt z
        | None => VNone
        end]> row_data in
  row_data <~ lift (set_coordinates row_data source_row) ;;
  let row_data := <["corporate_id" := VInt 0]> row_data in
  let row_data := <["country_id" := VInt 63]> row_data in
  let row_data := <["display_name" := name]> row_data in
  let row_data := <["third_name" := VStr ""]> row_data in
  let row_data := <["active" := VBool true]> row_data in
  let row_data := <["status" := VStr "active"]> row_data in
  let row_data :=
    <["marital_status_id" := or_default (get row_data "marital_status_id") (VInt 6)]> row_data in
  let row_data :=
    <["qualification_id" := or_default (get row_data "qualification_id") (VInt 8)]> row_data in
  ret row_data.

End with_target.

End Clients.


(** ** [CustomLogic.process_columns], migration [transactions] *)

Module Transactions.
Import Py Transform Calendar.

Definition trans_type_mapping : gmap Z Z :=
  list_to_map [(1, 2); (3, 1); (7, 6); (17, 10); (2, 2); (4, 1); (8, 6); (18, 10)].

Definition cancellation_types : gset Z := {[2; 4; 8; 18]}.

(** [trans_type_mapping[trans_type]], with [None] for a key that is not in
    the table; [None] is never a key. *)
Definition mapped (trans_type : option Z) : option Z :=
  t ← trans_type; trans_type_mapping !! t.

Definition is_cancellation (trans_type : option Z) : bool :=
  match trans_type with
  | Some t => bool_decide (t ∈ cancellation_types)
  | None => false
  end.

(** [value < 0] and [value > 0]. *)
Definition negative (q : Q) : bool := negb (Qle_bool 0 q).
Definition positive (q : Q) : bool := negb (Qle_bool q 0).

(** The [try] around [int(trans_type)]: [Some t] is the value of both
    [trans_type] and [trans_type_int] after it; [None] means that the
    conversion raised, which leaves [trans_type_int] unbound. *)
Definition convert_type (trans_act : val) : option (option Z) :=
  match trans_act with
  | VNone => Some None
  | v => match int v with
         | Ok z => Some (Some z)
         | Raise _ => None
         end
  end.

Section with_target.
Context {runtime : Runtime} {target : Target}.

Definition now : val := VDateTime today time_of_day.

(** An [insert_record] inside "try ... except Exception": a refused
    insert is logged and nothing else happens. *)
Definition try_insert_record (table : string) (data : dict) : M unit :=
  fun w =>
    match insert_record table data w with
    | (w', Ok _) => (w', Ok tt)
    | (w', Raise _) => (w', Ok tt)
    end.

(** Loan, reversal flag and installment reference. *)
Definition resolve_loan (row_data source_row : dict) : dict :=
  if truthy (get source_row "loan_key") then
    let loan_id := get_record_value "loans" "external_id" (get source_row "loan_key") "id" in
    let row_data :=
      if truthy loan_id then
        let row_data := <["loan_id" := loan_id]> row_data in
        let loan_status := get_record_value "loans" "id" loan_id "status" in
        let reversed :=
          match loan_status with
          | VStr s => String.eqb s "withdrawn" || String.eqb s "rejected"
          | _ => false
          end in
        <["reversed" := VBool reversed]> row_data
      else row_data in
    if truthy (get source_row "installment_key") then
      let repayment_schedule_id :=
        get_record_value "loan_repayment_schedules" "external_id"
                         (get source_row "installment_key") "id" in
      if truthy loan_id then <["repayment_schedule_id" := repayment_schedule_id]> row_data
      else row_data
    else row_data
  else row_data.

(** "if row_data.get(field) is None: row_data[field] = 0". *)
Definition coalesce_zero (field : string) (row_data : dict) : dict :=
  match get row_data field with
  | VNone => <[field := VInt 0]> row_data
  | _ => row_data
  end.

Definition penalties_tx_data (row_data : dict) (adjusted : Q) (cancellation : bool) : dict :=
  <["loan_id" := get row_data "loan_id"]>
  (<["amount" := VFloat adjusted]>
  (<["debit" := VFloat adjusted]>
  (<["penalties_repaid_derived" := VFloat adjusted]>
  (<["loan_transaction_type_id" := VInt 12]>
  (<["created_at" := get_or row_data "created_at" now]>
  (<["updated_at" := now]>
  (<["submitted_on" := get_or row_data "submitted_on" now]>
  (<["branch_id" := get row_data "branch_id"]>
  (<["loan_officer_id" := get row_data "loan_officer_id"]>
  (<["description" :=
       VStr (if cancellation then "Cancel Apply Penalty" else "Apply Penalty")]> ∅)))))))))).

Definition fees_tx_data (row_data : dict) (adjusted : Q) (cancellation : bool) : dict :=
  <["loan_id" := get row_data "loan_id"]>
  (<["amount" := VFloat adjusted]>
  (<["credit" := VFloat adjusted]>
  (<["fees_repaid_derived" := VFloat adjusted]>
  (<["loan_transaction_type_id" := VInt 2]>
  (<["created_at" := get_or row_data "created_at" now]>
  (<["updated_at" := now]>
  (<["submitted_on" := get_or row_data "submitted_on" now]>
  (<["branch_id" := get row_data "branch_id"]>
  (<["loan_officer_id" := get row_data "loan_officer_id"]>
  (<["description" :=
       VStr (if cancellation then "Cancel Pay Charges" else "Pay Charges")]> ∅)))))))))).

(** The separate penalty transaction. *)
Definition penalty_side_record (row_data : dict) (trans_type_int : option (option Z)) : M unit :=
  penalties_amount <~ lift (float (get_or row_data "penalties_repaid_derived" (VInt 0))) ;;
  if positive penalties_amount && has_key row_data "loan_id" then
    match trans_type_int with
    | None => lift (Raise UnboundLocalError)
    | Some t =>
        let cancellation := is_cancellation t in
        let adjusted := if cancellation then (- penalties_amount)%Q else penalties_amount in
        try_insert_record "loan_transactions" (penalties_tx_data row_data adjusted cancellation)
    end
  else ret tt.

(** The separate charges transaction for the source types 17 and 18. *)
Definition fees_side_record (row_data : dict) (trans_type_int : option (option Z)) : M unit :=
  match trans_type_int with
  | None => lift (Raise UnboundLocalError)
  | Some t =>
      if bool_decide (t = Some 17 \/ t = Some 18) && has_key row_data "loan_id" then
        fees_amount <~ lift (float (get_or row_data "amount" (VInt 0))) ;;
        if positive fees_amount then
          let cancellation := bool_decide (t = Some 18) in
          let adjusted := if cancellation then (- fees_amount)%Q else fees_amount in
          try_insert_record "loan_transactions" (fees_tx_data row_data adjusted cancellation)
        else ret tt
      else ret tt
  end.

(** One turn of "Convert negative values to positive". *)
Definition make_non_negative (field : string) (row_data : dict) : result dict :=
  match row_data !! field with
  | None | Some VNone => Ok row_data
  | Some v =>
      value <- float v ;;
      Ok (if negative value then <[field := VFloat (Qabs value)]> row_data else row_data)
  end.

(** "created_at + timedelta(hours=1)" on a datetime. *)
Definition shift_created_at (row_data : dict) : result dict :=
  match row_data !! "created_at" with
  | Some (VDateTime d us) =>
      r <- add_one_hour d us ;;
      Ok (<["created_at" := VDateTime (fst r) (snd r)]> row_data)
  | _ => Ok row_data
  end.

Definition default_submitted_on (row_data : dict) : result dict :=
  match row_data !! "submitted_on" with
  | None | Some VNone =>
      created_at <- item row_data "created_at" ;;
      Ok (<["submitted_on" := created_at]> row_data)
  | _ => Ok row_data
  end.

(** One of the three "make it negative if it is positive" blocks, each in
    its own "try ... except (ValueError, TypeError)". *)
Definition make_negative (field : string) (row_data : dict) : dict :=
  match float (get row_data field) with
  | Ok value => if positive value then <[field := VFloat (- value)]> row_data else row_data
  | Raise _ => row_data
  end.

Definition recalculate_principal (row_data : dict) : dict :=
  match float (get row_data "amount"), float (get row_data "interest_repaid_derived") with
  | Ok amount, Ok interest =>
      <["principal_repaid_derived" := VFloat (amount - interest)]> row_data
  | _, _ => row_data
  end.

Definition count_skipped (trans_type : option Z) : M unit :=
  fun w =>
    (mk_world (db w)
       (mk_counters (skipped_transactions (self w) + 1)
                    (inserted_transactions (self w))
                    (<[trans_type := default 0 (skipped_types_count (self w) !! trans_type) + 1]>
                       (skipped_types_count (self w)))),
     Ok tt).

Definition count_inserted : M unit :=
  fun w =>
    (mk_world (db w)
       (mk_counters (skipped_transactions (self w))
                    (inserted_transactions (self w) + 1)
                    (skipped_types_count (self w))),
     Ok tt).

(** Loan resolution and the three "is None" defaults. *)
Definition prepare (row_data source_row : dict) : dict :=
  coalesce_zero "penalties_repaid_derived"
    (coalesce_zero "interest_repaid_derived"
       (coalesce_zero "amount" (resolve_loan row_data source_row))).

(** From "Convert negative values to positive" to "amount = amount +
    penalties_repaid_derived". *)
Definition normalise_amounts (row_data : dict) : result dict :=
  row_data <- make_non_negative "amount" row_data ;;
  row_data <- make_non_negative "interest_repaid_derived" row_data ;;
  row_data <- make_non_negative "penalties_repaid_derived" row_data ;;
  let row_data := <["updated_at" := now]> row_data in
  row_data <- shift_created_at row_data ;;
  row_data <- default_submitted_on row_data ;;
  amount <- (v <- item row_data "amount" ;; float v) ;;
  interest_repaid <- (v <- item row_data "interest_repaid_derived" ;; float v) ;;
  let row_data := <["principal_repaid_derived" := VFloat (amount - interest_repaid)]> row_data in
  penalties <- (v <- item row_data "penalties_repaid_derived" ;; float v) ;;
  Ok (<["amount" := VFloat (amount + penalties)]> row_data).

(** The sign flips of a cancellation and the recalculation after them. *)
Definition negate_cancellation (row_data : dict) : dict :=
  recalculate_principal
    (make_negative "penalties_repaid_derived"
       (make_negative "interest_repaid_derived"
          (make_negative "amount" row_data))).

(** From "Skip transactions that don't have a mapping" to the end. *)
Definition finish_row (row_data : dict) (trans_type : option Z) : M dict :=
  match mapped trans_type with
  | None =>
      _ <~ count_skipped trans_type ;;
      ret (<["_skip_this_row" := VBool true]> row_data)
  | Some target_type =>
      let row_data :=
        if is_cancellation trans_type then negate_cancellation row_data else row_data in
      _ <~ count_inserted ;;
      let row_data := <["loan_transaction_type_id" := VInt target_type]> row_data in
      let row_data :=
        if bool_decide (target_type = 1 \/ target_type = 10)
        then <["credit" := VInt 0]> (<["debit" := get row_data "amount"]> row_data)
        else <["credit" := get row_data "amount"]> (<["debit" := VInt 0]> row_data) in
      ret row_data
  end.

(** The branch "elif migration_name == 'transactions'". *)
Definition process_transactions (row_data source_row : dict) : M dict :=
  if bool_decide (source_row = ∅) then ret row_data
  else
    let row_data := prepare row_data source_row in
    let trans_type_int := convert_type (get source_row "trans_act") in
    _ <~ penalty_side_record row_data trans_type_int ;;
    _ <~ fees_side_record row_data trans_type_int ;;
    row_data <~ lift (normalise_amounts row_data) ;;
    finish_row row_data (default None trans_type_int).

End with_target.

End Transactions.

(** ** [CustomLogic.process_columns] as a whole and the row loop of
    [run_script] *)

Module CustomLogic.
Import Py Transform.

Section with_target.
Context {runtime : Runtime} {target : Target}.

Definition process_columns (m : migration) (row_data source_row : dict) : M dict :=
  let row_data := common_lookups m row_data source_row in
  match m with
  | Clients => Clients.process_clients row_data source_row
  | LoanProducts => lift (LoanProducts.process_loan_products row_data)
  | Transactions => Transactions.process_transactions row_data source_row
  end.

Record tallies : Type := mk_tallies {
  successful_inserts : Z;
  failed_inserts : Z
}.

(** The body of "for i, row in enumerate(data_to_migrate)" for the
    migration [transactions], from the call of [process_columns] on; the
    two dicts are built from the fetched row before.  The dict that
    [process_columns] changed in place is inserted with every key it has;
    any exception counts the row as failed. *)
Definition migrate_transaction_row (target_table : string)
    (processed_row source_row : dict) (st : world * tallies) : world * tallies :=
  let '(w, t) := st in
  match process_columns Transactions processed_row source_row w with
  | (w, Ok processed_row) =>
      match insert_record target_table processed_row w with
      | (w, Ok _) => (w, mk_tallies (successful_inserts t + 1) (failed_inserts t))
      | (w, Raise _) => (w, mk_tallies (successful_inserts t) (failed_inserts t + 1))
      end
  | (w, Raise _) => (w, mk_tallies (successful_inserts t) (failed_inserts t + 1))
  end.

End with_target.

End CustomLogic.

(** ** Sample data for the closed examples *)

(** A runtime for closed examples: it reads no float literal and no date,
    prints the values outside [str] as the empty string, reads every
    double as 0.0 and stands at midnight of 2025-01-01.  The examples that
    use it depend on none of these choices. *)
Definition bare_runtime : Py.Runtime :=
  {| Py.float_of_string := fun _ => None;
     Py.str_other := fun _ => ""%string;
     Py.unpack_double := fun _ => Py.VFloat 0;
     Py.today := Py.mkdate 2025 1 1;
     Py.time_of_day := 0;
     Py.strptime_ymd := fun _ => None |}.

Module Samples.
Import Py Schema.

(** A ledger row of a loan with its type, its three repaid fields and its
    amount; every other column is NULL. *)
Definition ledger_row (id loan type : Z) (principal interest penalties amount : Q)
  : transaction_row :=
  mk_transaction id (Some loan) None (Some type) (Some amount) None None
    (Some principal) (Some interest) None (Some penalties)
    None None None None None VNone VNone VNone None None None.

Definition ledger (table : list transaction_row) : connection :=
  let db := mk_database [] [] table 100 in
  mk_connection db db.

(** One disbursement of 1000 principal and 100 interest. *)
Definition disbursed_ledger : connection :=
  ledger [ledger_row 1 7 1 1000 100 0 1100].

(** A disbursement of 1000 without repaid principal or interest, charges
    of 50 and a repayment of 10 + 5 + 1. *)
Definition disbursed_and_repaid_ledger : connection :=
  ledger [ledger_row 1 7 1 0 0 0 1000; ledger_row 2 7 10 0 0 0 50; ledger_row 3 7 2 10 5 1 16].

(** Charges of 50, then a repayment of 10 + 5 + 1, then an unknown type. *)
Definition charged_ledger : connection :=
  ledger [ledger_row 3 7 12 0 0 0 9; ledger_row 1 7 10 0 0 0 50; ledger_row 2 7 2 10 5 1 16].

(** An installment of a loan with its sequence number, principal and
    interest due and repaid; every other column is NULL. *)
Definition installment (id loan seq : Z) (principal interest : Q)
    (principal_repaid interest_repaid : Q) (paid_by : val) : installment_row :=
  mk_installment id (Some loan) (Some seq)
    (Some principal) (Some interest) None None
    (Some principal_repaid) (Some interest_repaid) None None
    None None None None None None None
    paid_by (Some "active"%string) None.

Definition loan_1 : loan_row := mk_loan 1 (Some "L1"%string) (Some 3) "active" (Some 2) (Some 4).

(** Loan 1 with its single installment fully repaid and the repayment
    booked against that installment. *)
Definition paid_up_loan : connection :=
  let db :=
    mk_database [loan_1]
      [installment 10 1 1 100 10 100 10 (VDate (mkdate 2024 5 1))]
      [mk_transaction 5 (Some 1) (Some 10) (Some 2) (Some 110%Q) None (Some 110%Q)
         (Some 100%Q) (Some 10%Q) None None
         (Some 0%Q) (Some 0%Q) (Some 0%Q) (Some 0%Q) (Some 0%Q)
         VNone VNone VNone None None None]
      6 in
  mk_connection db db.

(** Loan 1 with a first installment repaid and the last one, the
    settlement installment, unpaid. *)
Definition last_unpaid_loan : connection :=
  let db :=
    mk_database [loan_1]
      [installment 10 1 1 100 10 100 10 (VDate (mkdate 2024 5 1));
       installment 11 1 2 200 20 0 0 (VDate (mkdate 2024 6 1))]
      [] 1 in
  mk_connection db db.

(** Loan 1 with two unpaid installments before the settlement
    installment. *)
Definition early_settled_loan : connection :=
  let db :=
    mk_database [loan_1]
      [installment 10 1 1 100 10 0 0 VNone;
       installment 11 1 2 100 10 0 0 VNone;
       installment 12 1 3 200 20 200 20 (VDate (mkdate 2024 6 1))]
      [] 1 in
  mk_connection db db.

(** A target for the closed examples.  Every loan key resolves to the
    active loan 7, no other lookup finds a row, and the tables have no
    column [_skip_this_row]: an INSERT that names it is refused. *)
Definition sample_target : Transform.Target :=
  {| Transform.get_record_value := fun table column _ result =>
       if String.eqb table "loans" then
         if String.eqb result "id" then VInt 7
         else if String.eqb result "status" then VStr "active" else VNone
       else VNone;
     Transform.accepts := fun _ data => negb (has_key data "_skip_this_row") |}.

Definition empty_world : Transform.world :=
  Transform.mk_world (Transform.mk_store [] 1) (Transform.mk_counters 0 0 ∅).

(** A client whose geography blob does not start with the expected
    prefix. *)
Definition client_row : dict :=
  <["name" := VStr "Mona"]> (<["national_id" := VStr "29001010512345"]>
  (<["branch_id" := VInt 2]> (<["gender" := VInt 2]>
  (<["created_at" := VDate (mkdate 2024 1 15)]> ∅)))).

Definition client_source_row : dict :=
  <["gender" := VInt 2]> (<["client_status" := VInt 1]>
  (<["home_add_1" := VStr "12 Nile St"]> (<["home_add_2" := VStr ""]>
  (<["home_add_3" := VNone]> (<["home_geography" := VStr "0x0101000020E6100000"]> ∅))))).

(** A source transaction of a given type with amount, interest and
    penalties, for the loan with key "L7". *)
Definition transaction_row (amount interest penalties : Q) : dict :=
  <["amount" := VFloat amount]> (<["interest_repaid_derived" := VFloat interest]>
  (<["penalties_repaid_derived" := VFloat penalties]>
  (<["created_at" := VDateTime (mkdate 2024 3 1) 0]> ∅))).

Definition transaction_source_row (trans_act : Z) : dict :=
  <["trans_act" := VInt trans_act]> (<["loan_key" := VStr "L7"]> ∅).

(** A loan disbursed on 2024-01-31. *)
Definition jan31_2024 : dict := <["disbursed_on_date" := VDate (mkdate 2024 1 31)]> ∅.

(** A product with a flat default rate of 21 over 63 periods: the exact
    declining rate is 41.34375, halfway between two numbers of four
    decimals. *)
Definition product_21_63 : dict :=
  <["flat_default_interest_rate" := VInt 21]>
  (<["default_loan_term" := VInt 63]>
  (<["loan_transaction_processing_strategy_id" := VInt 1]> ∅)).

(** A product with a flat default rate of 12 over 12 periods. *)
Definition product_12_12 : dict :=
  <["flat_default_interest_rate" := VInt 12]>
  (<["default_loan_term" := VInt 12]>
  (<["loan_transaction_processing_strategy_id" := VInt 2]> ∅)).

End Samples.

(** ** The row loop of [run_script] *)

Module MigrationLoop.
Import Py Transform.

(** One line of the mapping file. *)
Record mapping : Type := mk_mapping {
  source_table : string;
  source_column : string;
  target_table : string;
  target_column : string
}.

Section with_target.
Context {runtime : Runtime} {target : Target}.

(** "if value is not None and not isinstance(value, (str, int, float,
    bool, datetime.date, datetime.datetime)): value = str(value)".  Of the
    values of [val] only the bytes are of another type than these; a
    [VFloat] is a Python [float] here. *)
Definition supported (value : val) : val :=
  match value with
  | VBytes _ => VStr (str value)
  | _ => value
  end.

(** The loop "for idx, mapping in enumerate(migration)" that fills the two
    dicts from a fetched row; [None] stands for the [IndexError] of
    [row[idx]] on a row that is too short. *)
Fixpoint build_row (migration : list mapping) (row : list val)
    (processed_row source_row : dict) : option (dict * dict) :=
  match migration with
  | [] => Some (processed_row, source_row)
  | m :: rest =>
      match row with
      | [] => None
      | value :: values =>
          build_row rest values
            (<[target_column m := supported value]> processed_row)
            (<[source_column m := value]> source_row)
      end
  end.

Definition count_failed (st : world * CustomLogic.tallies) : world * CustomLogic.tallies :=
  (fst st, CustomLogic.mk_tallies (CustomLogic.successful_inserts (snd st))
                                  (CustomLogic.failed_inserts (snd st) + 1)).

(** The body of "for i, row in enumerate(data_to_migrate)" for the
    migration [transactions]; the target table is
    [migration[0]['target_table']]. *)
Definition migrate_row (migration : list mapping) (row : list val)
    (st : world * CustomLogic.tallies) : world * CustomLogic.tallies :=
  match build_row migration row ∅ ∅, migration with
  | Some (processed_row, source_row), m :: _ =>
      CustomLogic.migrate_transaction_row (target_table m) processed_row source_row st
  | _, _ => count_failed st
  end.

Definition migrate_rows (migration : list mapping) (data_to_migrate : list (list val))
    (st : world * CustomLogic.tallies) : world * CustomLogic.tallies :=
  fold_left (fun st row => migrate_row migration row st) data_to_migrate st.

(** The migration of one table: the loop from zero tallies, then "if
    successful_inserts > 0: commit, else: rollback".  The result is what
    the target holds for good after it, and the tallies. *)
Definition run_migration (migration : list mapping) (data_to_migrate : list (list val))
    (w : world) : list (string * dict) * CustomLogic.tallies :=
  let st := migrate_rows migration data_to_migrate (w, CustomLogic.mk_tallies 0 0) in
  (if 0 <? CustomLogic.successful_inserts (snd st)
   then inserted (db (fst st)) else inserted (db w),
   snd st).

End with_target.

End MigrationLoop.

(** ** [CustomLogic.process_columns], migration [installments]

    None of the lookups at the head of [process_columns] applies to this
    migration. *)

Module Installments.
Import Py Transform.

Definition non_negative_fields : list string :=
  ["principal"; "principal_repaid_derived"; "interest"; "interest_repaid_derived";
   "fees"; "fees_repaid_derived"]%string.

Section with_target.
Context {runtime : Runtime} {target : Target}.

(** The loop "Convert negative values to positive" over the six fields;
    one turn is the same code as in the migration [transactions]. *)
Fixpoint make_fields_non_negative (fields : list string) (row_data : dict) : result dict :=
  match fields with
  | [] => Ok row_data
  | field :: rest =>
      row_data <- Transactions.make_non_negative field row_data ;;
      make_fields_non_negative rest row_data
  end.

(** [loan_status == 'written_off']. *)
Definition is_written_off (loan_status : val) : bool :=
  match loan_status with
  | VStr s => String.eqb s "written_off"
  | _ => false
  end.

(** "active" with an empty paid_by_date, or "closed", by the principal
    that is still due. *)
Definition active_or_closed (principal principal_repaid_derived : Q) (row_data : dict) : dict :=
  if negb (Qle_bool principal principal_repaid_derived)
  then <["paid_by_date" := VNone]> (<["status" := VStr "active"]> row_data)
  else <["status" := VStr "closed"]> row_data.

(** The branch "elif migration_name == 'installments'". *)
Definition process_installments (row_data source_row : dict) : result dict :=
  row_data <- make_fields_non_negative non_negative_fields row_data ;;
  principal <- (v <- item row_data "principal" ;; float v) ;;
  principal_repaid_derived <- (v <- item row_data "principal_repaid_derived" ;; float v) ;;
  let has_source := negb (bool_decide (source_row = ∅)) in
  let row_data :=
    if has_source && truthy (get source_row "loan_key") then
      let loan_id := get_record_value "loans" "external_id" (get source_row "loan_key") "id" in
      if truthy loan_id then <["loan_id" := loan_id]> row_data else row_data
    else row_data in
  let row_data :=
    if has_source && has_key source_row "inst_cond" then
      let loan_status :=
        if truthy (get row_data "loan_id")
        then get_record_value "loans" "id" (get row_data "loan_id") "status"
        else VNone in
      if is_written_off loan_status && eq_int (get source_row "inst_cond") 2
      then <["status" := VStr "written_off"]> row_data
      else if eq_int (get source_row "inst_status") 8
      then <["status" := VStr "rescheduled"]> row_data
      else active_or_closed principal principal_repaid_derived row_data
    else active_or_closed principal principal_repaid_derived row_data in
  interest <- (v <- item row_data "interest" ;; float v) ;;
  interest_repaid_derived <- (v <- item row_data "interest_repaid_derived" ;; float v) ;;
  let principal := (principal - interest)%Q in
  let principal_repaid_derived := (principal_repaid_derived - interest_repaid_derived)%Q in
  Ok (<["principal_repaid_derived" := VFloat principal_repaid_derived]>
      (<["principal" := VFloat principal]>
      (<["interest_repaid_derived" := VFloat interest_repaid_derived]>
      (<["interest" := VFloat interest]> row_data)))).

End with_target.

End Installments.

(** ** [CustomLogic.process_columns], migration [officers], and the row
    loop of [run_script] for it *)

Module Officers.
Import Py Transform.

(** [c.lower()] on a code point below 256: the letters A to Z and the
    capital letters of Latin-1 (192 to 222 without the sign at 215). *)
Definition lower_char (c : ascii) : ascii :=
  let n := code c in
  if (((65 <=? n) && (n <=? 90)) || ((192 <=? n) && (n <=? 222) && negb (n =? 215)))%N
  then ascii_of_N (n + 32) else c.

(** [s.lower()] and [s.replace(' ', '.')]. *)
Fixpoint lower (s : string) : string :=
  match s with
  | EmptyString => EmptyString
  | String c rest => String (lower_char c) (lower rest)
  end.

Fixpoint spaces_to_dots (s : string) : string :=
  match s with
  | EmptyString => EmptyString
  | String c rest => String (if Ascii.eqb c " " then "."%char else c) (spaces_to_dots rest)
  end.

Section with_target.
Context {runtime : Runtime} {target : Target}.

(** The only lookup at the head of [process_columns] that applies to the
    migration [officers]: the branch. *)
Definition common_lookups (row_data source_row : dict) : dict :=
  if bool_decide (source_row = ∅) then row_data
  else if truthy (get source_row "branch_code") then
    let branch_id :=
      get_record_value "branches" "external_id" (get source_row "branch_code") "id" in
    if truthy branch_id then <["branch_id" := branch_id]> row_data else row_data
  else row_data.

(** The branch "if migration_name == 'officers'". *)
Definition process_officers (row_data : dict) : result dict :=
  let row_data :=
    match row_data !! "name" with
    | Some name =>
        let name_part := spaces_to_dots (lower (str name)) in
        <["email" := VStr (name_part ++ "@sandah.org")]> row_data
    | None => row_data
    end in
  gender <- item row_data "gender" ;;
  let row_data := <["gender" := VBool (eq_int gender 1)]> row_data in
  Ok (<["role_id" := VInt 60]> row_data).

Definition process_columns (row_data source_row : dict) : M dict :=
  lift (process_officers (common_lookups row_data source_row)).

Definition wallet_data (user_id : val) : dict :=
  <["user_id" := user_id]> (<["role_id" := VInt 60]> (<["currency_id" := VInt 1]>
  (<["wallet_type" := VStr "cash"]> (<["amount" := VInt 0]> (<["active" := VBool true]> ∅))))).

(** The body of "for i, row in enumerate(data_to_migrate)" for the
    migration [officers], from the call of [process_columns] on: the main
    insert is counted as soon as it is done, and an exception of the
    wallet insert after it is counted as a failure of the same row. *)
Definition migrate_officer_row (target_table : string)
    (processed_row source_row : dict) (st : world * CustomLogic.tallies)
  : world * CustomLogic.tallies :=
  let '(w, t) := st in
  match process_columns processed_row source_row w with
  | (w, Ok processed_row) =>
      match insert_record target_table processed_row w with
      | (w, Ok last_inserted_id) =>
          let t := CustomLogic.mk_tallies (CustomLogic.successful_inserts t + 1)
                                          (CustomLogic.failed_inserts t) in
          if truthy last_inserted_id then
            match insert_record "wallets" (wallet_data last_inserted_id) w with
            | (w, Ok _) => (w, t)
            | (w, Raise _) =>
                (w, CustomLogic.mk_tallies (CustomLogic.successful_inserts t)
                                           (CustomLogic.failed_inserts t + 1))
            end
          else (w, t)
      | (w, Raise _) =>
          (w, CustomLogic.mk_tallies (CustomLogic.successful_inserts t)
                                     (CustomLogic.failed_inserts t + 1))
      end
  | (w, Raise _) =>
      (w, CustomLogic.mk_tallies (CustomLogic.successful_inserts t)
                                 (CustomLogic.failed_inserts t + 1))
  end.

End with_target.

End Officers.

(** ** [CustomLogic.process_columns], migration [loans]: the status (the
    block that starts at "Loan status mapping") *)

Module LoansStatus.
Import Py.

(** The chain of "if ... elif" on [loan_cond], [fully_paid_date] and
    [loan_status]. *)
Definition status_of (source_row : dict) : string :=
  let loan_status := get source_row "loan_status" in
  let loan_cond := get source_row "loan_cond" in
  if eq_int loan_cond 2
     && negb (match get source_row "fully_paid_date" with VNone => true | _ => false end)
  then "written_off"
  else if eq_int loan_status 0 then "submitted"
  else if eq_int loan_status 1 then "active"
  else if eq_int loan_status 5 then "closed"
  else if eq_int loan_status 6 then "withdrawn"
  else "pending".

Definition set_status (row_data source_row : dict) : result dict :=
  let status := status_of source_row in
  let row_data := <["status" := VStr status]> row_data in
  if negb (String.eqb status "approved") then
    approved_amount <- item row_data "approved_amount" ;;
    Ok (<["principal_disbursed_derived" := approved_amount]> row_data)
  else Ok row_data.

End LoansStatus.

(** ** [general_helper.load_migration_config] and [MigrationManager] *)

Module Config.
Import Py MigrationLoop.

(** A row of [csv.DictReader]: the five required columns of a line that
    has a field for each of them (the reader skips empty lines). *)
Record config_row : Type := mk_config_row {
  migration_name : string;
  row_source_table : string;
  row_source_column : string;
  row_target_table : string;
  row_target_column : string
}.

Definition required_headers : list string :=
  ["migration_name"; "source_table"; "source_column"; "target_table"; "target_column"]%string.

Definition mapping_of (row : config_row) : mapping :=
  mk_mapping (row_source_table row) (row_source_column row)
             (row_target_table row) (row_target_column row).

(** "migrations[name].append(m)" on a [defaultdict(list)], which keeps its
    keys in the order in which they were first used. *)
Fixpoint append_to (name : string) (m : mapping) (migrations : list (string * list mapping))
  : list (string * list mapping) :=
  match migrations with
  | [] => [(name, [m])]
  | (key, ms) :: rest =>
      if String.eqb key name then (key, ms ++ [m]) :: rest
      else (key, ms) :: append_to name m rest
  end.

(** [migrations[name]] on the [defaultdict]. *)
Fixpoint group (name : string) (migrations : list (string * list mapping)) : list mapping :=
  match migrations with
  | [] => []
  | (key, ms) :: rest => if String.eqb key name then ms else group name rest
  end.

(** The loop "for row in reader". *)
Definition group_rows (rows : list config_row) : list (string * list mapping) :=
  fold_left (fun migrations row =>
               append_to (migration_name row) (mapping_of row) migrations)
            rows [].

(** [load_migration_config]; [fieldnames] is the header of the file,
    [None] for a file without a line. *)
Definition load_migration_config (fieldnames : option (list string)) (rows : list config_row)
  : result (list (string * list mapping)) :=
  match fieldnames with
  | None => Raise TypeError
  | Some fieldnames =>
      if forallb (fun header => bool_decide (header ∈ fieldnames)) required_headers
      then Ok (group_rows rows)
      else Raise ValueError
  end.

Record manager : Type := mk_manager {
  migration_config : list (string * list mapping);
  migrations : list string
}.

(** [MigrationManager.__init__]. *)
Definition new_manager (fieldnames : option (list string)) (rows : list config_row)
  : result manager :=
  migration_config <- load_migration_config fieldnames rows ;;
  let migrations := map fst migration_config in
  match migrations with
  | [] => Raise ValueError
  | _ => Ok (mk_manager migration_config migrations)
  end.

(** [MigrationManager.get_migration_by_index]. *)
Definition get_migration_by_index (self : manager) (index : Z) : result (list mapping) :=
  if (0 <=? index) && (index <? Z.of_nat (length (migrations self))) then
    match migrations self !! Z.to_nat index with
    | Some migration_name => Ok (group migration_name (migration_config self))
    | None => Raise ValueError
    end
  else Raise ValueError.

End Config.

(** The keys of the configuration in the words of the specification: the
    migration names in the order of their first line in the file. *)
Module ConfigSpec.

Definition first_occurrences (names : list string) : list string :=
  reverse (remove_dups (reverse names)).

End ConfigSpec.

(** What the properties of the loop are stated with. *)
Module MigrationLoopSpec.
Import Py Transform.

(** The store after a computation extends the store before it. *)
Definition grows {A : Type} (m : M A) : Prop :=
  forall w, inserted (db w) `prefix_of` inserted (db (fst (m w))).

(** One row: exactly one of the two tallies grows by one, the store only
    grows, and a successful row adds at least its own record. *)
Definition row_step (st st' : world * CustomLogic.tallies) : Prop :=
  inserted (db (fst st)) `prefix_of` inserted (db (fst st')) /\
  ((CustomLogic.successful_inserts (snd st') = CustomLogic.successful_inserts (snd st) + 1 /\
    CustomLogic.failed_inserts (snd st') = CustomLogic.failed_inserts (snd st) /\
    (length (inserted (db (fst st))) < length (inserted (db (fst st'))))%nat) \/
   (CustomLogic.successful_inserts (snd st') = CustomLogic.successful_inserts (snd st) /\
    CustomLogic.failed_inserts (snd st') = CustomLogic.failed_inserts (snd st) + 1)).

End MigrationLoopSpec.

(** The texts that the geography decoder reads, in the words of its
    documentation: hex digits in either case, an even number of them. *)
Module WkbSpec.
Import Py Wkb.

Definition is_hex (c : ascii) : bool :=
  match hex_value c with Some _ => true | None => false end.

Definition well_formed (hex : string) : bool :=
  String.prefix specific_prefix hex && (min_len <=? String.length hex)%nat
  && Nat.even (String.length hex) && forallb is_hex (list_ascii_of_string hex).

End WkbSpec.

(** The address of a client in the words of the specification: the parts
    that are text with something else than white space, joined by a comma
    and a space; null when there is none. *)
Module ClientsSpec.
Import Py Transform.

Definition address_text (part : val) : option string :=
  match part with
  | VStr s => if nonblank s then Some s else None
  | _ => None
  end.

Definition joined_address (parts : list val) : val :=
  match omap address_text parts with
  | [] => VNone
  | texts => VStr (String.concat ", " texts)
  end.

(** A computation that leaves the store and the counters as they are. *)
Definition keeps_world {A : Type} (m : M A) : Prop := forall w, fst (m w) = w.

End ClientsSpec.

(** What a run of the settlement engine makes of a stored row, by the loan
    of the row. *)
Module SettlementRunSpec.
Import Schema Settlement SettlementSpec.

Definition settled_row (table : list transaction_row) (row : transaction_row)
  : transaction_row :=
  match tx_loan_id row with
  | Some loan => written_by (fetch_transactions table loan) initial_balances row
  | None => row
  end.

End SettlementRunSpec.

Module MoreSamples.
Import Py Schema.

(** Loan 1 with an unpaid installment and a settlement installment whose
    paid_by_date is a text that is no date. *)
Definition text_date_loan : connection :=
  let db :=
    mk_database [Samples.loan_1]
      [Samples.installment 10 1 1 100 10 0 0 VNone;
       Samples.installment 12 1 2 200 20 200 20 (VStr "not a date")]
      [] 1 in
  mk_connection db db.

(** Loan 1 as in [Samples.early_settled_loan], stored between the rows of
    loan 2, which has an installment repaid and one unpaid. *)
Definition loan_2 : loan_row := mk_loan 2 (Some "L2"%string) (Some 2) "active" (Some 2) (Some 4).

Definition two_loans : connection :=
  let db :=
    mk_database [loan_2; Samples.loan_1]
      [Samples.installment 20 2 1 300 30 300 30 (VDate (mkdate 2024 4 1));
       Samples.installment 10 1 1 100 10 0 0 VNone;
       Samples.installment 11 1 2 100 10 0 0 VNone;
       Samples.installment 21 2 2 300 30 0 0 VNone;
       Samples.installment 12 1 3 200 20 200 20 (VDate (mkdate 2024 6 1))]
      [] 1 in
  mk_connection db db.

(** A source transaction whose type code is a text that is no number. *)
Definition text_type_source_row : dict :=
  <["trans_act" := VStr "abc"]> (<["loan_key" := VStr "L7"]> ∅).

(** The source row of a client without geography. *)
Definition plain_client_source_row : dict :=
  <["gender" := VInt 2]> (<["client_status" := VInt 1]>
  (<["home_add_1" := VStr "12 Nile St"]> (<["home_add_2" := VStr "  "]>
  (<["home_add_3" := VStr "Giza"]> ∅)))).

(** A geography text of 76 hex digits after the 0x. *)
Definition geography_text : string :=
  "0xE6100000010F0000000000000000000000000000000000000000000000000000000000000000"%string.

(** A loan disbursed on 2024-01-31 at 10:30. *)
Definition jan31_2024_morning : dict :=
  <["disbursed_on_date" := VDateTime (mkdate 2024 1 31) 37800000000]> ∅.

(** An installment of 110 with 10 of interest in it, stored with a
    negative sign, nothing repaid. *)
Definition negative_installment : dict :=
  <["principal" := VInt (-110)]> (<["principal_repaid_derived" := VInt 0]>
  (<["interest" := VInt 10]> (<["interest_repaid_derived" := VInt 0]>
  (<["fees" := VNone]> (<["paid_by_date" := VDate (mkdate 2024 5 1)]> ∅))))).

Definition installment_source_row : dict :=
  <["loan_key" := VStr "L7"]> (<["inst_cond" := VInt 0]> (<["inst_status" := VInt 0]> ∅)).

(** The mapping of four source columns of the transactions table and three
    fetched rows: a repayment, a row of the unmapped type 99 and a row
    that is too short. *)
Definition transactions_mapping : list MigrationLoop.mapping :=
  [MigrationLoop.mk_mapping "ilts.c1_trans" "trans_act" "loan_transactions" "source_type";
   MigrationLoop.mk_mapping "ilts.c1_trans" "loan_key" "loan_transactions" "external_id";
   MigrationLoop.mk_mapping "ilts.c1_trans" "trans_am" "loan_transactions" "amount";
   MigrationLoop.mk_mapping "ilts.c1_trans" "trans_date" "loan_transactions" "created_at"].

Definition fetched_transactions : list (list val) :=
  [[VInt 1; VStr "L7"; VFloat 100; VDateTime (mkdate 2024 3 1) 0];
   [VInt 99; VStr "L7"; VFloat 50; VDateTime (mkdate 2024 3 2) 0];
   [VInt 1; VStr "L7"]].

(** A mapping file with two migrations, the lines of the first one apart. *)
Definition mapping_file : list Config.config_row :=
  [Config.mk_config_row "clients" "ilts.c1_client" "client_key" "clients" "external_id";
   Config.mk_config_row "officers" "ilts.c1_officer" "officer_name" "users" "name";
   Config.mk_config_row "clients" "ilts.c1_client" "client_name" "clients" "name"].

(** An officer and a target that has no table of wallets. *)
Definition officer_sample : dict :=
  <["name" := VStr "Ali Hassan"]> (<["gender" := VInt 1]> ∅).

Definition officer_source_row : dict := <["officer_name" := VStr "Ali Hassan"]> ∅.

Definition target_without_wallets : Transform.Target :=
  {| Transform.get_record_value := fun _ _ _ _ => VNone;
     Transform.accepts := fun table _ => negb (String.eqb table "wallets") |}.

(** A loan that was written off, with its status code still 1. *)
Definition written_off_source_row : dict :=
  <["loan_status" := VInt 1]> (<["loan_cond" := VInt 2]>
  (<["fully_paid_date" := VDate (mkdate 2024 2 1)]> ∅)).

(** A loan with condition 2 and no fully-paid date, status code 5. *)
Definition closed_source_row : dict :=
  <["loan_status" := VInt 5]> (<["loan_cond" := VInt 2]> ∅).

Definition approved_loan_row : dict := <["approved_amount" := VInt 5000]> ∅.

End MoreSamples.

(** * Properties *)

Module PyFacts.
Import Py.

Lemma bind_ok {A B : Type} (r : result A) (k : A -> result B) (b : B) :
  Py.bind r k = Ok b -> exists a, r = Ok a /\ k a = Ok b.
Proof. destruct r as [a|e]; simpl; intros E; [eauto | discriminate]. Qed.

End PyFacts.

Module GovernorateFacts.
Import Py Governorate GovernorateSpec.

Ltac by_char c := destruct c as [[] [] [] [] [] [] [] []]; try discriminate; reflexivity.




Lemma sign_not_space c :
  Ascii.eqb c "+" = true \/ Ascii.eqb c "-" = true -> is_int_space c = false.
Proof. intros [H|H]; revert H; by_char c. Qed.


(** The characters that [str.strip()] drops and [int()] does not skip are
    the four separators FS, GS, RS and US. *)
Lemma strip_only_space c :
  is_space c && negb (is_int_space c) = true <-> (28 <= code c <= 31)%N.
Proof.
  unfold is_space, is_int_space. cbv zeta. generalize (code c). intros n.
  rewrite andb_true_iff, negb_true_iff, !orb_true_iff, !orb_false_iff,
          !andb_true_iff, !andb_false_iff, !N.leb_le, !N.leb_gt, !N.eqb_eq, !N.eqb_neq.
  lia.
Qed.





Lemma slice_short (s : string) :
  String.length s = 14%nat -> exists c1 c2, String.get 7 s = Some c1 /\ String.get 8 s = Some c2.
Proof.
  intros L.
  do 14 (destruct s as [|? s]; [discriminate L|]).
  simpl. eauto.
Qed.

Section with_runtime.
Context {runtime : Runtime}.


End with_runtime.



(** A file separator before the digit 5 at positions 8 and 9: [int()]
    does not skip it, and the id has no governorate. *)
Example governorate_separator_is_not_skipped :
  let national_id := VStr ("1234567" ++ String (ascii_of_N 28) "512345") in
  String.length (@str bare_runtime national_id) = 14%nat /\
  @get_governorate_from_national_id bare_runtime national_id = None.
Proof. split; reflexivity. Qed.

End GovernorateFacts.

Module FirstPaymentFacts.
Import Py Calendar LoansFirstPayment FirstPaymentSpec.

Lemma valid_date_bounds y m d :
  valid_date (mkdate y m d) = true <->
  1 <= y <= 9999 /\ 1 <= m <= 12 /\ 1 <= d <= days_in_month y m.
Proof.
  unfold valid_date, MINYEAR, MAXYEAR; simpl.
  rewrite !andb_true_iff, !Z.leb_le. lia.
Qed.

Lemma month_cases m :
  1 <= m <= 12 ->
  m = 1 \/ m = 2 \/ m = 3 \/ m = 4 \/ m = 5 \/ m = 6 \/
  m = 7 \/ m = 8 \/ m = 9 \/ m = 10 \/ m = 11 \/ m = 12.
Proof. lia. Qed.

Lemma days_in_month_bounds y m : 28 <= days_in_month y m <= 31.
Proof.
  unfold days_in_month.
  destruct (m =? 2); [destruct (is_leap y); lia|].
  destruct ((m =? 4) || (m =? 6) || (m =? 9) || (m =? 11)); lia.
Qed.

Lemma one_month_later_advances (d : date) :
  valid_date d = true ->
  ~ (year d = MAXYEAR /\ month d = 12) ->
  exists clamped, one_month_later d = Ok (advance_one_month d, clamped).
Proof.
  destruct d as [y m dd]. intros V NotLast.
  apply valid_date_bounds in V. destruct V as (Hy & Hm & Hd).
  unfold MAXYEAR in NotLast. simpl in NotLast.
  pose proof (days_in_month_bounds y m) as Hdim.
  unfold one_month_later, advance_one_month, target_year, target_month. simpl.
  set (tm := if m =? 12 then 1 else m + 1).
  set (ty := if m =? 12 then y + 1 else y).
  assert (Epair : (if 12 <? m + 1 then (1, y + 1) else (m + 1, y)) = (tm, ty)).
  { unfold tm, ty. destruct (Z.ltb_spec 12 (m + 1)), (Z.eqb_spec m 12); try lia; reflexivity. }
  rewrite Epair.
  assert (Htm : 1 <= tm <= 12) by (unfold tm; destruct (Z.eqb_spec m 12); lia).
  assert (Hty : 1 <= ty <= 9999) by (unfold ty; destruct (Z.eqb_spec m 12); lia).
  unfold replace_year_month, make_date. simpl.
  destruct (valid_date (mkdate ty tm dd)) eqn:V.
  - exists false. apply valid_date_bounds in V. do 2 f_equal. f_equal. lia.
  - exists true.
    assert (Hover : days_in_month ty tm < dd).
    { destruct (Z.ltb_spec (days_in_month ty tm) dd) as [|Hle]; [assumption|].
      assert (valid_date (mkdate ty tm dd) = true) as V' by (apply valid_date_bounds; lia).
      congruence. }
    assert (Hne : tm <> 12).
    { intros E. rewrite E in Hover. unfold days_in_month in Hover. simpl in Hover. lia. }
    destruct (Z.eqb_spec tm 12) as [|_]; [contradiction|].
    assert (V1 : valid_date (mkdate ty (tm + 1) 1) = true).
    { apply valid_date_bounds. pose proof (days_in_month_bounds ty (tm + 1)). lia. }
    rewrite V1. simpl. unfold previous_day. simpl.
    destruct (Z.ltb_spec 1 (tm + 1)); [|lia].
    simpl. do 2 f_equal.
    replace (tm + 1 - 1) with tm by lia. f_equal. lia.
Qed.

(** C8.  A row whose [disbursed_on_date] is a date (or a datetime) gets a
    [first_payment_date] one calendar month later, the day clamped to the
    last day of the target month, December rolling into January of the
    next year; the other columns of the row are left as they were.  (The
    month after December 9999 is outside [datetime]'s calendar.)  A row
    without a disbursed date, or with an empty one, is returned as it is,
    so no [first_payment_date] is set. *)
Theorem first_payment_date_one_month_later (row_data : dict) :
  (forall v d,
     row_data !! "disbursed_on_date" = Some v ->
     date_of v = Some d ->
     valid_date d = true ->
     ~ (year d = MAXYEAR /\ month d = 12) ->
     exists v',
       set_first_payment_date row_data = Ok (<["first_payment_date" := v']> row_data) /\
       date_of v' = Some (advance_one_month d) /\
       valid_date (advance_one_month d) = true /\
       month (advance_one_month d) = (if month d =? 12 then 1 else month d + 1) /\
       year (advance_one_month d) = (if month d =? 12 then year d + 1 else year d) /\
       day (advance_one_month d)
       = Z.min (day d) (days_in_month (year (advance_one_month d)) (month (advance_one_month d)))) /\
  (row_data !! "disbursed_on_date" = None \/
   (exists v, row_data !! "disbursed_on_date" = Some v /\ truthy v = false) ->
   set_first_payment_date row_data = Ok row_data).
Proof.
  split.
  - intros v d Hv Hd V NotLast.
    destruct (one_month_later_advances d V NotLast) as [clamped E].
    assert (Vadv : valid_date (advance_one_month d) = true).
    { destruct d as [y m dd]. apply valid_date_bounds in V.
      unfold MAXYEAR in NotLast. simpl in NotLast.
      unfold advance_one_month, target_year, target_month. simpl.
      apply valid_date_bounds.
      pose proof (days_in_month_bounds (if m =? 12 then y + 1 else y) (if m =? 12 then 1 else m + 1)).
      destruct (Z.eqb_spec m 12); lia. }
    unfold set_first_payment_date, has_key, get. rewrite Hv. simpl.
    destruct v; try discriminate Hd; simpl in Hd; injection Hd as ->; simpl;
      rewrite E; simpl; eexists; (split; [reflexivity|]);
      (split; [destruct clamped; reflexivity|]); repeat split; assumption.
  - intros [Hn|[v [Hv F]]]; unfold set_first_payment_date, has_key, get.
    + rewrite Hn. rewrite bool_decide_eq_false_2; [reflexivity|].
      intros [? ?]; discriminate.
    + rewrite Hv. simpl. rewrite F. reflexivity.
Qed.

(** C8 at 2024-01-31: the first payment date is 2024-02-29. *)
Lemma first_payment_date_one_month_later_witness :
  exists v',
    set_first_payment_date Samples.jan31_2024 = Ok (<["first_payment_date" := v']> Samples.jan31_2024) /\
    date_of v' = Some (mkdate 2024 2 29).
Proof.
  destruct (proj1 (first_payment_date_one_month_later Samples.jan31_2024)
              (VDate (mkdate 2024 1 31)) (mkdate 2024 1 31)) as (v' & E & D & _).
  - reflexivity.
  - reflexivity.
  - reflexivity.
  - intros [H _]. discriminate H.
  - exists v'. split; [exact E | exact D].
Defined.

Example first_payment_2023_01_31 :
  one_month_later (mkdate 2023 1 31) = Ok (mkdate 2023 2 28, true).
Proof. reflexivity. Qed.

Example first_payment_2024_03_15 :
  one_month_later (mkdate 2024 3 15) = Ok (mkdate 2024 4 15, false).
Proof. reflexivity. Qed.

Example first_payment_2023_12_31 :
  one_month_later (mkdate 2023 12 31) = Ok (mkdate 2024 1 31, false).
Proof. reflexivity. Qed.

Example first_payment_9999_12_15 :
  one_month_later (mkdate 9999 12 15) = Raise ValueError.
Proof. reflexivity. Qed.

End FirstPaymentFacts.

Module RoundingFacts.
Import Rounding.

Lemma round_half_even_bounds (q : Q) :
  (inject_Z (round_half_even q) - (1 # 2) <= q <= inject_Z (round_half_even q) + (1 # 2))%Q.
Proof.
  unfold round_half_even.
  pose proof (Qfloor_le q) as Hl. pose proof (Qlt_floor q) as Hu.
  rewrite inject_Z_plus in Hu. change (inject_Z 1) with 1%Q in Hu.
  destruct (Qcompare_spec (q - inject_Z (Qfloor q)) (1 # 2)) as [E|L|G].
  - destruct (Z.even (Qfloor q)); rewrite ?inject_Z_plus; change (inject_Z 1) with 1%Q; lra.
  - lra.
  - rewrite inject_Z_plus. change (inject_Z 1) with 1%Q. lra.
Qed.

Lemma round_half_even_mono (q q' : Q) :
  (q <= q')%Q -> round_half_even q <= round_half_even q'.
Proof.
  intros Hle.
  pose proof (Qfloor_resp_le _ _ Hle) as Hf.
  assert (Hlow : forall x, Qfloor x <= round_half_even x <= Qfloor x + 1).
  { intros x. unfold round_half_even.
    destruct (x - inject_Z (Qfloor x) ?= 1 # 2)%Q; [destruct (Z.even (Qfloor x))| |]; lia. }
  destruct (Z.eq_dec (Qfloor q) (Qfloor q')) as [E|Hne].
  - unfold round_half_even. rewrite <- E.
    destruct (Qcompare_spec (q - inject_Z (Qfloor q)) (1 # 2)) as [E1|L1|G1];
      destruct (Qcompare_spec (q' - inject_Z (Qfloor q)) (1 # 2)) as [E2|L2|G2];
      try destruct (Z.even (Qfloor q)); try lia; exfalso; lra.
  - pose proof (Hlow q). pose proof (Hlow q'). lia.
Qed.

Lemma round_mono (q q' : Q) (n : Z) :
  0 <= n -> (q <= q')%Q -> (round q n <= round q' n)%Q.
Proof.
  intros Hn Hle. unfold round.
  assert (Hpos : (0 < inject_Z (10 ^ n))%Q).
  { change 0%Q with (inject_Z 0). rewrite <- Zlt_Qlt. apply Z.pow_pos_nonneg; lia. }
  apply Qmult_le_compat_r.
  - rewrite <- Zle_Qle. apply round_half_even_mono.
    apply Qmult_le_compat_r; [exact Hle | apply Qlt_le_weak, Hpos].
  - apply Qlt_le_weak, Qinv_lt_0_compat, Hpos.
Qed.

Lemma round_half_even_comp (q q' : Q) :
  (q == q')%Q -> round_half_even q = round_half_even q'.
Proof.
  intros E. unfold round_half_even.
  rewrite (Qfloor_comp _ _ E).
  assert (C : ((q - inject_Z (Qfloor q') ?= 1 # 2) = (q' - inject_Z (Qfloor q') ?= 1 # 2))%Q).
  { apply Qcompare_comp; [rewrite E; reflexivity | reflexivity]. }
  rewrite C. reflexivity.
Qed.

Lemma round_comp (q q' : Q) (n : Z) : (q == q')%Q -> round q n = round q' n.
Proof.
  intros E. unfold round. do 2 f_equal.
  apply round_half_even_comp. rewrite E. reflexivity.
Qed.

(** Two values less than one apart round to integers at most one apart. *)
Lemma round_half_even_near (q q' : Q) :
  (Qabs (q - q') < 1)%Q -> Z.abs (round_half_even q - round_half_even q') <= 1.
Proof.
  intros H.
  assert (H1 : (q - q' < 1)%Q) by (eapply Qle_lt_trans; [apply Qle_Qabs | exact H]).
  assert (H2 : (q' - q < 1)%Q).
  { eapply Qle_lt_trans; [|exact H].
    rewrite <- (Qabs_opp (q - q')). eapply Qle_trans; [|apply Qle_Qabs]. lra. }
  pose proof (round_half_even_bounds q) as [X1 X2].
  pose proof (round_half_even_bounds q') as [Y1 Y2].
  set (k := round_half_even q) in *. set (k' := round_half_even q') in *. clearbody k k'.
  assert (D1 : (inject_Z (k - k') < inject_Z 2)%Q).
  { unfold Zminus. rewrite inject_Z_plus, inject_Z_opp. change (inject_Z 2) with 2%Q. lra. }
  assert (D2 : (inject_Z (-2) < inject_Z (k - k'))%Q).
  { unfold Zminus. rewrite inject_Z_plus, inject_Z_opp. change (inject_Z (-2)) with (-2)%Q. lra. }
  rewrite <- Zlt_Qlt in D1, D2. lia.
Qed.

End RoundingFacts.

Module Binary64Facts.
Import Rounding Binary64 RoundingFacts.

Lemma pow2_pos (k : Z) : (0 < 2 ^ k)%Q.
Proof. apply Qpower_0_lt. reflexivity. Qed.

Lemma pow2_Z (k : Z) : 0 <= k -> (2 ^ k == inject_Z (2 ^ k))%Q.
Proof. intros H. rewrite Zpower_Qpower by exact H. reflexivity. Qed.

Lemma frac_lt (n d A B : Z) :
  0 < d -> 0 < B -> n * B < A * d ->
  (inject_Z n / inject_Z d < inject_Z A / inject_Z B)%Q.
Proof.
  intros Hd HB H.
  assert (Hd' : (0 < inject_Z d)%Q) by (change 0%Q with (inject_Z 0); rewrite <- Zlt_Qlt; exact Hd).
  assert (HB' : (0 < inject_Z B)%Q) by (change 0%Q with (inject_Z 0); rewrite <- Zlt_Qlt; exact HB).
  apply Qlt_shift_div_r; [exact Hd'|].
  assert (E : (inject_Z A / inject_Z B * inject_Z d == (inject_Z A * inject_Z d) / inject_Z B)%Q)
    by (field; lra).
  rewrite E. apply Qlt_shift_div_l; [exact HB'|].
  rewrite <- !inject_Z_mult, <- Zlt_Qlt. exact H.
Qed.

Lemma Qabs_frac (q : Q) : (Qabs q == inject_Z (Z.abs (Qnum q)) / inject_Z (Z.pos (Qden q)))%Q.
Proof. destruct q as [n d]. unfold Qabs. simpl. rewrite (Qmake_Qdiv (Z.abs n) d). reflexivity. Qed.

Lemma ilog2_spec (q : Q) :
  ~ (q == 0)%Q -> (2 ^ ilog2 q <= Qabs q)%Q /\ (Qabs q < 2 ^ (ilog2 q + 1))%Q.
Proof.
  intros Hq. unfold ilog2.
  set (n := Z.abs (Qnum q)). set (d := Z.pos (Qden q)).
  assert (Hn : 0 < n).
  { subst n. destruct q as [[|p|p] e]; [exfalso; apply Hq; reflexivity | simpl; lia | simpl; lia]. }
  assert (Hd : 0 < d) by (subst d; lia).
  destruct (Z.log2_spec n Hn) as [Ha1 Ha2]. destruct (Z.log2_spec d Hd) as [Hb1 Hb2].
  pose proof (Z.log2_nonneg n) as Ha0. pose proof (Z.log2_nonneg d) as Hb0.
  set (a := Z.log2 n) in *. set (b := Z.log2 d) in *.
  assert (Pa : 0 < 2 ^ a) by (apply Z.pow_pos_nonneg; lia).
  assert (Pb : 0 < 2 ^ b) by (apply Z.pow_pos_nonneg; lia).
  assert (Ea : (Qabs q == inject_Z n / inject_Z d)%Q) by apply Qabs_frac.
  assert (Hup : (Qabs q < 2 ^ (a - b + 1))%Q).
  { rewrite Ea. replace (a - b + 1) with ((a + 1) - b) by lia.
    rewrite Qpower_minus by discriminate.
    rewrite (pow2_Z (a + 1)), (pow2_Z b) by lia.
    apply frac_lt; [exact Hd | exact Pb |].
    replace (Z.succ a) with (a + 1) in Ha2 by lia. nia. }
  assert (Hlow : (2 ^ (a - b - 1) <= Qabs q)%Q).
  { rewrite Ea. replace (a - b - 1) with (a - (b + 1)) by lia.
    rewrite Qpower_minus by discriminate.
    rewrite (pow2_Z a), (pow2_Z (b + 1)) by lia.
    apply Qlt_le_weak. apply frac_lt; [apply Z.pow_pos_nonneg; lia | exact Hd |].
    replace (Z.succ b) with (b + 1) in Hb2 by lia. nia. }
  destruct (Qle_bool (2 ^ (a - b)) (Qabs q)) eqn:E.
  - apply Qle_bool_iff in E. split; [exact E | exact Hup].
  - split; [exact Hlow|].
    replace (a - b - 1 + 1) with (a - b) by lia.
    apply Qnot_le_lt. intros H. apply Qle_bool_iff in H. congruence.
Qed.

Lemma unit_roundoff_pow : (unit_roundoff == 2 ^ (-53))%Q.
Proof. vm_compute. reflexivity. Qed.

(** The error of one rounding is at most half a unit of the last place. *)
Lemma b64_error (q : Q) :
  ~ (q == 0)%Q -> (Qabs (b64 q - q) <= 2 ^ exponent q / 2)%Q.
Proof.
  intros Hq. unfold b64.
  destruct (Qeq_bool q 0) eqn:E; [apply Qeq_bool_iff in E; contradiction|].
  set (e := exponent q). pose proof (pow2_pos e) as He.
  set (p := (2 ^ e)%Q) in *.
  pose proof (round_half_even_bounds (q / p)) as [H1 H2].
  set (m := inject_Z (round_half_even (q / p))) in *.
  set (x := (q / p)%Q) in *.
  assert (Eq : (q == x * p)%Q) by (unfold x; field; lra).
  clearbody m x p.
  apply Qabs_Qle_condition. rewrite Eq. split.
  - assert (m * p - x * p == (m - x) * p)%Q as -> by ring.
    assert (- (p / 2) == (- (1 # 2)) * p)%Q as -> by field.
    apply Qmult_le_compat_r; [clear - H2; lra | clear - He; lra].
  - assert (m * p - x * p == (m - x) * p)%Q as -> by ring.
    assert (p / 2 == (1 # 2) * p)%Q as -> by field.
    apply Qmult_le_compat_r; [clear - H1; lra | clear - He; lra].
Qed.

(** In the normal range the error is at most [2^-53] of the value. *)
Lemma b64_relative (q : Q) :
  (2 ^ (-1022) <= Qabs q)%Q -> (Qabs (b64 q - q) <= unit_roundoff * Qabs q)%Q.
Proof.
  intros Hn.
  assert (Hq : ~ (q == 0)%Q).
  { intros E. rewrite E in Hn. pose proof (pow2_pos (-1022)) as P.
    change (Qabs 0) with 0%Q in Hn. revert Hn P. generalize (2 ^ (-1022))%Q. intros; lra. }
  destruct (ilog2_spec q Hq) as [Hl Hu].
  assert (Hk : -1022 <= ilog2 q).
  { assert (H : (2 ^ (-1022) < 2 ^ (ilog2 q + 1))%Q) by (eapply Qle_lt_trans; eassumption).
    apply Qpower_lt_compat_l_inv in H; [lia | reflexivity]. }
  eapply Qle_trans; [apply b64_error; exact Hq|].
  unfold exponent. rewrite Z.max_l by lia.
  rewrite unit_roundoff_pow.
  assert (E : (2 ^ (ilog2 q - 52) / 2 == 2 ^ (-53) * 2 ^ ilog2 q)%Q).
  { replace (ilog2 q - 52) with (-53 + ilog2 q + 1) by lia.
    rewrite !Qpower_plus by discriminate. rewrite Qpower_1_r. field. }
  rewrite E. apply Qmult_le_l; [apply pow2_pos | exact Hl].
Qed.

(** The same for a positive value, with numerals: at least [2^-100]. *)
Lemma b64_near (q : Q) :
  ((1 # 1267650600228229401496703205376) <= q)%Q ->
  ((1 - (1 # 9007199254740992)) * q <= b64 q <= (1 + (1 # 9007199254740992)) * q)%Q.
Proof.
  intros Hq.
  assert (Hn : (2 ^ (-1022) <= Qabs q)%Q).
  { rewrite Qabs_pos by lra.
    eapply Qle_trans; [|exact Hq].
    eapply Qle_trans; [apply (Qpower_le_compat_l 2 (-1022) (-100)); [lia | discriminate]|].
    vm_compute. discriminate. }
  pose proof (b64_relative q Hn) as H.
  rewrite (Qabs_pos q) in H by lra.
  apply Qabs_Qle_condition in H. unfold unit_roundoff in H. lra.
Qed.

Lemma b64_near_eq (q q' : Q) :
  (q == q')%Q ->
  ((1 # 1267650600228229401496703205376) <= q')%Q ->
  ((1 - (1 # 9007199254740992)) * q' <= b64 q <= (1 + (1 # 9007199254740992)) * q')%Q.
Proof.
  intros E Hq. rewrite <- E in Hq. pose proof (b64_near q Hq) as H.
  rewrite <- E. exact H.
Qed.

Lemma Qmult_bounds (a b c d f g : Q) :
  (0 <= a)%Q -> (0 <= c)%Q -> (a <= f <= b)%Q -> (c <= g <= d)%Q ->
  (a * c <= f * g <= b * d)%Q.
Proof. intros Ha Hc [H1 H2] [H3 H4]. split; nra. Qed.

Lemma Qdiv_bounds (a b c d f g : Q) :
  (0 <= a)%Q -> (0 < c)%Q -> (a <= f <= b)%Q -> (c <= g <= d)%Q ->
  (a / d <= f / g <= b / c)%Q.
Proof.
  intros Ha Hc [H1 H2] [H3 H4].
  assert (Hg : (0 < g)%Q) by lra. assert (Hd : (0 < d)%Q) by lra.
  split.
  - apply Qle_shift_div_l; [exact Hg|].
    assert (E : (a / d * g == (a * g) / d)%Q) by (field; lra). rewrite E.
    apply Qle_shift_div_r; [exact Hd|]. nra.
  - apply Qle_shift_div_r; [exact Hg|].
    assert (E : (b / c * g == (b * g) / c)%Q) by (field; lra). rewrite E.
    apply Qle_shift_div_l; [exact Hc|]. nra.
Qed.

(** The model on the numbers of the usual examples: one tenth, and the
    sum that does not give back 3.98. *)
Example b64_one_tenth : (b64 (1 # 10) == 3602879701896397 # 36028797018963968)%Q.
Proof. vm_compute. reflexivity. Qed.

Example b64_sum_is_rounded :
  (fadd (fsub (b64 (398 # 100)) (b64 (197 # 100))) (b64 (197 # 100))
   == 4481081629233643 # 1125899906842624)%Q /\
  (b64 (398 # 100) == 8962163258467287 # 2251799813685248)%Q.
Proof. split; vm_compute; reflexivity. Qed.

End Binary64Facts.

Module LoanProductsFacts.
Import Py Rounding Binary64 LoanProducts LoanProductsSpec RoundingFacts Binary64Facts.

(** The float that the conversion rounds to four decimals is the exact
    value [2 flat n / (n + 1)] up to a few units of roundoff. *)
Lemma declining_rate_error (F N M : Q) :
  ((1 # 1000000000) <= F <= 1000000000)%Q -> (1 <= N)%Q -> (M == N + 1)%Q ->
  (Qabs (fmul (fdiv (fmul (fmul 2 (fdiv (b64 F) 100)) (b64 N)) (b64 M)) 100
         - 2 * F * N / (N + 1)) <= 2 # 100000)%Q.
Proof.
  intros [HF1 HF2] HN EM. unfold fmul, fdiv.
  (* the exact values *)
  assert (H0 : (0 <= F * (N - 1))%Q) by (apply Qmult_le_0_compat; lra).
  assert (HT : (F <= F * N)%Q) by lra.
  assert (HM : (0 < N + 1)%Q) by lra.
  set (R := (F * N / (N + 1))%Q).
  assert (HR1 : ((1 # 2) * F <= R)%Q).
  { unfold R. apply Qle_shift_div_l; [exact HM|]. lra. }
  assert (HR2 : (R <= F)%Q).
  { unfold R. apply Qle_shift_div_r; [exact HM|]. lra. }
  assert (EX : (2 * F * N / (N + 1) == 2 * R)%Q) by (unfold R; field; lra).
  rewrite EX.
  (* the roundings up to the product with the term *)
  pose proof (b64_near F) as S0. specialize (S0 ltac:(lra)).
  set (f0 := b64 F) in *. clearbody f0.
  assert (E1 : (f0 / 100 == (1 # 100) * f0)%Q) by field.
  pose proof (b64_near_eq _ _ E1) as S1. specialize (S1 ltac:(lra)).
  set (f1 := b64 (f0 / 100)) in *. clearbody f1.
  pose proof (b64_near (2 * f1)) as S2. specialize (S2 ltac:(lra)).
  set (f2 := b64 (2 * f1)) in *. clearbody f2.
  pose proof (b64_near N) as SN. specialize (SN ltac:(lra)).
  set (N' := b64 N) in *. clearbody N'.
  assert (B2 : ((1 - (1 # 1000000000000000)) * ((1 # 50) * F) <= f2
                <= (1 + (1 # 1000000000000000)) * ((1 # 50) * F))%Q)
    by (clear - S0 S1 S2 HF1; lra).
  assert (BN : ((1 - (1 # 1000000000000000)) * N <= N'
                <= (1 + (1 # 1000000000000000)) * N)%Q) by (clear - SN HN; lra).
  assert (A2 : (0 <= (1 - (1 # 1000000000000000)) * ((1 # 50) * F))%Q) by (clear - HF1; lra).
  assert (AN : (0 <= (1 - (1 # 1000000000000000)) * N)%Q) by (clear - HN; lra).
  pose proof (Qmult_bounds _ _ _ _ _ _ A2 AN B2 BN) as E3.
  assert (E3' : ((1 - (3 # 1000000000000000)) * ((1 # 50) * (F * N)) <= f2 * N'
                 <= (1 + (3 # 1000000000000000)) * ((1 # 50) * (F * N)))%Q).
  { clear - E3 HT HF1. lra. }
  clear E3.
  pose proof (b64_near (f2 * N')) as S3. specialize (S3 ltac:(clear - E3' HT HF1; lra)).
  set (f3 := b64 (f2 * N')) in *. clearbody f3.
  pose proof (b64_near_eq _ _ EM) as SM. specialize (SM ltac:(clear - HN; lra)).
  set (M' := b64 M) in *. clearbody M'.
  assert (B3 : ((1 - (4 # 1000000000000000)) * ((1 # 50) * (F * N)) <= f3
                <= (1 + (4 # 1000000000000000)) * ((1 # 50) * (F * N)))%Q)
    by (clear - S3 E3' HT HF1; lra).
  assert (BM : ((1 - (1 # 1000000000000000)) * (N + 1) <= M'
                <= (1 + (1 # 1000000000000000)) * (N + 1))%Q) by (clear - SM HN; lra).
  (* the quotient *)
  assert (A3 : (0 <= (1 - (4 # 1000000000000000)) * ((1 # 50) * (F * N)))%Q)
    by (clear - HT HF1; lra).
  assert (AM : (0 < (1 - (1 # 1000000000000000)) * (N + 1))%Q) by (clear - HN; lra).
  pose proof (Qdiv_bounds _ _ _ _ _ _ A3 AM B3 BM) as [E4l E4u].
  assert (E4 : ((1 - (6 # 1000000000000000)) * ((1 # 50) * R) <= f3 / M'
                <= (1 + (6 # 1000000000000000)) * ((1 # 50) * R))%Q).
  { split.
    - eapply Qle_trans; [|exact E4l].
      assert (E : ((1 - (4 # 1000000000000000)) * ((1 # 50) * (F * N))
                   / ((1 + (1 # 1000000000000000)) * (N + 1))
                   == ((1 - (4 # 1000000000000000)) * (1000000000000000 # 1000000000000001))
                      * ((1 # 50) * R))%Q)
        by (unfold R; field; lra).
      rewrite E. clear - HR1 HF1. lra.
    - eapply Qle_trans; [exact E4u|].
      assert (E : ((1 + (4 # 1000000000000000)) * ((1 # 50) * (F * N))
                   / ((1 - (1 # 1000000000000000)) * (N + 1))
                   == ((1 + (4 # 1000000000000000)) * (1000000000000000 # 999999999999999))
                      * ((1 # 50) * R))%Q)
        by (unfold R; field; lra).
      rewrite E. clear - HR1 HF1. lra. }
  clear E4l E4u. clearbody R.
  set (e4 := (f3 / M')%Q) in *. clearbody e4.
  pose proof (b64_near e4) as S4. specialize (S4 ltac:(clear - E4 HR1 HF1; lra)).
  set (f4 := b64 e4) in *. clearbody f4.
  pose proof (b64_near (f4 * 100)) as S5. specialize (S5 ltac:(clear - S4 E4 HR1 HF1; lra)).
  set (f5 := b64 (f4 * 100)) in *. clearbody f5.
  apply Qabs_Qle_condition. clear - S5 S4 E4 HR1 HR2 HF1 HF2. lra.
Qed.

Lemma flat_to_declining_near (flat : Q) (n : Z) :
  ((1 # 1000000000) <= flat <= 1000000000)%Q -> 1 <= n ->
  exists k : Z,
    flat_to_declining flat n = Ok (b64 (inject_Z k / inject_Z (10 ^ 4))) /\
    Z.abs (k - round_half_even ((2 * flat * inject_Z n) / (inject_Z n + 1) * inject_Z (10 ^ 4)))
    <= 1.
Proof.
  intros HF Hn. unfold flat_to_declining.
  destruct (Z.eqb_spec (n + 1) 0) as [E|_]; [lia|].
  eexists. split; [reflexivity|].
  assert (HN : (1 <= inject_Z n)%Q) by (change 1%Q with (inject_Z 1); rewrite <- Zle_Qle; lia).
  assert (EM : (inject_Z (n + 1) == inject_Z n + 1)%Q) by (rewrite inject_Z_plus; reflexivity).
  pose proof (declining_rate_error flat (inject_Z n) (inject_Z (n + 1)) HF HN EM) as H.
  unfold float_of_int.
  set (x := fmul (fdiv (fmul (fmul 2 (fdiv (b64 flat) 100)) (b64 (inject_Z n)))
                       (b64 (inject_Z (n + 1)))) 100) in *.
  assert (EX : (2 * flat * inject_Z n / (inject_Z n + 1)
                == (2 * flat * inject_Z n) / (inject_Z n + 1))%Q) by reflexivity.
  set (y := ((2 * flat * inject_Z n) / (inject_Z n + 1))%Q) in *.
  clearbody x y. apply Qabs_Qle_condition in H. destruct H as [H1 H2].
  pose proof (round_half_even_bounds (x * inject_Z (10 ^ 4))) as [X1 X2].
  pose proof (round_half_even_bounds (y * inject_Z (10 ^ 4))) as [Y1 Y2].
  change (inject_Z (10 ^ 4)) with 10000%Q in *.
  set (kx := round_half_even (x * 10000)) in *.
  set (ky := round_half_even (y * 10000)) in *.
  clearbody kx ky.
  assert (D1 : (inject_Z (kx - ky) < inject_Z 2)%Q).
  { unfold Zminus. rewrite inject_Z_plus, inject_Z_opp. change (inject_Z 2) with 2%Q. lra. }
  assert (D2 : (inject_Z (-2) < inject_Z (kx - ky))%Q).
  { unfold Zminus. rewrite inject_Z_plus, inject_Z_opp. change (inject_Z (-2)) with (-2)%Q. lra. }
  rewrite <- Zlt_Qlt in D1, D2. lia.
Qed.


Lemma rate_of_flat (flat : Q) (n : Z) :
  (~ (flat == 0)%Q -> n <> -1) ->
  (if negb (Qeq_bool flat 0) then flat_to_declining flat n else Ok 0%Q)
  = Ok (declining_binary64 flat n).
Proof.
  intros Hn. unfold declining_binary64.
  destruct (Qeq_bool flat 0) eqn:E; simpl; [reflexivity|].
  unfold flat_to_declining.
  destruct (Z.eqb_spec (n + 1) 0) as [E0|_]; [|reflexivity].
  exfalso. apply Hn; [|lia].
  intros Z0. apply Qeq_bool_iff in Z0. congruence.
Qed.

(** The rate of the floats is the float of a number of four decimals that
    is the rate of the specification or one unit of the fourth decimal
    next to it. *)
Lemma declining_binary64_near (flat : Q) (n : Z) :
  ((1 # 1000000000) <= flat <= 1000000000)%Q -> 1 <= n ->
  exists k : Z,
    declining_binary64 flat n = b64 (inject_Z k / inject_Z (10 ^ 4)) /\
    (Qabs (inject_Z k / inject_Z (10 ^ 4) - declining flat n) <= 1 # 10000)%Q.
Proof.
  intros HF Hn.
  destruct (flat_to_declining_near flat n HF Hn) as (k & E & Hk).
  assert (NZ : Qeq_bool flat 0 = false).
  { destruct (Qeq_bool flat 0) eqn:Z0; [|reflexivity].
    apply Qeq_bool_iff in Z0. destruct HF as [HF _]. lra. }
  exists k. split.
  - pose proof (rate_of_flat flat n ltac:(intros _; lia)) as R.
    rewrite NZ in R. simpl in R. rewrite E in R. injection R as R. symmetry. exact R.
  - unfold declining. rewrite NZ. unfold round.
    set (k0 := round_half_even (2 * flat * inject_Z n / (inject_Z n + 1) * inject_Z (10 ^ 4)))
      in *.
    clearbody k0.
    assert (Ed : (inject_Z k / inject_Z (10 ^ 4) - inject_Z k0 / inject_Z (10 ^ 4)
                  == inject_Z (k - k0) * (1 # 10000))%Q).
    { unfold Zminus. rewrite inject_Z_plus, inject_Z_opp.
      change (inject_Z (10 ^ 4)) with 10000%Q. field. }
    rewrite Ed.
    assert (B1 : (inject_Z (-1) <= inject_Z (k - k0))%Q) by (rewrite <- Zle_Qle; lia).
    assert (B2 : (inject_Z (k - k0) <= inject_Z 1)%Q) by (rewrite <- Zle_Qle; lia).
    change (inject_Z (-1)) with (-1)%Q in B1. change (inject_Z 1) with 1%Q in B2.
    apply Qabs_Qle_condition. generalize dependent (inject_Z (k - k0)). intros; lra.
Qed.

Section with_runtime.
Context {runtime : Runtime}.

(** C7, as the code has it.  On a [loan_products] row whose three flat
    rates and three terms convert to numbers (a missing rate counts as 0,
    a missing term as 12) of a magnitude of at most 10^9, so that no
    float operation overflows, each declining rate is 0 when the flat
    rate is zero and otherwise [((2 x (flat / 100) x n) / (n + 1)) x 100] for that
    rate's own term [n], evaluated in this order in binary64 and rounded
    to 4 decimals.  For a flat rate between 10^-9 and 10^9 and a term
    between 1 and 10^9 this is the float of a number of four decimals
    that is [round((2 x flat x n) / (n + 1), 4)] or lies one unit of the
    fourth decimal next to it.  The processing strategy becomes 24 when
    the source code equals 2 and 23 for every other value.  A term of -1
    with a non-zero rate divides by zero, so it is excluded. *)
Theorem loan_products_declining_rates
    (row_data : dict) (fd fmin fmax : Q) (nd nmin nmax : Z) (strategy : val) :
  float (get_or row_data "flat_default_interest_rate" (VInt 0)) = Ok fd ->
  float (get_or row_data "flat_minimum_interest_rate" (VInt 0)) = Ok fmin ->
  float (get_or row_data "flat_maximum_interest_rate" (VInt 0)) = Ok fmax ->
  int (get_or row_data "default_loan_term" (VInt 12)) = Ok nd ->
  int (get_or row_data "minimum_loan_term" (VInt 12)) = Ok nmin ->
  int (get_or row_data "maximum_loan_term" (VInt 12)) = Ok nmax ->
  (Qabs fd <= 1000000000)%Q /\ (Qabs fmin <= 1000000000)%Q /\ (Qabs fmax <= 1000000000)%Q ->
  Z.abs nd <= 1000000000 /\ Z.abs nmin <= 1000000000 /\ Z.abs nmax <= 1000000000 ->
  (~ (fd == 0)%Q -> nd <> -1) ->
  (~ (fmin == 0)%Q -> nmin <> -1) ->
  (~ (fmax == 0)%Q -> nmax <> -1) ->
  row_data !! "loan_transaction_processing_strategy_id" = Some strategy ->
  exists row',
    process_loan_products row_data = Ok row' /\
    row' !! "default_interest_rate" = Some (VFloat (declining_binary64 fd nd)) /\
    row' !! "minimum_interest_rate" = Some (VFloat (declining_binary64 fmin nmin)) /\
    row' !! "maximum_interest_rate" = Some (VFloat (declining_binary64 fmax nmax)) /\
    (forall flat n, (flat == 0)%Q -> declining_binary64 flat n = 0%Q) /\
    (forall flat n,
       ~ (flat == 0)%Q ->
       declining_binary64 flat n
       = fround (fmul (fdiv (fmul (fmul 2 (fdiv (b64 flat) 100)) (float_of_int n))
                            (float_of_int (n + 1))) 100) 4) /\
    (forall flat n,
       ((1 # 1000000000) <= flat <= 1000000000)%Q -> 1 <= n <= 1000000000 ->
       exists k : Z,
         declining_binary64 flat n = b64 (inject_Z k / inject_Z (10 ^ 4)) /\
         (Qabs (inject_Z k / inject_Z (10 ^ 4) - declining flat n) <= 1 # 10000)%Q) /\
    row' !! "loan_transaction_processing_strategy_id"
    = Some (VInt (if eq_int strategy 2 then 24 else 23)) /\
    (forall z, strategy = VInt z ->
               (if eq_int strategy 2 then 24 else 23) = (if z =? 2 then 24 else 23)).
Proof.
  intros Fd Fmin Fmax Nd Nmin Nmax _ _ Hd Hmin Hmax Hs.
  unfold process_loan_products.
  unfold get_or in *.
  rewrite !lookup_insert_ne by done.
  rewrite Fd, Fmin, Fmax, Nd, Nmin, Nmax. simpl bind.
  unfold truthy.
  rewrite (rate_of_flat fd nd Hd), (rate_of_flat fmin nmin Hmin), (rate_of_flat fmax nmax Hmax).
  simpl bind. unfold item.
  rewrite !lookup_insert_ne by done. rewrite Hs.
  eexists. split; [reflexivity|].
  split; [|split; [|split; [|split; [|split; [|split; [|split]]]]]].
  - rewrite lookup_insert_ne by done. simplify_map_eq. reflexivity.
  - simplify_map_eq. reflexivity.
  - simplify_map_eq. reflexivity.
  - intros flat n Z0. unfold declining_binary64. apply Qeq_bool_iff in Z0. rewrite Z0.
    reflexivity.
  - intros flat n NZ. unfold declining_binary64.
    destruct (Qeq_bool flat 0) eqn:E; [apply Qeq_bool_iff in E; contradiction | reflexivity].
  - intros flat n HF Hn. apply declining_binary64_near; [exact HF | lia].
  - simplify_map_eq. reflexivity.
  - intros z ->. reflexivity.
Qed.

End with_runtime.

(** C7 on a product with a flat default rate of 12 over 12 periods: the
    declining rate is the float of 22.1538, which is the rate of the
    specification, and the strategy code 2 becomes 24. *)
Lemma loan_products_declining_rates_witness :
  exists row',
    @process_loan_products bare_runtime Samples.product_12_12 = Ok row' /\
    row' !! "default_interest_rate" = Some (VFloat (declining_binary64 12 12)) /\
    declining_binary64 12 12 = b64 (221538 # 10000) /\
    (declining 12 12 == 221538 # 10000)%Q /\
    row' !! "minimum_interest_rate" = Some (VFloat (declining_binary64 0 12)) /\
    row' !! "loan_transaction_processing_strategy_id" = Some (VInt 24).
Proof.
  destruct (@loan_products_declining_rates bare_runtime Samples.product_12_12
              12 0 0 12 12 12 (VInt 2))
    as (row' & E & Hd & Hmin & _ & _ & _ & _ & Hs & _).
  - reflexivity.
  - reflexivity.
  - reflexivity.
  - reflexivity.
  - reflexivity.
  - reflexivity.
  - repeat split; discriminate.
  - lia.
  - intros _; discriminate.
  - intros _; discriminate.
  - intros _; discriminate.
  - reflexivity.
  - exists row'. split; [exact E|]. split; [exact Hd|].
    split; [vm_compute; reflexivity|]. split; [reflexivity|].
    split; [exact Hmin | exact Hs].
Defined.

(** C7 as stated fails.  A flat rate of 21 over 63 periods: the formula
    gives 2 x 21 x 63 / 64 = 41.34375, which rounds to 41.3438; the
    floats give 0.21 x 2 x 63 / 64 x 100 = 41.343749999999993 and the
    code returns 41.3437. *)
Lemma loan_products_declining_rates_counterexample :
  (row' <- @process_loan_products bare_runtime Samples.product_21_63 ;;
   item row' "default_interest_rate")
  = Ok (VFloat (b64 (413437 # 10000))) /\
  (declining 21 63 == 413438 # 10000)%Q /\
  ~ (b64 (413437 # 10000) == declining 21 63)%Q /\
  b64 (413437 # 10000) <> b64 (declining 21 63) /\
  (fmul (fdiv (fmul (fmul 2 (fdiv (b64 21) 100)) (float_of_int 63)) (float_of_int 64)) 100
   < 4134375 # 100000)%Q.
Proof.
  split; [vm_compute; reflexivity|]. split; [reflexivity|].
  split; [vm_compute; discriminate|]. split; [vm_compute; discriminate|].
  vm_compute. reflexivity.
Qed.

End LoanProductsFacts.

Module SettlementFacts.
Import Py Schema Settlement SettlementSpec.

Lemma loop_as_map (txs : list transaction_row) (b : balances) (table : list transaction_row) :
  fold_left settle_transaction txs (b, table)
  = (fold_left update_balances txs b, map (written_by txs b) table).
Proof.
  revert b table. induction txs as [|tx rest IH]; intros b table; simpl.
  - rewrite map_id. reflexivity.
  - unfold settle_transaction at 2. simpl. rewrite IH. f_equal.
    unfold execute_update. rewrite map_map. reflexivity.
Qed.

Lemma written_by_keeps (txs : list transaction_row) (b : balances) (row : transaction_row) :
  tx_id (written_by txs b row) = tx_id row /\
  tx_loan_id (written_by txs b row) = tx_loan_id row /\
  tx_type (written_by txs b row) = tx_type row.
Proof.
  revert b row. induction txs as [|tx rest IH]; intros b row; simpl; [auto|].
  destruct (IH (update_balances b tx)
              (if tx_id row =? tx_id tx
               then write_balances (update_balances b tx) (clear_repaid tx) row else row))
    as (E1 & E2 & E3).
  rewrite E1, E2, E3. destruct (tx_id row =? tx_id tx); auto.
Qed.

Lemma written_by_untouched (txs : list transaction_row) (b : balances) (row : transaction_row) :
  tx_id row ∉ map tx_id txs -> written_by txs b row = row.
Proof.
  revert b. induction txs as [|tx rest IH]; intros b Hnot; simpl; [reflexivity|].
  simpl in Hnot. apply not_elem_of_cons in Hnot as [Hne Hrest].
  destruct (Z.eqb_spec (tx_id row) (tx_id tx)); [contradiction|].
  apply IH. exact Hrest.
Qed.

Lemma written_by_at (txs : list transaction_row) (b : balances) (k : nat)
    (tx row : transaction_row) :
  NoDup (map tx_id txs) ->
  txs !! k = Some tx ->
  tx_id row = tx_id tx ->
  written_by txs b row
  = write_balances (fold_left update_balances (take (S k) txs) b) (clear_repaid tx) row.
Proof.
  revert b k. induction txs as [|tx0 rest IH]; intros b k ND Hk Hid; [discriminate|].
  simpl in ND. apply NoDup_cons in ND as [Hfresh ND].
  destruct k as [|k]; simpl in Hk.
  - injection Hk as ->. simpl. rewrite ?take_0. simpl.
    rewrite Hid, Z.eqb_refl.
    apply written_by_untouched. simpl. rewrite <- Hid in Hfresh. exact Hfresh.
  - simpl.
    assert (Hne : tx_id row <> tx_id tx0).
    { intros E. apply Hfresh. rewrite <- E, Hid.
      apply list_elem_of_fmap. exists tx. split; [reflexivity|].
      eapply list_elem_of_lookup_2; eauto. }
    destruct (Z.eqb_spec (tx_id row) (tx_id tx0)); [contradiction|].
    apply IH; assumption.
Qed.

Lemma insert_by_id_map (g : transaction_row -> transaction_row) :
  (forall r, tx_id (g r) = tx_id r) ->
  forall tx sorted, insert_by_id (g tx) (map g sorted) = map g (insert_by_id tx sorted).
Proof.
  intros Hg tx sorted. induction sorted as [|tx' rest IH]; simpl; [reflexivity|].
  rewrite !Hg. destruct (tx_id tx <? tx_id tx'); simpl; [reflexivity|].
  rewrite IH. reflexivity.
Qed.

Lemma order_by_id_map (g : transaction_row -> transaction_row) :
  (forall r, tx_id (g r) = tx_id r) ->
  forall l, order_by_id (map g l) = map g (order_by_id l).
Proof.
  intros Hg l. unfold order_by_id. induction l as [|tx rest IH]; simpl; [reflexivity|].
  rewrite IH. apply insert_by_id_map. exact Hg.
Qed.

Lemma fetch_transactions_map (g : transaction_row -> transaction_row) table loan :
  (forall r, tx_id (g r) = tx_id r) ->
  (forall r, tx_loan_id (g r) = tx_loan_id r) ->
  fetch_transactions (map g table) loan = map g (fetch_transactions table loan).
Proof.
  intros Hid Hloan. unfold fetch_transactions.
  rewrite <- order_by_id_map by exact Hid. f_equal.
  induction table as [|r rest IH]; simpl; [reflexivity|].
  rewrite !filter_cons. rewrite Hloan.
  destruct (decide (tx_loan_id r = Some loan)); simpl; rewrite IH; reflexivity.
Qed.

Lemma insert_by_id_perm tx sorted : insert_by_id tx sorted ≡ₚ tx :: sorted.
Proof.
  induction sorted as [|tx' rest IH]; simpl; [reflexivity|].
  destruct (tx_id tx <? tx_id tx'); [reflexivity|].
  rewrite IH. apply Permutation_swap.
Qed.

Lemma order_by_id_perm l : order_by_id l ≡ₚ l.
Proof.
  unfold order_by_id. induction l as [|tx rest IH]; simpl; [reflexivity|].
  rewrite insert_by_id_perm, IH. reflexivity.
Qed.

Lemma fetch_transactions_elem table loan tx :
  tx ∈ fetch_transactions table loan <-> tx ∈ table /\ tx_loan_id tx = Some loan.
Proof.
  unfold fetch_transactions. rewrite order_by_id_perm.
  rewrite list_elem_of_filter. tauto.
Qed.

Lemma fetch_transactions_NoDup table loan :
  NoDup (map tx_id table) -> NoDup (map tx_id (fetch_transactions table loan)).
Proof.
  intros ND. unfold fetch_transactions.
  rewrite order_by_id_perm.
  eapply sublist_NoDup; [exact ND|].
  apply fmap_sublist, sublist_filter.
Qed.

Lemma insert_by_id_sorted tx sorted :
  StronglySorted (fun a b => tx_id a <= tx_id b) sorted ->
  StronglySorted (fun a b => tx_id a <= tx_id b) (insert_by_id tx sorted).
Proof.
  induction 1 as [|tx' rest Hs IH Hall]; simpl.
  - repeat constructor.
  - destruct (Z.ltb_spec (tx_id tx) (tx_id tx')).
    + constructor; [constructor; assumption|].
      constructor; [lia|].
      eapply Forall_impl; [exact Hall|]. simpl. intros; lia.
    + constructor; [exact IH|].
      rewrite insert_by_id_perm. constructor; [lia | exact Hall].
Qed.

Lemma order_by_id_sorted l :
  StronglySorted (fun a b => tx_id a <= tx_id b) (order_by_id l).
Proof.
  unfold order_by_id. induction l as [|tx rest IH]; simpl.
  - constructor.
  - apply insert_by_id_sorted, IH.
Qed.

Lemma sorted_lookup_le (l : list transaction_row) i j a b :
  StronglySorted (fun a b => tx_id a <= tx_id b) l ->
  (i < j)%nat -> l !! i = Some a -> l !! j = Some b -> tx_id a <= tx_id b.
Proof.
  intros Hs. revert i j. induction Hs as [|x l Hs IH Hall]; intros i j Hij Hi Hj.
  - discriminate.
  - destruct j as [|j]; [lia|]. simpl in Hj.
    destruct i as [|i]; simpl in Hi.
    + injection Hi as ->. rewrite Forall_forall in Hall. apply Hall.
      eapply list_elem_of_lookup_2. exact Hj.
    + eapply IH; [|exact Hi|exact Hj]. lia.
Qed.

Lemma settle_loan_as_map table loan :
  settle_loan table loan
  = map (written_by (fetch_transactions table loan) initial_balances) table.
Proof. unfold settle_loan. rewrite loop_as_map. reflexivity. Qed.

Lemma same_id_same_row (table : list transaction_row) (r1 r2 : transaction_row) :
  NoDup (map tx_id table) -> r1 ∈ table -> r2 ∈ table -> tx_id r1 = tx_id r2 -> r1 = r2.
Proof.
  intros ND H1 H2 E.
  apply list_elem_of_lookup in H1 as [i Hi]. apply list_elem_of_lookup in H2 as [j Hj].
  assert (i = j).
  { eapply NoDup_lookup; [exact ND| |].
    - rewrite list_lookup_fmap, Hi. reflexivity.
    - rewrite list_lookup_fmap, Hj. simpl. rewrite E. reflexivity. }
  subst j. congruence.
Qed.

Lemma type_is_true tx n : type_is tx n = true <-> tx_type tx = Some n.
Proof.
  unfold type_is. destruct (tx_type tx) as [t|]; [|split; discriminate].
  rewrite Z.eqb_eq. split; congruence.
Qed.

Lemma type_is_false tx n : type_is tx n = false <-> tx_type tx <> Some n.
Proof.
  rewrite <- type_is_true. destruct (type_is tx n); split; congruence.
Qed.

(** *** Running the engine again *)

Lemma float_or_0_zero (x : option Q) : (float_or_0 x == 0)%Q -> float_or_0 x = 0%Q.
Proof.
  unfold float_or_0. destruct x as [q|]; [|reflexivity].
  destruct (Qeq_bool q 0) eqn:E; [reflexivity|].
  intros Z0. apply Qeq_bool_iff in Z0. congruence.
Qed.

Lemma type_is_written b c tx n : type_is (write_balances b c tx) n = type_is tx n.
Proof. reflexivity. Qed.

Lemma update_balances_written (b b' : balances) (tx : transaction_row) :
  (tx_type tx = Some 1 ->
   (float_or_0 (tx_principal_repaid_derived tx) == 0)%Q /\
   (float_or_0 (tx_interest_repaid_derived tx) == 0)%Q) ->
  update_balances b (write_balances b' (clear_repaid tx) tx) = update_balances b tx.
Proof.
  intros H. unfold update_balances. rewrite !type_is_written.
  destruct (type_is tx 10) eqn:T10; [reflexivity|].
  destruct (type_is tx 1) eqn:T1.
  - apply type_is_true in T1. destruct (H T1) as [Hp Hi].
    apply float_or_0_zero in Hp, Hi. rewrite Hp, Hi.
    unfold clear_repaid. rewrite (proj2 (type_is_true tx 1) T1). reflexivity.
  - unfold clear_repaid. rewrite T1, T10. reflexivity.
Qed.

Lemma replay_ids b txs : map tx_id (replay b txs) = map tx_id txs.
Proof.
  revert b. induction txs as [|tx rest IH]; intros b; simpl; [reflexivity|].
  rewrite IH. reflexivity.
Qed.

Lemma replay_lookup b txs k :
  replay b txs !! k
  = (fun tx => write_balances (fold_left update_balances (take (S k) txs) b)
                              (clear_repaid tx) tx) <$> txs !! k.
Proof.
  revert b k. induction txs as [|tx rest IH]; intros b k; [reflexivity|].
  destruct k as [|k]; simpl.
  - rewrite ?take_0. reflexivity.
  - apply IH.
Qed.

Lemma replay_fold b0 b txs n :
  disbursements_clear txs ->
  fold_left update_balances (take n (replay b0 txs)) b
  = fold_left update_balances (take n txs) b.
Proof.
  revert b0 b n. induction txs as [|tx rest IH]; intros b0 b n H; [reflexivity|].
  destruct n as [|n]; [reflexivity|]. simpl.
  rewrite update_balances_written.
  - apply IH. intros tx' Hin. apply H. right. exact Hin.
  - apply H. left.
Qed.

Lemma map_written_replay b txs :
  NoDup (map tx_id txs) -> map (written_by txs b) txs = replay b txs.
Proof.
  revert b. induction txs as [|tx rest IH]; intros b ND; [reflexivity|].
  simpl in ND. apply NoDup_cons in ND as [Hfresh ND].
  simpl. rewrite Z.eqb_refl. f_equal.
  - apply written_by_untouched. exact Hfresh.
  - rewrite <- IH by exact ND.
    apply map_ext_in. intros r Hr.
    destruct (Z.eqb_spec (tx_id r) (tx_id tx)) as [E|]; [|reflexivity].
    exfalso. apply Hfresh. rewrite <- E.
    apply list_elem_of_fmap. exists r. split; [reflexivity|].
    apply list_elem_of_In. exact Hr.
Qed.

Lemma write_balances_twice b c row :
  write_balances b c (write_balances b c row) = write_balances b c row.
Proof. destruct c; reflexivity. Qed.

(** After a run the loan's rows, taken by id, are the replay of what they
    were before it. *)
Lemma fetch_after_settle_loan table loan :
  NoDup (map tx_id table) ->
  fetch_transactions (settle_loan table loan) loan
  = replay initial_balances (fetch_transactions table loan).
Proof.
  intros ND. rewrite settle_loan_as_map.
  rewrite fetch_transactions_map.
  - apply map_written_replay, fetch_transactions_NoDup, ND.
  - intros r. apply written_by_keeps.
  - intros r. apply written_by_keeps.
Qed.

(** A table whose rows for the loan already are a replay is left as it is
    by a run for that loan. *)
Lemma settle_loan_settled table loan txs :
  NoDup (map tx_id table) ->
  disbursements_clear txs ->
  fetch_transactions table loan = replay initial_balances txs ->
  settle_loan table loan = table.
Proof.
  intros ND H Hfetch.
  rewrite settle_loan_as_map, Hfetch.
  rewrite <- (map_id table) at 2.
  apply map_ext_in. intros r Hr. apply list_elem_of_In in Hr.
  pose proof (fetch_transactions_NoDup table loan ND) as NDf.
  rewrite Hfetch in NDf.
  destruct (decide (tx_id r ∈ map tx_id (replay initial_balances txs))) as [Hin|Hout].
  - apply list_elem_of_fmap in Hin as (r' & Eid & Hr').
    assert (r' = r).
    { eapply same_id_same_row; [exact ND| |exact Hr|congruence].
      eapply fetch_transactions_elem. rewrite Hfetch. exact Hr'. }
    subst r'.
    apply list_elem_of_lookup in Hr' as [k Hk].
    rewrite (written_by_at _ _ k r r NDf Hk eq_refl).
    rewrite replay_fold by exact H.
    rewrite replay_lookup in Hk.
    destruct (txs !! k) as [tx|] eqn:Htx; [|discriminate].
    simpl in Hk. injection Hk as <-.
    unfold clear_repaid at 1. rewrite !type_is_written.
    fold (clear_repaid tx). apply write_balances_twice.
  - apply written_by_untouched. exact Hout.
Qed.

Lemma settle_loan_keeps_ids table loan :
  map tx_id (settle_loan table loan) = map tx_id table.
Proof.
  rewrite settle_loan_as_map, map_map.
  apply map_ext. intros r. apply written_by_keeps.
Qed.

Lemma settle_loan_twice table loan :
  NoDup (map tx_id table) ->
  disbursements_clear (fetch_transactions table loan) ->
  settle_loan (settle_loan table loan) loan = settle_loan table loan.
Proof.
  intros ND H.
  eapply settle_loan_settled; [|exact H|].
  - rewrite settle_loan_keeps_ids. exact ND.
  - apply fetch_after_settle_loan, ND.
Qed.

(** *** The whole run *)

Lemma fetch_other_loan table loan loan' :
  NoDup (map tx_id table) -> loan <> loan' ->
  fetch_transactions (settle_loan table loan') loan = fetch_transactions table loan.
Proof.
  intros ND Hne. rewrite settle_loan_as_map.
  rewrite fetch_transactions_map; [| intros r; apply written_by_keeps ..].
  rewrite <- (map_id (fetch_transactions table loan)) at 2.
  apply map_ext_in. intros r Hr. apply list_elem_of_In in Hr.
  apply written_by_untouched. intros Hin.
  apply list_elem_of_fmap in Hin as (r' & Eid & Hr').
  apply fetch_transactions_elem in Hr as [Hr Hl].
  apply fetch_transactions_elem in Hr' as [Hr' Hl'].
  assert (r = r') by (eapply same_id_same_row; eauto).
  subst r'. congruence.
Qed.

Lemma fold_settle_loan_ids loans table :
  map tx_id (fold_left settle_loan loans table) = map tx_id table /\
  map tx_loan_id (fold_left settle_loan loans table) = map tx_loan_id table.
Proof.
  revert table. induction loans as [|l rest IH]; intros table; simpl; [auto|].
  destruct (IH (settle_loan table l)) as [E1 E2]. rewrite E1, E2.
  rewrite settle_loan_as_map, !map_map. split; apply map_ext; intros r; apply written_by_keeps.
Qed.

Lemma fetch_after_loans loans table loan :
  NoDup loans -> NoDup (map tx_id table) ->
  fetch_transactions (fold_left settle_loan loans table) loan
  = if bool_decide (loan ∈ loans)
    then replay initial_balances (fetch_transactions table loan)
    else fetch_transactions table loan.
Proof.
  revert table. induction loans as [|l rest IH]; intros table NDl ND; simpl; [reflexivity|].
  apply NoDup_cons in NDl as [Hfresh NDl].
  rewrite IH; [|exact NDl|rewrite settle_loan_keeps_ids; exact ND].
  destruct (decide (loan = l)) as [->|Hne].
  - rewrite (bool_decide_eq_false_2 _ Hfresh).
    rewrite bool_decide_eq_true_2 by left.
    apply fetch_after_settle_loan, ND.
  - rewrite (fetch_other_loan _ _ _ ND Hne).
    destruct (decide (loan ∈ rest)) as [Hin|Hout].
    + rewrite !bool_decide_eq_true_2; [reflexivity|right; exact Hin|exact Hin].
    + rewrite !bool_decide_eq_false_2; [reflexivity| |exact Hout].
      intros Hin. apply elem_of_cons in Hin as [?|?]; contradiction.
Qed.

Lemma fold_settle_loan_settled loans table :
  NoDup (map tx_id table) ->
  (forall l, l ∈ loans -> settle_loan table l = table) ->
  fold_left settle_loan loans table = table.
Proof.
  intros ND. induction loans as [|l rest IH]; intros H; simpl; [reflexivity|].
  rewrite H by left. apply IH. intros l' Hl'. apply H. right. exact Hl'.
Qed.

Lemma distinct_loan_ids_ext seen t1 t2 :
  map tx_loan_id t1 = map tx_loan_id t2 ->
  distinct_loan_ids seen t1 = distinct_loan_ids seen t2.
Proof.
  revert seen t2. induction t1 as [|r1 t1 IH]; intros seen [|r2 t2] E;
    try discriminate; [reflexivity|].
  simpl in E. injection E as E1 E. simpl. rewrite E1.
  destruct (tx_loan_id r2) as [l|]; [|apply IH, E].
  destruct (bool_decide (l ∈ seen)); [apply IH, E|].
  f_equal. apply IH, E.
Qed.

Lemma distinct_loan_ids_fresh seen table :
  NoDup (distinct_loan_ids seen table) /\
  forall l, l ∈ distinct_loan_ids seen table -> l ∉ seen.
Proof.
  revert seen. induction table as [|r rest IH]; intros seen; simpl.
  - split; [constructor|]. intros l Hl. inversion Hl.
  - destruct (tx_loan_id r) as [l|]; [|apply IH].
    destruct (decide (l ∈ seen)) as [Hin|Hout].
    + rewrite bool_decide_eq_true_2 by exact Hin. apply IH.
    + rewrite bool_decide_eq_false_2 by exact Hout.
      destruct (IH (l :: seen)) as [ND Hf]. split.
      * apply NoDup_cons. split; [|exact ND].
        intros Hl. apply (Hf l Hl). left.
      * intros l' Hl'. apply elem_of_cons in Hl' as [->|Hl']; [exact Hout|].
        intros Hs. apply (Hf l' Hl'). right. exact Hs.
Qed.

Lemma distinct_loan_ids_complete seen table tx l :
  tx ∈ table -> tx_loan_id tx = Some l ->
  l ∈ seen \/ l ∈ distinct_loan_ids seen table.
Proof.
  revert seen. induction table as [|r rest IH]; intros seen Hin Hl; [inversion Hin|].
  apply elem_of_cons in Hin as [->|Hin]; simpl.
  - rewrite Hl. destruct (decide (l ∈ seen)) as [Hs|Hs]; [left; exact Hs|].
    rewrite bool_decide_eq_false_2 by exact Hs. right. left.
  - destruct (tx_loan_id r) as [l0|]; [|apply IH; assumption].
    destruct (decide (l0 ∈ seen)) as [Hs|Hs].
    + rewrite bool_decide_eq_true_2 by exact Hs. apply IH; assumption.
    + rewrite bool_decide_eq_false_2 by exact Hs.
      destruct (IH (l0 :: seen) Hin Hl) as [H|H].
      * apply elem_of_cons in H as [->|H]; [right; left|left; exact H].
      * right. right. exact H.
Qed.

Lemma with_transactions_same db : with_transactions db (loan_transactions db) = db.
Proof. destruct db; reflexivity. Qed.

Lemma settle_loans_working conn i loans :
  working (settle_loans conn i loans)
  = with_transactions (working conn)
      (fold_left settle_loan loans (loan_transactions (working conn))).
Proof.
  revert conn i. induction loans as [|l rest IH]; intros conn i; simpl.
  - symmetry. apply with_transactions_same.
  - rewrite IH. destruct ((i + 1) mod 100 =? 0); reflexivity.
Qed.

Lemma settle_loans_settled db i loans :
  (forall l, l ∈ loans -> settle_loan (loan_transactions db) l = loan_transactions db) ->
  settle_loans (mk_connection db db) i loans = mk_connection db db.
Proof.
  revert i. induction loans as [|l rest IH]; intros i H; simpl; [reflexivity|].
  rewrite H by left. rewrite with_transactions_same.
  assert (E : (if (i + 1) mod 100 =? 0 then commit (mk_connection db db)
               else mk_connection db db) = mk_connection db db).
  { destruct ((i + 1) mod 100 =? 0); reflexivity. }
  rewrite E. apply IH. intros l' Hl'. apply H. right. exact Hl'.
Qed.

Lemma fetch_no_rows table loan :
  (forall tx, tx ∈ table -> tx_loan_id tx <> Some loan) ->
  fetch_transactions table loan = [].
Proof.
  intros H. destruct (fetch_transactions table loan) as [|tx rest] eqn:E; [reflexivity|].
  assert (Hin : tx ∈ fetch_transactions table loan) by (rewrite E; left).
  apply fetch_transactions_elem in Hin as [Hin Hl]. exfalso. eapply H; eauto.
Qed.

(** The rows of a loan are rewritten by the turn for that loan and by no
    other. *)
Lemma fold_settle_loan_lookup loans table j row loan :
  NoDup loans -> NoDup (map tx_id table) ->
  table !! j = Some row -> tx_loan_id row = Some loan ->
  fold_left settle_loan loans table !! j
  = if bool_decide (loan ∈ loans) then settle_loan table loan !! j else Some row.
Proof.
  revert table row. induction loans as [|l rest IH]; intros table row NDl ND Hj Hl;
    simpl; [exact Hj|].
  apply NoDup_cons in NDl as [Hfresh NDl].
  assert (ND1 : NoDup (map tx_id (settle_loan table l)))
    by (rewrite settle_loan_keeps_ids; exact ND).
  assert (Hj1 : settle_loan table l !! j
                = Some (written_by (fetch_transactions table l) initial_balances row)).
  { rewrite settle_loan_as_map, list_lookup_fmap, Hj. reflexivity. }
  rewrite (IH _ _ NDl ND1 Hj1); [|rewrite (proj1 (proj2 (written_by_keeps _ _ _))); exact Hl].
  destruct (decide (loan = l)) as [->|Hne].
  - rewrite (bool_decide_eq_false_2 _ Hfresh).
    rewrite bool_decide_eq_true_2 by left. symmetry. exact Hj1.
  - assert (Hsame : written_by (fetch_transactions table l) initial_balances row = row).
    { apply written_by_untouched. intros Hin.
      apply list_elem_of_fmap in Hin as (r' & Eid & Hr').
      apply fetch_transactions_elem in Hr' as [Hr' Hl'].
      assert (row = r').
      { eapply same_id_same_row; [exact ND| |exact Hr'|exact Eid].
        eapply list_elem_of_lookup_2. exact Hj. }
      subst r'. congruence. }
    rewrite Hsame.
    destruct (decide (loan ∈ rest)) as [Hin|Hout].
    + rewrite !bool_decide_eq_true_2; [|right; exact Hin|exact Hin].
      rewrite (settle_loan_as_map (settle_loan table l) loan).
      rewrite (settle_loan_as_map table loan).
      rewrite !list_lookup_fmap, Hj1, Hj, Hsame. simpl.
      rewrite (fetch_other_loan _ _ _ ND Hne). reflexivity.
    + rewrite !bool_decide_eq_false_2; [reflexivity| |exact Hout].
      intros Hin. apply elem_of_cons in Hin as [?|?]; contradiction.
Qed.

(** After the whole run a row of a loan is what the turn for that loan
    made of it, and it is committed. *)
Lemma settle_transactions_lookup conn j row loan :
  NoDup (map tx_id (loan_transactions (working conn))) ->
  loan_transactions (working conn) !! j = Some row ->
  tx_loan_id row = Some loan ->
  loan_transactions (working (settle_transactions conn)) !! j
  = settle_loan (loan_transactions (working conn)) loan !! j /\
  committed (settle_transactions conn) = working (settle_transactions conn).
Proof.
  intros ND Hj Hl. unfold settle_transactions.
  set (table := loan_transactions (working conn)) in *.
  destruct (distinct_loan_ids_fresh [] table) as [NDids _].
  assert (Hin : loan ∈ distinct_loan_ids [] table).
  { destruct (distinct_loan_ids_complete [] table row loan) as [H|H];
      [eapply list_elem_of_lookup_2; exact Hj | exact Hl | inversion H | exact H]. }
  destruct (distinct_loan_ids [] table) as [|l rest] eqn:Eids; [inversion Hin|].
  split; [|reflexivity].
  unfold commit. simpl working. rewrite settle_loans_working.
  change (fold_left settle_loan (l :: rest) table !! j = settle_loan table loan !! j).
  rewrite (fold_settle_loan_lookup _ _ _ _ _ NDids ND Hj Hl).
  rewrite bool_decide_eq_true_2 by exact Hin. reflexivity.
Qed.

(** C3.  In a run of the engine the transactions of a loan are taken by
    ascending id.  With [before] the balances after the earlier
    transactions (all zero at the start) and [after] those after
    transaction [tx]: type 10 adds the amount to the penalties balance,
    type 1 sets the principal and interest balances to the transaction's
    own repaid fields, types 2 and 6 subtract the three repaid fields, any
    other type changes nothing; when the run is over the row of [tx] holds
    the three balances and their sum as total balance, committed. *)
Theorem settlement_replay_by_type
    (conn : connection) (loan : Z) (k : nat) (tx : transaction_row) :
  let table := loan_transactions (working conn) in
  NoDup (map tx_id table) ->
  fetch_transactions table loan !! k = Some tx ->
  let before := balances_after (take k (fetch_transactions table loan)) in
  let after := update_balances before tx in
  let principal_amount := float_or_0 (tx_principal_repaid_derived tx) in
  let interest_amount := float_or_0 (tx_interest_repaid_derived tx) in
  let penalties_amount := float_or_0 (tx_penalties_repaid_derived tx) in
  let amount := float_or_0 (tx_amount tx) in
  (forall k' tx', (k' < k)%nat ->
     fetch_transactions table loan !! k' = Some tx' -> tx_id tx' < tx_id tx) /\
  (k = 0%nat -> before = mk_balances 0 0 0) /\
  (tx_type tx = Some 10 ->
   after = mk_balances (principal_balance before) (interest_balance before)
                       (penalties_balance before + amount)) /\
  (tx_type tx = Some 1 ->
   after = mk_balances principal_amount interest_amount (penalties_balance before)) /\
  (tx_type tx = Some 2 \/ tx_type tx = Some 6 ->
   after = mk_balances (principal_balance before - principal_amount)
                       (interest_balance before - interest_amount)
                       (penalties_balance before - penalties_amount)) /\
  (tx_type tx <> Some 10 -> tx_type tx <> Some 1 ->
   tx_type tx <> Some 2 -> tx_type tx <> Some 6 -> after = before) /\
  balances_after (take (S k) (fetch_transactions table loan)) = after /\
  exists j row',
    table !! j = Some tx /\
    loan_transactions (working (settle_transactions conn)) !! j = Some row' /\
    committed (settle_transactions conn) = working (settle_transactions conn) /\
    tx_id row' = tx_id tx /\
    tx_principal_balance row' = Some (principal_balance after) /\
    tx_interest_balance row' = Some (interest_balance after) /\
    tx_penalties_balance row' = Some (penalties_balance after) /\
    tx_total_balance row'
    = Some (principal_balance after + interest_balance after + penalties_balance after)%Q.
Proof.
  intros table ND Hk before after principal_amount interest_amount penalties_amount amount.
  pose proof (fetch_transactions_NoDup table loan ND) as NDf.
  assert (Hafter : balances_after (take (S k) (fetch_transactions table loan)) = after).
  { unfold balances_after. erewrite take_S_r by exact Hk.
    rewrite fold_left_app. reflexivity. }
  split; [|split; [|split; [|split; [|split; [|split; [|split]]]]]].
  - intros k' tx' Hlt Hk'.
    assert (Hle : tx_id tx' <= tx_id tx).
    { eapply sorted_lookup_le; [|exact Hlt|exact Hk'|exact Hk].
      unfold fetch_transactions. apply order_by_id_sorted. }
    assert (Hne : tx_id tx' <> tx_id tx).
    { intros E.
      assert (k' = k); [|lia].
      eapply NoDup_lookup; [exact NDf| |].
      - rewrite list_lookup_fmap, Hk'. reflexivity.
      - rewrite list_lookup_fmap, Hk. simpl. rewrite E. reflexivity. }
    lia.
  - intros ->. reflexivity.
  - intros T. subst after. unfold update_balances.
    rewrite (proj2 (type_is_true tx 10) T). reflexivity.
  - intros T. subst after. unfold update_balances.
    rewrite (proj2 (type_is_false tx 10)) by (rewrite T; discriminate).
    rewrite (proj2 (type_is_true tx 1) T). reflexivity.
  - intros T. subst after. unfold update_balances.
    rewrite (proj2 (type_is_false tx 10)) by (destruct T as [T|T]; rewrite T; discriminate).
    rewrite (proj2 (type_is_false tx 1)) by (destruct T as [T|T]; rewrite T; discriminate).
    destruct T as [T|T]; rewrite (proj2 (type_is_true tx _) T);
      rewrite ?orb_true_r; reflexivity.
  - intros T10 T1 T2 T6. subst after. unfold update_balances.
    rewrite (proj2 (type_is_false tx 10) T10), (proj2 (type_is_false tx 1) T1),
      (proj2 (type_is_false tx 2) T2), (proj2 (type_is_false tx 6) T6).
    reflexivity.
  - exact Hafter.
  - assert (Hin : tx ∈ table).
    { eapply fetch_transactions_elem. eapply list_elem_of_lookup_2. exact Hk. }
    apply list_elem_of_lookup in Hin as [j Hj].
    assert (Hloan : tx_loan_id tx = Some loan).
    { eapply fetch_transactions_elem. eapply list_elem_of_lookup_2. exact Hk. }
    exists j, (write_balances after (clear_repaid tx) tx).
    split; [exact Hj|].
    destruct (settle_transactions_lookup conn j tx loan ND Hj Hloan) as [Hrun Hcommit].
    split; [|split; [exact Hcommit|repeat split]].
    fold table in Hrun. rewrite Hrun.
    rewrite settle_loan_as_map, list_lookup_fmap, Hj. simpl. f_equal.
    rewrite (written_by_at _ _ k tx tx NDf Hk eq_refl).
    fold (balances_after (take (S k) (fetch_transactions table loan))).
    rewrite Hafter. reflexivity.
Qed.

(** C3 on the sample ledger: the repayment with id 2 comes second, after
    the charges of 50, and its row gets the penalties balance 50 - 1. *)
Lemma settlement_replay_by_type_witness :
  let conn := Samples.charged_ledger in
  let tx := Samples.ledger_row 2 7 2 10 5 1 16 in
  exists j row',
    loan_transactions (working conn) !! j = Some tx /\
    loan_transactions (working (settle_transactions conn)) !! j = Some row' /\
    tx_penalties_balance row' = Some (0 + 50 - 1)%Q /\
    tx_total_balance row' = Some ((0 - 10) + (0 - 5) + (0 + 50 - 1))%Q.
Proof.
  intros conn tx.
  destruct (settlement_replay_by_type conn 7 1 tx)
    as (_ & _ & _ & _ & _ & _ & _ & j & row' & Hj & Hs & _ & _ & _ & _ & Hp & Ht).
  - apply (bool_decide_unpack _). reflexivity.
  - reflexivity.
  - exists j, row'. repeat split; assumption.
Defined.

(** C1, as the code has it, over a table whose ids are unique (the
    primary key).  For every loan, the rows that a run leaves are the
    replay of the loan's rows taken by id, a function of that log alone:
    this part has no further condition.  A second run leaves the whole
    table, and so every balance column, as the first run left it, provided
    no disbursement row carried a repaid principal or interest before the
    first run: the run itself sets these two fields to zero on
    disbursement and apply-charges rows. *)
Theorem settle_transactions_again (conn : connection) :
  NoDup (map tx_id (loan_transactions (working conn))) ->
  (forall loan,
     fetch_transactions (loan_transactions (working (settle_transactions conn))) loan
     = replay initial_balances (fetch_transactions (loan_transactions (working conn)) loan)) /\
  (disbursements_clear (loan_transactions (working conn)) ->
   settle_transactions (settle_transactions conn) = settle_transactions conn /\
   balance_columns (loan_transactions (working (settle_transactions (settle_transactions conn))))
   = balance_columns (loan_transactions (working (settle_transactions conn)))).
Proof.
  intros ND.
  set (table := loan_transactions (working conn)) in *.
  set (ids := distinct_loan_ids [] table).
  destruct (distinct_loan_ids_fresh [] table) as [NDids _]. fold ids in NDids.
  assert (Hall : forall loan,
             fetch_transactions (fold_left settle_loan ids table) loan
             = replay initial_balances (fetch_transactions table loan)).
  { intros loan. rewrite fetch_after_loans by assumption.
    destruct (decide (loan ∈ ids)) as [Hin|Hout].
    - rewrite bool_decide_eq_true_2 by exact Hin. reflexivity.
    - rewrite bool_decide_eq_false_2 by exact Hout.
      rewrite fetch_no_rows; [reflexivity|].
      intros tx Htx Hl.
      destruct (distinct_loan_ids_complete [] table tx loan Htx Hl) as [Hs|Hs];
        [inversion Hs | contradiction]. }
  assert (Hfirst : (ids = [] /\ settle_transactions conn = conn) \/
            exists db, settle_transactions conn = mk_connection db db /\
                       loan_transactions db = fold_left settle_loan ids table /\
                       ids <> []).
  { unfold settle_transactions. fold table. fold ids.
    destruct ids as [|l rest] eqn:Eids; [left; split; reflexivity|].
    right. eexists. split; [reflexivity|].
    rewrite settle_loans_working. split; [reflexivity|discriminate]. }
  split.
  - intros loan. destruct Hfirst as [[Eids E]|(db & E & Et & Hne)].
    + rewrite E. fold table. rewrite <- (Hall loan), Eids. reflexivity.
    + rewrite E. simpl. rewrite Et. apply Hall.
  - intros H.
    assert (Hstep : forall loan,
               settle_loan (fold_left settle_loan ids table) loan
               = fold_left settle_loan ids table).
    { intros loan. eapply settle_loan_settled; [| |apply Hall].
      - rewrite (proj1 (fold_settle_loan_ids ids table)). exact ND.
      - intros tx Htx. apply H. eapply fetch_transactions_elem. exact Htx. }
    assert (Hagain : settle_transactions (settle_transactions conn) = settle_transactions conn).
    { destruct Hfirst as [[_ E]|(db & E & Et & Hne)].
      - rewrite !E. reflexivity.
      - rewrite E. unfold settle_transactions at 1. simpl.
        assert (Eids : distinct_loan_ids [] (loan_transactions db) = ids).
        { apply distinct_loan_ids_ext. rewrite Et. apply fold_settle_loan_ids. }
        rewrite Eids. destruct ids as [|l rest] eqn:Eq; [contradiction|].
        rewrite settle_loans_settled; [reflexivity|].
        intros l' _. rewrite Et. apply Hstep. }
    split; [exact Hagain | rewrite Hagain; reflexivity].
Qed.

(** C1 on a ledger with a disbursement that carries no repaid principal
    or interest, charges and a repayment: the rows of loan 7 after a run
    are the replay of its log, and a second run changes nothing. *)
Lemma settle_transactions_again_witness :
  let conn := Samples.disbursed_and_repaid_ledger in
  (exists tx, tx ∈ loan_transactions (working conn) /\ tx_type tx = Some 1) /\
  fetch_transactions (loan_transactions (working (settle_transactions conn))) 7
  = replay initial_balances (fetch_transactions (loan_transactions (working conn)) 7) /\
  settle_transactions (settle_transactions conn) = settle_transactions conn.
Proof.
  intros conn.
  destruct (settle_transactions_again conn) as [Hreplay Hagain].
  - apply (bool_decide_unpack _). reflexivity.
  - split; [|split].
    + eexists. split; [apply list_elem_of_here | reflexivity].
    + apply Hreplay.
    + apply Hagain.
      intros tx Hin T. simpl in Hin.
      repeat (apply elem_of_cons in Hin as [->|Hin];
              [first [discriminate T | split; reflexivity]|]).
      inversion Hin.
Defined.

(** C1 as stated fails.  One disbursement of 1000 principal and 100
    interest: the first run writes the balances 1000, 100, 0 and 1100 and
    zeroes the two repaid fields of the row; the second run reads them back
    and writes 0 in all four balance columns. *)
Lemma settle_transactions_twice_counterexample :
  let once := settle_transactions Samples.disbursed_ledger in
  let twice := settle_transactions once in
  balance_columns (loan_transactions (working once))
  = [(1, (Some 1000%Q, Some 100%Q, Some 0%Q, Some 1100%Q))] /\
  balance_columns (loan_transactions (working twice))
  = [(1, (Some 0%Q, Some 0%Q, Some 0%Q, Some 0%Q))] /\
  balance_columns (loan_transactions (working twice))
  <> balance_columns (loan_transactions (working once)) /\
  ~ (1000 == 0)%Q /\ ~ (1100 == 0)%Q.
Proof.
  repeat split; try reflexivity; try discriminate.
Qed.

End SettlementFacts.

Module EarlySettlementFacts.
Import Py Schema EarlySettlement.

Section with_runtime.
Context {runtime : Runtime}.

(** When the handling of a loan raises, the connection is rolled back to
    what was committed before. *)
Lemma handle_early_settlement_raise conn loan conn' e :
  handle_early_settlement conn loan = (conn', Raise e) ->
  conn' = rollback conn.
Proof.
  unfold handle_early_settlement.
  destruct (early_settlement_steps (working conn) loan) as [[db []]|e']; intros E;
    inversion E; reflexivity.
Qed.

(** The two early returns neither commit nor roll back: what the steps
    did so far stays in the open transaction. *)
Lemma handle_early_settlement_return conn loan conn' e :
  handle_early_settlement conn loan = (conn', Ok e) -> e <> Settled ->
  committed conn' = committed conn /\
  exists db, early_settlement_steps (working conn) loan = Ok (db, e) /\ working conn' = db.
Proof.
  unfold handle_early_settlement.
  destruct (early_settlement_steps (working conn) loan) as [[db []]|e']; intros E Hne;
    inversion E; subst; try contradiction; simpl; eauto.
Qed.

Lemma last_installment_elem rows r : last_installment rows = Some r -> r ∈ rows.
Proof.
  revert r. induction rows as [|r0 rest IH]; intros r E; [discriminate|].
  simpl in E. destruct (last_installment rest) as [r'|].
  - destruct (key_lt (inst_installment r0) (inst_installment r')); injection E as <-.
    + right. apply IH. reflexivity.
    + left.
  - injection E as <-. left.
Qed.

Lemma first_installment_elem rows r : first_installment rows = Some r -> r ∈ rows.
Proof.
  revert r. induction rows as [|r0 rest IH]; intros r E; [discriminate|].
  simpl in E. destruct (first_installment rest) as [r'|].
  - destruct (key_lt (inst_installment r') (inst_installment r0)); injection E as <-.
    + right. apply IH. reflexivity.
    + left.
  - injection E as <-. left.
Qed.

Lemma set_installment_ids f cond rows :
  (forall r, inst_id (f r) = inst_id r) ->
  map inst_id (set_installment f cond rows) = map inst_id rows.
Proof.
  intros Hf. unfold set_installment. rewrite map_map. apply map_ext.
  intros r. destruct (cond r); [apply Hf | reflexivity].
Qed.

Lemma delete_by_id_length (rows : list installment_row) (id : Z) :
  NoDup (map inst_id rows) -> id ∈ map inst_id rows ->
  (length (filter (fun r => inst_id r <> id) rows) + 1 = length rows)%nat.
Proof.
  induction rows as [|r rest IH]; intros ND Hin; [inversion Hin|].
  simpl in ND, Hin. apply NoDup_cons in ND as [Hfresh ND].
  rewrite filter_cons. destruct (decide (inst_id r <> id)) as [Hne|Heq]; simpl.
  - apply elem_of_cons in Hin as [->|Hin]; [contradiction|].
    rewrite IH by assumption. reflexivity.
  - assert (E : inst_id r = id) by (destruct (decide (inst_id r = id)); [assumption|contradiction]).
    subst id. rewrite Nat.add_1_r. f_equal.
    clear IH Hin ND Heq. induction rest as [|r' rest IH]; [reflexivity|].
    assert (Hne : inst_id r' <> inst_id r).
    { intros E. apply Hfresh. simpl. rewrite E. left. }
    rewrite filter_cons, decide_True by exact Hne. simpl. f_equal.
    apply IH. intros H. apply Hfresh. simpl. right. exact H.
Qed.

(** What a completed handling leaves in the tables of loans and of
    installments. *)
Lemma settled_shape (db db' : database) (loan : Z) :
  early_settlement_steps db loan = Ok (db', Settled) ->
  let schedule :=
    filter (fun r => inst_loan_id r = Some loan) (loan_repayment_schedules db) in
  exists settlement first_unpaid,
    last_installment schedule = Some settlement /\
    first_installment (filter (fun r => unpaid r = true) schedule) = Some first_unpaid /\
    loans db' = set_loan close_loan loan (set_loan decrease_term loan (loans db)) /\
    loan_repayment_schedules db'
    = set_installment (pay_off (inst_paid_by_date settlement))
        (fun r => of_loan loan r && (inst_id first_unpaid <=? inst_id r))
        (filter (fun r => inst_id r <> inst_id settlement)
           (set_installment (mark_early_repayment (float_or_0 (inst_interest settlement)))
              (fun r => inst_id r =? inst_id first_unpaid)
              (loan_repayment_schedules db))).
Proof.
  intros E schedule. unfold early_settlement_steps in E. fold schedule in E.
  destruct (last_installment schedule) as [settlement|]; [|discriminate].
  destruct (List.find (fun l => loan_id l =? loan) (loans db)) as [l|]; [|discriminate].
  simpl in E.
  destruct (first_installment (filter (fun r => unpaid r = true) schedule))
    as [first_unpaid|]; [|discriminate].
  exists settlement, first_unpaid. split; [reflexivity|]. split; [reflexivity|].
  apply PyFacts.bind_ok in E as (when & _ & E).
  destruct (positive (float_or_0 (inst_interest settlement)));
    match type of E with context [if positive ?q then _ else _] =>
      destruct (positive q) end;
    match type of E with context [if positive ?q then _ else _] =>
      destruct (positive q) end;
    simpl in E; injection E as <-; split; reflexivity.
Qed.

(** When the first unpaid installment is not the last one, a completed
    handling leaves what is expected: the term one lower and the status
    closed, the last installment and only it removed, and the first
    unpaid installment marked and carrying the fee. *)
Lemma early_settlement_invariants (db db' : database) (loan : Z) :
  NoDup (map inst_id (loan_repayment_schedules db)) ->
  early_settlement_steps db loan = Ok (db', Settled) ->
  let schedule :=
    filter (fun r => inst_loan_id r = Some loan) (loan_repayment_schedules db) in
  exists settlement first_unpaid,
    last_installment schedule = Some settlement /\
    first_installment (filter (fun r => unpaid r = true) schedule) = Some first_unpaid /\
    (forall l, l ∈ loans db -> loan_id l = loan ->
       close_loan (decrease_term l) ∈ loans db' /\
       loan_term (close_loan (decrease_term l)) = (fun t => t - 1) <$> loan_term l /\
       loan_status (close_loan (decrease_term l)) = "closed"%string) /\
    (length (loan_repayment_schedules db') + 1 = length (loan_repayment_schedules db))%nat /\
    (forall id, id ∈ map inst_id (loan_repayment_schedules db') <->
                id ∈ map inst_id (loan_repayment_schedules db) /\ id <> inst_id settlement) /\
    (inst_id first_unpaid <> inst_id settlement ->
     exists r, r ∈ loan_repayment_schedules db' /\
               inst_id r = inst_id first_unpaid /\
               inst_is_early_repayment r = Some true /\
               inst_fees r = Some (float_or_0 (inst_interest settlement)) /\
               inst_fees_repaid_derived r = Some (float_or_0 (inst_interest settlement))).
Proof.
  intros ND E schedule.
  destruct (settled_shape db db' loan E) as (settlement & first_unpaid & Hl & Hf & El & Es).
  fold schedule in Hl, Hf.
  exists settlement, first_unpaid. split; [exact Hl|]. split; [exact Hf|].
  assert (Hs_in : settlement ∈ loan_repayment_schedules db).
  { apply last_installment_elem in Hl. apply list_elem_of_filter in Hl. tauto. }
  assert (Hu_in : first_unpaid ∈ loan_repayment_schedules db /\
                  inst_loan_id first_unpaid = Some loan).
  { apply first_installment_elem in Hf.
    apply list_elem_of_filter in Hf as [_ Hf]. apply list_elem_of_filter in Hf. tauto. }
  set (fee := float_or_0 (inst_interest settlement)) in *.
  set (marked := set_installment (mark_early_repayment fee)
                   (fun r => inst_id r =? inst_id first_unpaid)
                   (loan_repayment_schedules db)) in *.
  assert (Emarked : map inst_id marked = map inst_id (loan_repayment_schedules db)).
  { apply set_installment_ids. reflexivity. }
  assert (Eids : map inst_id (loan_repayment_schedules db')
                 = map inst_id (filter (fun r => inst_id r <> inst_id settlement) marked)).
  { rewrite Es. apply set_installment_ids. reflexivity. }
  split; [|split; [|split]].
  - intros l Hin Hid. split; [|split; reflexivity].
    rewrite El. unfold set_loan. rewrite map_map.
    apply list_elem_of_fmap. exists l. split; [|exact Hin].
    rewrite Hid, Z.eqb_refl. simpl. rewrite Hid, Z.eqb_refl. reflexivity.
  - rewrite <- (length_map inst_id (loan_repayment_schedules db')), Eids, length_map.
    rewrite delete_by_id_length.
    + rewrite <- (length_map inst_id marked), Emarked, length_map. reflexivity.
    + rewrite Emarked. exact ND.
    + rewrite Emarked. apply list_elem_of_fmap. eauto.
  - intros id. rewrite Eids. rewrite <- Emarked. rewrite !list_elem_of_fmap. split.
    + intros (r & -> & Hr). apply list_elem_of_filter in Hr as [Hne Hr]. eauto.
    + intros [(r & -> & Hr) Hne]. exists r. split; [reflexivity|].
      apply list_elem_of_filter. auto.
  - intros Hne. destruct Hu_in as [Hu_in Hu_loan].
    exists (pay_off (inst_paid_by_date settlement) (mark_early_repayment fee first_unpaid)).
    split; [|repeat split].
    rewrite Es. unfold set_installment at 1.
    apply list_elem_of_fmap. exists (mark_early_repayment fee first_unpaid). split.
    + unfold of_loan. simpl. rewrite Hu_loan.
      rewrite bool_decide_eq_true_2 by reflexivity.
      rewrite Z.leb_refl. reflexivity.
    + apply list_elem_of_filter. split; [exact Hne|].
      unfold marked, set_installment. apply list_elem_of_fmap.
      exists first_unpaid. rewrite Z.eqb_refl. auto.
Qed.

End with_runtime.

(** C4 at a loan without unpaid installment.  The handling deletes the
    transaction booked against the last installment, finds no unpaid
    installment and returns without rolling back; the commit that ends the
    run makes the deletion durable. *)
Theorem early_settlement_abort_is_committed :
  let conn := Samples.paid_up_loan in
  let aborted := @handle_early_settlement bare_runtime conn 1 in
  let finished := @run_settle_installments bare_runtime conn ["L1"%string] in
  snd aborted = Ok NoUnpaidInstallment /\
  map tx_id (loan_transactions (committed conn)) = [5] /\
  loan_transactions (working (fst aborted)) = [] /\
  loan_transactions (committed (fst aborted)) = loan_transactions (committed conn) /\
  loan_transactions (committed finished) = [] /\
  loans (committed finished) = loans (committed conn) /\
  loan_repayment_schedules (committed finished) = loan_repayment_schedules (committed conn).
Proof. repeat split. Qed.

(** C5 at a loan whose first unpaid installment is its last one.  The
    handling completes: the term goes from 3 to 2, the status becomes
    closed and the only row removed is the last installment; but that row
    is the one that was marked, so no remaining installment has
    is_early_repayment set or carries the fee. *)
Theorem early_settlement_marks_deleted_installment :
  let conn := Samples.last_unpaid_loan in
  let settled := @handle_early_settlement bare_runtime conn 1 in
  snd settled = Ok Settled /\
  map inst_id (loan_repayment_schedules (committed conn)) = [10; 11] /\
  map unpaid (loan_repayment_schedules (committed conn)) = [false; true] /\
  map inst_id (loan_repayment_schedules (committed (fst settled))) = [10] /\
  map inst_is_early_repayment (loan_repayment_schedules (committed (fst settled))) = [None] /\
  map inst_fees (loan_repayment_schedules (committed (fst settled))) = [None] /\
  map loan_term (loans (committed (fst settled))) = [Some 2] /\
  map loan_status (loans (committed (fst settled))) = ["closed"%string].
Proof. repeat split. Qed.

End EarlySettlementFacts.

Module TransformFacts.
Import Py Transform.

Lemma mbind_ok {A B : Type} (m : M A) (k : A -> M B) (w w' : world) (b : B) :
  mbind m k w = (w', Ok b) ->
  exists a w1, m w = (w1, Ok a) /\ k a w1 = (w', Ok b).
Proof.
  unfold mbind. destruct (m w) as [w1 [a|e]]; intros E; [eauto | discriminate].
Qed.

Lemma lift_ok {A : Type} (r : result A) (w w' : world) (a : A) :
  lift r w = (w', Ok a) -> r = Ok a /\ w' = w.
Proof. unfold lift. intros E. inversion E. auto. Qed.

Lemma ret_ok {A : Type} (a a' : A) (w w' : world) :
  ret a w = (w', Ok a') -> a' = a /\ w' = w.
Proof. unfold ret. intros E. inversion E. auto. Qed.

Lemma result_shape {A : Type} (r : world * result A) (dflt : A) :
  is_ok (snd r) = true -> r = (fst r, Ok (result_or (snd r) dflt)).
Proof. destruct r as [w [a|e]]; simpl; [reflexivity | discriminate]. Qed.

(** A computation whose continuation always raises, raises. *)
Lemma mbind_raises {A B : Type} (m : M A) (k : A -> M B) (w : world) :
  (forall a w1, exists e, snd (k a w1) = Raise e) ->
  exists e, snd (mbind m k w) = Raise e.
Proof.
  intros H. unfold mbind. destruct (m w) as [w1 [a|e]]; [apply H | simpl; eauto].
Qed.

End TransformFacts.

Module ClientsFacts.
Import Py Transform Clients Wkb TransformFacts.

Section with_target.
Context {runtime : Runtime} {target : Target}.

Lemma set_coordinates_raises (row_data source_row : dict) :
  truthy (get source_row "home_geography") = true ->
  extract_lat_lon_from_wkb (get source_row "home_geography") = None ->
  set_coordinates row_data source_row = Raise TypeError.
Proof. intros T E. unfold set_coordinates. rewrite T, E. reflexivity. Qed.

Lemma extract_text_fails (s : string) :
  String.prefix specific_prefix (drop_0x s) = false \/
  (String.length (drop_0x s) < min_len)%nat \/
  unhexlify (drop_0x s) = None ->
  extract_lat_lon_from_wkb (VStr s) = None.
Proof.
  intros H. unfold extract_lat_lon_from_wkb, binary_of_text. simpl.
  destruct (String.prefix specific_prefix (drop_0x s)) eqn:P; simpl; [|reflexivity].
  destruct (Nat.ltb_spec (String.length (drop_0x s)) min_len) as [L|L]; [reflexivity|].
  destruct H as [H|[H|H]]; [discriminate | lia | rewrite H; reflexivity].
Qed.

Lemma extract_bytes_fails (b : string) :
  (String.length b < 22)%nat -> extract_lat_lon_from_wkb (VBytes b) = None.
Proof.
  intros L. unfold extract_lat_lon_from_wkb. simpl.
  destruct (Nat.ltb_spec (String.length b) 22); [reflexivity | lia].
Qed.

(** C10.  In the [clients] migration, when the source row has a blob in
    [home_geography] and the decoder returns nothing for it, the two-value
    unpacking raises [TypeError] and the processing of the row ends in an
    exception: the row gets no coordinates.  A row that is processed to
    the end has the default (0, 0) exactly when the blob is absent or
    empty, and the decoded pair otherwise.  The decoder returns nothing
    for a text without the prefix E6100000010F (after an optional 0x), of
    fewer than 76 characters or that is no hex string, for fewer than 22
    raw bytes, and for a value that is neither text nor bytes. *)
Theorem clients_geography_failure (row_data source_row : dict) (w : world) :
  let blob := get source_row "home_geography" in
  (truthy blob = true ->
   extract_lat_lon_from_wkb blob = None ->
   (forall r, set_coordinates r source_row = Raise TypeError) /\
   exists e, snd (CustomLogic.process_columns Clients row_data source_row w) = Raise e) /\
  (forall w' row',
     CustomLogic.process_columns Clients row_data source_row w = (w', Ok row') ->
     if truthy blob then
       exists lat lon,
         extract_lat_lon_from_wkb blob = Some (lat, lon) /\
         row' !! "latitude" = Some lat /\ row' !! "approved_latitude" = Some lat /\
         row' !! "longitude" = Some lon /\ row' !! "approved_longitude" = Some lon
     else
       row' !! "latitude" = Some (VFloat 0) /\ row' !! "approved_latitude" = Some (VFloat 0) /\
       row' !! "longitude" = Some (VFloat 0) /\ row' !! "approved_longitude" = Some (VFloat 0)) /\
  (forall s,
     String.prefix specific_prefix (drop_0x s) = false \/
     (String.length (drop_0x s) < min_len)%nat \/
     unhexlify (drop_0x s) = None ->
     extract_lat_lon_from_wkb (VStr s) = None) /\
  (forall b, (String.length b < 22)%nat -> extract_lat_lon_from_wkb (VBytes b) = None) /\
  (forall v, (forall s, v <> VStr s) -> (forall b, v <> VBytes b) ->
             extract_lat_lon_from_wkb v = None).
Proof.
  intros blob. split; [|split; [|split; [|split]]].
  - intros T E. split; [intros r; apply set_coordinates_raises; assumption|].
    unfold CustomLogic.process_columns, process_clients.
    do 13 (apply mbind_raises; intros).
    unfold mbind, lift. rewrite set_coordinates_raises by assumption.
    simpl. eauto.
  - intros w' row' E.
    unfold CustomLogic.process_columns, process_clients in E.
    repeat (apply mbind_ok in E as (? & ? & ? & E)).
    apply ret_ok in E as [-> ->].
    match goal with H : lift (set_coordinates _ _) _ = _ |- _ =>
      apply lift_ok in H as [Hc _] end.
    unfold set_coordinates in Hc. fold blob in Hc.
    destruct (truthy blob).
    + destruct (extract_lat_lon_from_wkb blob) as [[lat lon]|]; [|discriminate].
      injection Hc as <-. exists lat, lon.
      split; [reflexivity|].
      repeat split; repeat (rewrite lookup_insert_ne by done); apply lookup_insert_eq.
    + injection Hc as <-.
      repeat split; repeat (rewrite lookup_insert_ne by done); apply lookup_insert_eq.
  - apply extract_text_fails.
  - apply extract_bytes_fails.
  - intros v Hs Hb. destruct v; try reflexivity.
    + exfalso. eapply Hs. reflexivity.
    + exfalso. eapply Hb. reflexivity.
Qed.

End with_target.

(** C10 on a client whose blob lacks the prefix: the decoder returns
    nothing and the row ends in an exception. *)
Lemma clients_geography_failure_witness :
  exists e,
    snd (@CustomLogic.process_columns bare_runtime Samples.sample_target Clients
           Samples.client_row Samples.client_source_row Samples.empty_world) = Raise e.
Proof.
  apply (proj1 (@clients_geography_failure bare_runtime Samples.sample_target
                  Samples.client_row Samples.client_source_row Samples.empty_world)).
  - reflexivity.
  - reflexivity.
Defined.

Example client_row_fails_with_type_error :
  snd (@CustomLogic.process_columns bare_runtime Samples.sample_target Clients
         Samples.client_row Samples.client_source_row Samples.empty_world)
  = Raise TypeError.
Proof. vm_compute. reflexivity. Qed.

(** Raw bytes of sufficient length are decoded whatever their header. *)
Example bytes_header_is_not_checked :
  @extract_lat_lon_from_wkb bare_runtime (VBytes "0123456789012345678901")
  = Some (VFloat 0, VFloat 0).
Proof. reflexivity. Qed.

End ClientsFacts.

Module TransactionsFacts.
Import Py Transform Transactions PyFacts TransformFacts.

Lemma positive_false (q : Q) : positive q = false -> (q <= 0)%Q.
Proof.
  unfold positive. intros H. apply negb_false_iff in H. apply Qle_bool_iff. exact H.
Qed.

Lemma positive_true (q : Q) : positive q = true -> (0 < q)%Q.
Proof.
  unfold positive. intros H. apply negb_true_iff in H.
  apply Qnot_le_lt. intros L. apply Qle_bool_iff in L. congruence.
Qed.

Lemma negative_false (q : Q) : negative q = false -> (0 <= q)%Q.
Proof.
  unfold negative. intros H. apply negb_false_iff in H. apply Qle_bool_iff. exact H.
Qed.

Section with_target.
Context {runtime : Runtime} {target : Target}.

Lemma make_non_negative_spec (field : string) (r r' : dict) :
  make_non_negative field r = Ok r' ->
  (forall g, g <> field -> r' !! g = r !! g) /\
  (forall v q, r' !! field = Some v -> float v = Ok q -> (0 <= q)%Q).
Proof.
  unfold make_non_negative. intros E.
  destruct (r !! field) as [v|] eqn:Hv.
  - assert (Hgen : (value <- float v ;;
                    Ok (if negative value then <[field := VFloat (Qabs value)]> r else r))
                   = Ok r' ->
                   (forall g, g <> field -> r' !! g = r !! g) /\
                   (forall v' q, r' !! field = Some v' -> float v' = Ok q -> (0 <= q)%Q)).
    { intros E'. apply bind_ok in E' as (value & Hf & E').
      destruct (negative value) eqn:N; injection E' as <-.
      - split.
        + intros g Hg. rewrite lookup_insert_ne by congruence. reflexivity.
        + intros v' q Hv' Hq. rewrite lookup_insert_eq in Hv'. injection Hv' as <-.
          simpl in Hq. injection Hq as <-. apply Qabs_nonneg.
      - split; [reflexivity|].
        intros v' q Hv' Hq. rewrite Hv in Hv'. injection Hv' as <-.
        rewrite Hf in Hq. injection Hq as <-. apply negative_false, N. }
    destruct v; try (apply Hgen; exact E).
    injection E as <-. split; [reflexivity|].
    intros v' q Hv' Hq. rewrite Hv in Hv'. injection Hv' as <-. discriminate Hq.
  - injection E as <-. split; [reflexivity|].
    intros v' q Hv'. rewrite Hv in Hv'. discriminate.
Qed.

Lemma shift_created_at_frame (r r' : dict) :
  shift_created_at r = Ok r' -> forall g, g <> "created_at"%string -> r' !! g = r !! g.
Proof.
  unfold shift_created_at. intros E g Hg.
  destruct (r !! "created_at") as [[]|]; try (injection E as <-; reflexivity).
  apply bind_ok in E as (x & _ & E). injection E as <-.
  rewrite lookup_insert_ne by congruence. reflexivity.
Qed.

Lemma default_submitted_on_frame (r r' : dict) :
  default_submitted_on r = Ok r' -> forall g, g <> "submitted_on"%string -> r' !! g = r !! g.
Proof.
  unfold default_submitted_on. intros E g Hg.
  assert (Hgen : (created_at <- item r "created_at" ;;
                  Ok (<["submitted_on" := created_at]> r)) = Ok r' -> r' !! g = r !! g).
  { intros E'. apply bind_ok in E' as (x & _ & E'). injection E' as <-.
    rewrite lookup_insert_ne by congruence. reflexivity. }
  destruct (r !! "submitted_on") as [[]|]; try (injection E as <-; reflexivity);
    apply Hgen; exact E.
Qed.

Lemma item_float_ok (r : dict) (k : string) (q : Q) :
  (v <- item r k ;; float v) = Ok q -> exists v, r !! k = Some v /\ float v = Ok q.
Proof.
  intros E. apply bind_ok in E as (v & Hi & Hf).
  unfold item in Hi. destruct (r !! k); [|discriminate]. injection Hi as ->. eauto.
Qed.

(** After the normalisation the three amounts are non-negative, the
    headline amount includes the penalties and the principal is amount
    minus interest. *)
Lemma normalise_amounts_spec (r r' : dict) :
  normalise_amounts r = Ok r' ->
  exists (a i p : Q) (vi vp : val),
    (0 <= a)%Q /\ (0 <= i)%Q /\ (0 <= p)%Q /\
    r' !! "amount" = Some (VFloat (a + p)) /\
    r' !! "interest_repaid_derived" = Some vi /\ float vi = Ok i /\
    r' !! "penalties_repaid_derived" = Some vp /\ float vp = Ok p /\
    r' !! "principal_repaid_derived" = Some (VFloat (a - i)) /\
    (forall g, g <> "amount"%string -> g <> "interest_repaid_derived"%string ->
               g <> "penalties_repaid_derived"%string ->
               g <> "principal_repaid_derived"%string ->
               g <> "updated_at"%string -> g <> "created_at"%string ->
               g <> "submitted_on"%string -> r' !! g = r !! g).
Proof.
  unfold normalise_amounts. intros E.
  apply bind_ok in E as (r1 & H1 & E).
  apply bind_ok in E as (r2 & H2 & E).
  apply bind_ok in E as (r3 & H3 & E).
  apply bind_ok in E as (r5 & H5 & E).
  apply bind_ok in E as (r6 & H6 & E).
  apply bind_ok in E as (a & Ha & E).
  apply bind_ok in E as (i & Hi & E).
  apply bind_ok in E as (p & Hp & E).
  injection E as <-.
  apply make_non_negative_spec in H1 as [F1 N1].
  apply make_non_negative_spec in H2 as [F2 N2].
  apply make_non_negative_spec in H3 as [F3 N3].
  pose proof (shift_created_at_frame _ _ H5) as F5.
  pose proof (default_submitted_on_frame _ _ H6) as F6.
  apply item_float_ok in Ha as (va & Hva & Hfa).
  apply item_float_ok in Hi as (vi & Hvi & Hfi).
  apply item_float_ok in Hp as (vp & Hvp & Hfp).
  rewrite lookup_insert_ne in Hvp by done.
  exists a, i, p, vi, vp.
  assert (Ea : r1 !! "amount" = Some va).
  { rewrite <- Hva, F6, F5, lookup_insert_ne, F3, F2 by done. reflexivity. }
  assert (Ei : r2 !! "interest_repaid_derived" = Some vi).
  { rewrite <- Hvi, F6, F5, lookup_insert_ne, F3 by done. reflexivity. }
  assert (Ep : r3 !! "penalties_repaid_derived" = Some vp).
  { rewrite <- Hvp, F6, F5, lookup_insert_ne by done. reflexivity. }
  split; [eapply N1; eauto|]. split; [eapply N2; eauto|]. split; [eapply N3; eauto|].
  split; [apply lookup_insert_eq|].
  split; [rewrite !lookup_insert_ne by done; exact Hvi|]. split; [exact Hfi|].
  split; [rewrite !lookup_insert_ne by done; exact Hvp|]. split; [exact Hfp|].
  split; [rewrite lookup_insert_ne by done; apply lookup_insert_eq|].
  intros g G1 G2 G3 G4 G5 G6 G7.
  rewrite !lookup_insert_ne by congruence.
  rewrite F6, F5 by congruence. rewrite lookup_insert_ne by congruence.
  rewrite F3, F2, F1 by congruence. reflexivity.
Qed.

Lemma make_negative_spec (field : string) (r : dict) (v : val) (q : Q) :
  r !! field = Some v -> float v = Ok q ->
  (forall g, g <> field -> make_negative field r !! g = r !! g) /\
  exists v' q', make_negative field r !! field = Some v' /\ float v' = Ok q' /\ (q' <= 0)%Q.
Proof.
  intros Hv Hq. unfold make_negative, get. rewrite Hv. simpl. rewrite Hq.
  destruct (positive q) eqn:P.
  - split; [intros g Hg; rewrite lookup_insert_ne by congruence; reflexivity|].
    exists (VFloat (- q)), (- q)%Q. rewrite lookup_insert_eq.
    repeat split. apply positive_true in P. lra.
  - split; [reflexivity|]. exists v, q. repeat split; try assumption.
    apply positive_false, P.
Qed.

Lemma negate_cancellation_spec (r : dict) (va vi vp : val) (a i p : Q) :
  r !! "amount" = Some va -> float va = Ok a ->
  r !! "interest_repaid_derived" = Some vi -> float vi = Ok i ->
  r !! "penalties_repaid_derived" = Some vp -> float vp = Ok p ->
  exists (va' vi' vp' : val) (a' i' p' : Q),
    negate_cancellation r !! "amount" = Some va' /\ float va' = Ok a' /\
    negate_cancellation r !! "interest_repaid_derived" = Some vi' /\ float vi' = Ok i' /\
    negate_cancellation r !! "penalties_repaid_derived" = Some vp' /\ float vp' = Ok p' /\
    (a' <= 0)%Q /\ (i' <= 0)%Q /\ (p' <= 0)%Q /\
    negate_cancellation r !! "principal_repaid_derived" = Some (VFloat (a' - i')).
Proof.
  intros Ha Hfa Hi Hfi Hp Hfp. unfold negate_cancellation.
  destruct (make_negative_spec "amount" r va a Ha Hfa) as (Fa & va' & a' & Ha' & Hfa' & La).
  set (r1 := make_negative "amount" r) in *.
  assert (Hi1 : r1 !! "interest_repaid_derived" = Some vi) by (rewrite Fa by done; exact Hi).
  destruct (make_negative_spec "interest_repaid_derived" r1 vi i Hi1 Hfi)
    as (Fi & vi' & i' & Hi' & Hfi' & Li).
  set (r2 := make_negative "interest_repaid_derived" r1) in *.
  assert (Hp2 : r2 !! "penalties_repaid_derived" = Some vp).
  { rewrite Fi by done. unfold r1. rewrite Fa by done. exact Hp. }
  destruct (make_negative_spec "penalties_repaid_derived" r2 vp p Hp2 Hfp)
    as (Fp & vp' & p' & Hp' & Hfp' & Lp).
  set (r3 := make_negative "penalties_repaid_derived" r2) in *.
  assert (Ha3 : r3 !! "amount" = Some va').
  { unfold r3. rewrite Fp by done. unfold r2. rewrite Fi by done. exact Ha'. }
  assert (Hi3 : r3 !! "interest_repaid_derived" = Some vi').
  { unfold r3. rewrite Fp by done. exact Hi'. }
  unfold recalculate_principal, get. rewrite Ha3, Hi3. simpl. rewrite Hfa', Hfi'.
  exists va', vi', vp', a', i', p'.
  rewrite !lookup_insert_ne by done. rewrite lookup_insert_eq.
  repeat split; assumption.
Qed.

Lemma convert_type_int (v : val) (t : Z) :
  int v = Ok t -> convert_type v = Some (Some t).
Proof.
  intros E. unfold convert_type. destruct v; try discriminate E; rewrite E; reflexivity.
Qed.

Lemma cancellation_is_mapped (t : Z) :
  t ∈ cancellation_types ->
  is_cancellation (Some t) = true /\ exists target_type, mapped (Some t) = Some target_type.
Proof.
  intros Hin. split; [apply bool_decide_eq_true_2, Hin|].
  unfold cancellation_types in Hin.
  apply elem_of_union in Hin as [Hin|Hin]; [apply elem_of_union in Hin as [Hin|Hin];
    [apply elem_of_union in Hin as [Hin|Hin]|]|];
    apply elem_of_singleton in Hin; subst t; eexists; reflexivity.
Qed.

Lemma unmapped_is_plain (t : option Z) :
  mapped t = None ->
  is_cancellation t = false /\ t <> Some 17 /\ t <> Some 18.
Proof.
  intros Hm. split; [|split; intros ->; discriminate Hm].
  destruct t as [z|]; [|reflexivity]. simpl.
  apply bool_decide_eq_false_2. intros Hin.
  destruct (cancellation_is_mapped z Hin) as [_ [tt E]]. congruence.
Qed.

Lemma finish_row_mapped (r : dict) (t : option Z) (target_type : Z) (w w' : world)
    (row' : dict) :
  mapped t = Some target_type ->
  finish_row r t w = (w', Ok row') ->
  let r1 := if is_cancellation t then negate_cancellation r else r in
  (forall g, g <> "loan_transaction_type_id"%string -> g <> "debit"%string ->
             g <> "credit"%string -> row' !! g = r1 !! g) /\
  row' !! "loan_transaction_type_id" = Some (VInt target_type) /\
  inserted_transactions (self w') = inserted_transactions (self w) + 1 /\
  skipped_transactions (self w') = skipped_transactions (self w) /\
  db w' = db w.
Proof.
  intros Hm E. unfold finish_row in E. rewrite Hm in E.
  unfold mbind, count_inserted, ret in E. simpl in E.
  injection E as <- <-. simpl.
  destruct (bool_decide (target_type = 1 \/ target_type = 10)); repeat split;
    try (intros g G1 G2 G3); rewrite ?lookup_insert_ne by congruence;
    try reflexivity; apply lookup_insert_eq.
Qed.

(** C6.  A transactions row whose source type converts to one of the
    cancellation codes 2, 4, 8 and 18 and that is processed to the end
    has an amount, an interest_repaid_derived and a
    penalties_repaid_derived that read as numbers at most 0, whatever the
    signs in the source, and its principal_repaid_derived is that amount
    minus that interest. *)
Theorem cancellation_amounts_are_negative
    (row_data source_row : dict) (w w' : world) (row' : dict) (t : Z) :
  int (get source_row "trans_act") = Ok t ->
  t ∈ cancellation_types ->
  CustomLogic.process_columns Transactions row_data source_row w = (w', Ok row') ->
  exists (amount interest penalties : val) (a i p : Q),
    row' !! "amount" = Some amount /\ float amount = Ok a /\
    row' !! "interest_repaid_derived" = Some interest /\ float interest = Ok i /\
    row' !! "penalties_repaid_derived" = Some penalties /\ float penalties = Ok p /\
    (a <= 0)%Q /\ (i <= 0)%Q /\ (p <= 0)%Q /\
    row' !! "principal_repaid_derived" = Some (VFloat (a - i)).
Proof.
  intros Hint Hin E.
  unfold CustomLogic.process_columns, process_transactions in E.
  destruct (bool_decide (source_row = ∅)) eqn:Hempty.
  { apply bool_decide_eq_true_1 in Hempty. subst source_row.
    unfold get in Hint. rewrite lookup_empty in Hint. discriminate Hint. }
  rewrite (convert_type_int _ _ Hint) in E.
  apply mbind_ok in E as (? & w1 & _ & E).
  apply mbind_ok in E as (? & w2 & _ & E).
  apply mbind_ok in E as (r & w3 & Hn & E).
  apply lift_ok in Hn as [Hn _]. simpl in E.
  destruct (cancellation_is_mapped t Hin) as [Hc [target_type Hm]].
  destruct (finish_row_mapped _ _ _ _ _ _ Hm E) as (F & _).
  rewrite Hc in F.
  apply normalise_amounts_spec in Hn
    as (a0 & i0 & p0 & vi & vp & _ & _ & _ & Ha & Hi & Hfi & Hp & Hfp & _).
  destruct (negate_cancellation_spec r (VFloat (a0 + p0)) vi vp (a0 + p0) i0 p0
              Ha eq_refl Hi Hfi Hp Hfp)
    as (va' & vi' & vp' & a' & i' & p' & H1 & H2 & H3 & H4 & H5 & H6 & L1 & L2 & L3 & H7).
  exists va', vi', vp', a', i', p'.
  rewrite !F by done. repeat split; assumption.
Qed.

(** C2, as the code has it.  For a source transaction whose type has no
    entry in the remap table and that is processed to the end, the skip
    counter grows by exactly 1 and so does the count of that type, the
    inserted counter stays, the row gets the flag [_skip_this_row] and no
    target type, debit or credit.  The only record that the transformer
    itself inserts for it is the separate penalty transaction, into the
    transactions table, exactly when the penalties are positive, the loan
    was resolved and the target accepts the record. *)
Theorem unmapped_transaction_is_flagged
    (row_data source_row : dict) (w w' : world) (row' : dict) (t : option Z) :
  source_row <> ∅ ->
  convert_type (get source_row "trans_act") = Some t ->
  mapped t = None ->
  CustomLogic.process_columns Transactions row_data source_row w = (w', Ok row') ->
  let prepared := prepare (common_lookups Transactions row_data source_row) source_row in
  skipped_transactions (self w') = skipped_transactions (self w) + 1 /\
  inserted_transactions (self w') = inserted_transactions (self w) /\
  skipped_types_count (self w') !! t
  = Some (default 0 (skipped_types_count (self w) !! t) + 1) /\
  row' !! "_skip_this_row" = Some (VBool true) /\
  row' !! "loan_transaction_type_id" = prepared !! "loan_transaction_type_id" /\
  row' !! "debit" = prepared !! "debit" /\
  row' !! "credit" = prepared !! "credit" /\
  exists penalties,
    float (get_or prepared "penalties_repaid_derived" (VInt 0)) = Ok penalties /\
    inserted (db w')
    = inserted (db w) ++
      (if positive penalties && has_key prepared "loan_id"
          && accepts "loan_transactions" (penalties_tx_data prepared penalties false)
       then [("loan_transactions"%string, penalties_tx_data prepared penalties false)]
       else []).
Proof.
  intros Hne Hconv Hm E prepared.
  destruct (unmapped_is_plain t Hm) as (Hc & H17 & H18).
  unfold CustomLogic.process_columns, process_transactions in E.
  rewrite bool_decide_eq_false_2 in E by exact Hne.
  fold prepared in E. rewrite Hconv in E.
  apply mbind_ok in E as (? & w1 & Hpen & E).
  apply mbind_ok in E as (? & w2 & Hfee & E).
  apply mbind_ok in E as (r & w3 & Hn & E).
  apply lift_ok in Hn as [Hn ->]. simpl in E.
  (* the charges record is not for this type *)
  unfold fees_side_record in Hfee.
  rewrite bool_decide_eq_false_2 in Hfee by (intros [?|?]; contradiction).
  simpl in Hfee. apply ret_ok in Hfee as [_ ->].
  (* the end of the row *)
  unfold finish_row in E. rewrite Hm in E.
  unfold mbind, count_skipped, ret in E. simpl in E. injection E as <- <-. simpl.
  apply normalise_amounts_spec in Hn
    as (a0 & i0 & p0 & vi & vp & _ & _ & _ & _ & _ & _ & _ & _ & _ & F).
  (* the penalty record *)
  unfold penalty_side_record in Hpen.
  apply mbind_ok in Hpen as (pen & w0 & Hf & Hpen).
  apply lift_ok in Hf as [Hf ->].
  assert (Hw : self w1 = self w /\
               inserted (db w1)
               = inserted (db w) ++
                 (if positive pen && has_key prepared "loan_id"
                     && accepts "loan_transactions" (penalties_tx_data prepared pen false)
                  then [("loan_transactions"%string, penalties_tx_data prepared pen false)]
                  else [])).
  { destruct (positive pen && has_key prepared "loan_id") eqn:C; simpl.
    - rewrite Hc in Hpen. unfold try_insert_record, insert_record in Hpen.
      destruct (accepts "loan_transactions" (penalties_tx_data prepared pen false));
        injection Hpen as <-; simpl; [auto|].
      rewrite app_nil_r. auto.
    - apply ret_ok in Hpen as [_ ->]. rewrite app_nil_r. auto. }
  destruct Hw as [Hs Hi]. rewrite Hs.
  repeat split; try reflexivity.
  - apply lookup_insert_eq.
  - apply lookup_insert_eq.
  - rewrite lookup_insert_ne by done. apply F; done.
  - rewrite lookup_insert_ne by done. apply F; done.
  - rewrite lookup_insert_ne by done. apply F; done.
  - exists pen. split; [exact Hf | exact Hi].
Qed.

(** The row loop does not look at the flag: a flagged row goes into the
    INSERT like any other, so it is either inserted or counted as a
    failure. *)
Lemma flagged_row_is_inserted_or_fails
    (target_table : string) (processed_row source_row : dict) (w w1 : world)
    (row' : dict) (t : CustomLogic.tallies) :
  CustomLogic.process_columns Transactions processed_row source_row w = (w1, Ok row') ->
  CustomLogic.migrate_transaction_row target_table processed_row source_row (w, t)
  = if accepts target_table row'
    then (mk_world (mk_store (inserted (db w1) ++ [(target_table, row')]) (next_id (db w1) + 1))
                   (self w1),
          CustomLogic.mk_tallies (CustomLogic.successful_inserts t + 1)
                                 (CustomLogic.failed_inserts t))
    else (w1, CustomLogic.mk_tallies (CustomLogic.successful_inserts t)
                                     (CustomLogic.failed_inserts t + 1)).
Proof.
  intros E. unfold CustomLogic.migrate_transaction_row. rewrite E.
  unfold insert_record. destruct (accepts target_table row'); reflexivity.
Qed.

End with_target.

(** C6 on a cancelled repayment (source type 2) of amount -100 with
    interest -10 and penalties 5. *)
Lemma cancellation_amounts_are_negative_witness :
  exists (w' : world) (row' : dict),
    @CustomLogic.process_columns bare_runtime Samples.sample_target Transactions
      (Samples.transaction_row (-100) (-10) 5) (Samples.transaction_source_row 2)
      Samples.empty_world = (w', Ok row') /\
    exists (amount interest penalties : val) (a i p : Q),
      row' !! "amount" = Some amount /\ @float bare_runtime amount = Ok a /\
      row' !! "interest_repaid_derived" = Some interest /\
      @float bare_runtime interest = Ok i /\
      row' !! "penalties_repaid_derived" = Some penalties /\
      @float bare_runtime penalties = Ok p /\
      (a <= 0)%Q /\ (i <= 0)%Q /\ (p <= 0)%Q /\
      row' !! "principal_repaid_derived" = Some (VFloat (a - i)).
Proof.
  set (r := @CustomLogic.process_columns bare_runtime Samples.sample_target Transactions
              (Samples.transaction_row (-100) (-10) 5) (Samples.transaction_source_row 2)
              Samples.empty_world).
  assert (E : r = (fst r, Ok (result_or (snd r) ∅))).
  { apply result_shape. vm_compute. reflexivity. }
  exists (fst r), (result_or (snd r) ∅). split; [exact E|].
  apply (@cancellation_amounts_are_negative bare_runtime Samples.sample_target
           (Samples.transaction_row (-100) (-10) 5) (Samples.transaction_source_row 2)
           Samples.empty_world (fst r) (result_or (snd r) ∅) 2).
  - reflexivity.
  - unfold cancellation_types. set_solver.
  - exact E.
Defined.

Example cancelled_repayment_row :
  let row' :=
    result_or
      (snd (@CustomLogic.process_columns bare_runtime Samples.sample_target Transactions
              (Samples.transaction_row (-100) (-10) 5) (Samples.transaction_source_row 2)
              Samples.empty_world)) ∅ in
  (fun k => row' !! k) <$>
    ["amount"; "interest_repaid_derived"; "penalties_repaid_derived";
     "principal_repaid_derived"; "loan_transaction_type_id"; "debit"; "credit"]%string
  = [Some (VFloat (-105)); Some (VFloat (-10)); Some (VFloat (-5));
     Some (VFloat (-95)); Some (VInt 2); Some (VInt 0); Some (VFloat (-105))].
Proof. vm_compute. reflexivity. Qed.

(** C2 on a transaction of the unmapped source type 99 without
    penalties. *)
Lemma unmapped_transaction_is_flagged_witness :
  exists (w' : world) (row' : dict),
    @CustomLogic.process_columns bare_runtime Samples.sample_target Transactions
      (Samples.transaction_row 100 10 0) (Samples.transaction_source_row 99)
      Samples.empty_world = (w', Ok row') /\
    skipped_transactions (self w') = skipped_transactions (self Samples.empty_world) + 1 /\
    inserted_transactions (self w') = inserted_transactions (self Samples.empty_world) /\
    row' !! "_skip_this_row" = Some (VBool true).
Proof.
  set (r := @CustomLogic.process_columns bare_runtime Samples.sample_target Transactions
              (Samples.transaction_row 100 10 0) (Samples.transaction_source_row 99)
              Samples.empty_world).
  assert (E : r = (fst r, Ok (result_or (snd r) ∅))).
  { apply result_shape. vm_compute. reflexivity. }
  exists (fst r), (result_or (snd r) ∅). split; [exact E|].
  destruct (@unmapped_transaction_is_flagged bare_runtime Samples.sample_target
              (Samples.transaction_row 100 10 0) (Samples.transaction_source_row 99)
              Samples.empty_world (fst r) (result_or (snd r) ∅) (Some 99))
    as (H1 & H2 & _ & H4 & _).
  - intros H. apply (f_equal (fun m : dict => m !! "trans_act")) in H. discriminate H.
  - reflexivity.
  - reflexivity.
  - exact E.
  - repeat split; assumption.
Defined.

(** C2 as stated fails.  A transaction of the unmapped source type 99 with
    penalties 5 on a loan that resolves: the transformer inserts the
    separate penalty transaction (type 12) into the transactions table
    before it flags the row, and the row loop, which does not look at the
    flag, sends the flagged row to the INSERT, where it fails on the
    column [_skip_this_row] and is counted as a failed insert. *)
Lemma unmapped_transaction_counterexample :
  let run :=
    @CustomLogic.migrate_transaction_row bare_runtime Samples.sample_target
      "loan_transactions" (Samples.transaction_row 100 10 5)
      (Samples.transaction_source_row 99)
      (Samples.empty_world, CustomLogic.mk_tallies 0 0) in
  mapped (Some 99) = None /\
  length (rows_of "loan_transactions" (db (fst run))) = 1%nat /\
  (fun row : dict => (row !! "loan_transaction_type_id", row !! "amount", row !! "description"))
    <$> rows_of "loan_transactions" (db (fst run))
  = [(Some (VInt 12), Some (VFloat 5), Some (VStr "Apply Penalty"))] /\
  skipped_transactions (self (fst run)) = 1 /\
  CustomLogic.failed_inserts (snd run) = 1 /\
  CustomLogic.successful_inserts (snd run) = 0.
Proof. repeat split; vm_compute; reflexivity. Qed.

End TransactionsFacts.

Module SettlementRun.
Import Py Schema Settlement SettlementSpec SettlementRunSpec SettlementFacts.

(** A stored row that does not belong to a loan is not written by the turn
    for that loan. *)
Lemma written_by_other_loan table loan b row :
  NoDup (map tx_id table) -> row ∈ table -> tx_loan_id row <> Some loan ->
  written_by (fetch_transactions table loan) b row = row.
Proof.
  intros ND Hin Hl. apply written_by_untouched. intros Hid.
  apply list_elem_of_fmap in Hid as (r' & Eid & Hr').
  apply fetch_transactions_elem in Hr' as [Hr' Hl'].
  assert (row = r') by (eapply same_id_same_row; eauto).
  subst r'. contradiction.
Qed.

Lemma fold_settle_loan_no_loan loans table j row :
  NoDup (map tx_id table) ->
  table !! j = Some row -> tx_loan_id row = None ->
  fold_left settle_loan loans table !! j = Some row.
Proof.
  revert table. induction loans as [|l rest IH]; intros table ND Hj Hl; simpl; [exact Hj|].
  apply IH; [rewrite settle_loan_keeps_ids; exact ND| |exact Hl].
  rewrite settle_loan_as_map, list_lookup_fmap, Hj. simpl. f_equal.
  apply written_by_other_loan; [exact ND| |congruence].
  eapply list_elem_of_lookup_2. exact Hj.
Qed.

(** The working state after a run: the transactions table after the turns
    of all loans, everything else as it was. *)
Lemma settle_transactions_working conn :
  working (settle_transactions conn)
  = with_transactions (working conn)
      (fold_left settle_loan
         (distinct_loan_ids [] (loan_transactions (working conn)))
         (loan_transactions (working conn))).
Proof.
  unfold settle_transactions.
  destruct (distinct_loan_ids [] (loan_transactions (working conn))) as [|l rest] eqn:E.
  - simpl. symmetry. apply with_transactions_same.
  - change (working (settle_loans conn 0 (l :: rest))
            = with_transactions (working conn)
                (fold_left settle_loan (l :: rest) (loan_transactions (working conn)))).
    apply settle_loans_working.
Qed.

Lemma loan_is_listed table row loan :
  row ∈ table -> tx_loan_id row = Some loan -> loan ∈ distinct_loan_ids [] table.
Proof.
  intros Hin Hl.
  destruct (distinct_loan_ids_complete [] table row loan Hin Hl) as [H|H];
    [inversion H | exact H].
Qed.

Lemma run_as_map table :
  NoDup (map tx_id table) ->
  fold_left settle_loan (distinct_loan_ids [] table) table = map (settled_row table) table.
Proof.
  intros ND. apply list_eq. intros j.
  rewrite list_lookup_fmap.
  destruct (table !! j) as [row|] eqn:Hj; simpl.
  - unfold settled_row. destruct (tx_loan_id row) as [loan|] eqn:Hl.
    + destruct (distinct_loan_ids_fresh [] table) as [NDids _].
      rewrite (fold_settle_loan_lookup _ _ _ _ _ NDids ND Hj Hl).
      rewrite bool_decide_eq_true_2
        by (eapply loan_is_listed; [eapply list_elem_of_lookup_2; exact Hj | exact Hl]).
      rewrite settle_loan_as_map, list_lookup_fmap, Hj. reflexivity.
    + apply fold_settle_loan_no_loan; assumption.
  - apply lookup_ge_None. apply lookup_ge_None in Hj.
    rewrite <- (length_map tx_id), (proj1 (fold_settle_loan_ids _ _)), length_map. exact Hj.
Qed.

(** X1.  A run of the settlement engine changes a stored transaction only
    as one UPDATE of the engine does.  Over a table with unique ids, a row
    without loan is left as it was; a row of a loan, at position [k] of the
    loan's transactions taken by id, ends as that same row with the three
    balances after transaction [k] and their total, and with its repaid
    principal and interest set to 0 when its type is 1 or 10: no id, loan,
    type, amount, debit, credit, fees or penalties column, date or
    description changes, no row is added or removed, and the tables of
    loans and installments are not touched. *)
Theorem settlement_writes_balances_only (conn : connection) :
  let table := loan_transactions (working conn) in
  let final := working (settle_transactions conn) in
  NoDup (map tx_id table) ->
  loans final = loans (working conn) /\
  loan_repayment_schedules final = loan_repayment_schedules (working conn) /\
  next_transaction_id final = next_transaction_id (working conn) /\
  length (loan_transactions final) = length table /\
  forall j row,
    table !! j = Some row ->
    match tx_loan_id row with
    | None => loan_transactions final !! j = Some row
    | Some loan =>
        exists k,
          fetch_transactions table loan !! k = Some row /\
          loan_transactions final !! j
          = Some (write_balances
                    (balances_after (take (S k) (fetch_transactions table loan)))
                    (clear_repaid row) row)
    end.
Proof.
  intros table final ND. subst final.
  rewrite settle_transactions_working. fold table. simpl.
  rewrite (run_as_map table ND).
  split; [reflexivity|]. split; [reflexivity|]. split; [reflexivity|].
  split; [apply length_map|].
  intros j row Hj. rewrite list_lookup_fmap, Hj. simpl.
  unfold settled_row.
  destruct (tx_loan_id row) as [loan|] eqn:Hl; [|reflexivity].
  assert (Hin : row ∈ fetch_transactions table loan).
  { apply fetch_transactions_elem. split; [|exact Hl].
    eapply list_elem_of_lookup_2. exact Hj. }
  apply list_elem_of_lookup in Hin as [k Hk].
  exists k. split; [exact Hk|]. f_equal.
  apply written_by_at; [|exact Hk|reflexivity].
  apply fetch_transactions_NoDup, ND.
Qed.


(** *** Running the engine a second and a third time *)

Lemma fetch_after_run conn loan :
  NoDup (map tx_id (loan_transactions (working conn))) ->
  fetch_transactions (loan_transactions (working (settle_transactions conn))) loan
  = replay initial_balances (fetch_transactions (loan_transactions (working conn)) loan).
Proof.
  intros ND. rewrite settle_transactions_working. simpl.
  set (table := loan_transactions (working conn)) in *.
  destruct (distinct_loan_ids_fresh [] table) as [NDids _].
  rewrite fetch_after_loans by assumption.
  destruct (decide (loan ∈ distinct_loan_ids [] table)) as [Hin|Hout].
  - rewrite bool_decide_eq_true_2 by exact Hin. reflexivity.
  - rewrite bool_decide_eq_false_2 by exact Hout.
    rewrite fetch_no_rows; [reflexivity|].
    intros tx Htx Hl. apply Hout. eapply loan_is_listed; eauto.
Qed.

Lemma run_keeps_ids conn :
  map tx_id (loan_transactions (working (settle_transactions conn)))
  = map tx_id (loan_transactions (working conn)) /\
  map tx_loan_id (loan_transactions (working (settle_transactions conn)))
  = map tx_loan_id (loan_transactions (working conn)).
Proof. rewrite settle_transactions_working. simpl. apply fold_settle_loan_ids. Qed.

(** A run over a table in which no disbursement of a loan carries a repaid
    principal or interest leaves what an earlier run left. *)
Lemma run_again conn :
  NoDup (map tx_id (loan_transactions (working conn))) ->
  (forall loan,
     disbursements_clear (fetch_transactions (loan_transactions (working conn)) loan)) ->
  settle_transactions (settle_transactions conn) = settle_transactions conn.
Proof.
  intros ND H.
  pose proof (fetch_after_run conn) as Hall.
  pose proof (settle_transactions_working conn) as Hw.
  destruct (run_keeps_ids conn) as [Eid Eloan].
  set (table := loan_transactions (working conn)) in *.
  set (once := settle_transactions conn) in *.
  assert (Eids : distinct_loan_ids [] (loan_transactions (working once))
                 = distinct_loan_ids [] table)
    by (apply distinct_loan_ids_ext; exact Eloan).
  unfold settle_transactions at 1. rewrite Eids.
  destruct (distinct_loan_ids [] table) as [|l rest] eqn:E; [reflexivity|].
  assert (Eonce : once = mk_connection (working once) (working once)).
  { unfold once, settle_transactions. fold table. rewrite E. reflexivity. }
  rewrite Eonce at 1.
  rewrite settle_loans_settled.
  - unfold commit. simpl. symmetry. exact Eonce.
  - intros loan _. eapply settle_loan_settled; [rewrite Eid; exact ND|apply (H loan)|].
    apply Hall. exact ND.
Qed.

Lemma replay_clear b txs : disbursements_clear (replay b txs).
Proof.
  revert b. induction txs as [|tx rest IH]; intros b r Hin T; [inversion Hin|].
  simpl in Hin. apply elem_of_cons in Hin as [->|Hin]; [|eapply IH; eauto].
  simpl in T. unfold clear_repaid. rewrite (proj2 (type_is_true tx 1) T). simpl.
  split; reflexivity.
Qed.

(** X2.  From the second run on the settlement engine is stable: over a
    table with unique ids a third run leaves the connection, and with it
    every balance, exactly as the second run left it, whatever the rows
    held before the first run. *)
Theorem settlement_stable_from_second_run (conn : connection) :
  NoDup (map tx_id (loan_transactions (working conn))) ->
  settle_transactions (settle_transactions (settle_transactions conn))
  = settle_transactions (settle_transactions conn).
Proof.
  intros ND. apply run_again.
  - rewrite (proj1 (run_keeps_ids conn)). exact ND.
  - intros loan. rewrite (fetch_after_run conn loan ND). apply replay_clear.
Qed.

(** *** The order in which the rows are stored *)

Lemma sorted_by_id_unique (l1 l2 : list transaction_row) :
  StronglySorted (fun a b => tx_id a <= tx_id b) l1 ->
  StronglySorted (fun a b => tx_id a <= tx_id b) l2 ->
  l1 ≡ₚ l2 -> NoDup (map tx_id l1) -> l1 = l2.
Proof.
  intros S1. revert l2. induction S1 as [|a r1 S1 IH All1]; intros l2 S2 P ND.
  - symmetry. apply Permutation_nil_r. symmetry. exact P.
  - destruct S2 as [|b r2 S2 All2].
    + apply Permutation_nil_r in P. discriminate P.
    + assert (Hab : tx_id a <= tx_id b).
      { assert (Hb : b ∈ a :: r1) by (rewrite P; left).
        apply elem_of_cons in Hb as [->|Hb]; [lia|].
        rewrite Forall_forall in All1. apply All1, Hb. }
      assert (Hba : tx_id b <= tx_id a).
      { assert (Ha : a ∈ b :: r2) by (rewrite <- P; left).
        apply elem_of_cons in Ha as [->|Ha]; [lia|].
        rewrite Forall_forall in All2. apply All2, Ha. }
      assert (a = b).
      { eapply (same_id_same_row (a :: r1)); [exact ND|left|rewrite P; left|lia]. }
      subst b. f_equal. apply IH; [exact S2| |].
      * eapply Permutation_cons_inv. exact P.
      * simpl in ND. apply NoDup_cons in ND as [_ ND]. exact ND.
Qed.

Lemma fetch_transactions_perm table table' loan :
  table ≡ₚ table' -> NoDup (map tx_id table) ->
  fetch_transactions table loan = fetch_transactions table' loan.
Proof.
  intros P ND. unfold fetch_transactions.
  apply sorted_by_id_unique; [apply order_by_id_sorted ..| |].
  - rewrite !order_by_id_perm. rewrite P. reflexivity.
  - apply (fetch_transactions_NoDup table loan ND).
Qed.

(** X3.  The outcome of a run does not depend on the order in which the
    table stores its rows (nor, with it, on the order in which the loans
    are taken): two tables with unique ids that hold the same rows hold
    the same rows after the run, and every row is rewritten by the same
    function in both. *)
Theorem settlement_ignores_storage_order (conn conn' : connection) :
  let table := loan_transactions (working conn) in
  let table' := loan_transactions (working conn') in
  NoDup (map tx_id table) ->
  table ≡ₚ table' ->
  loan_transactions (working (settle_transactions conn)) = map (settled_row table) table /\
  loan_transactions (working (settle_transactions conn')) = map (settled_row table) table' /\
  loan_transactions (working (settle_transactions conn))
  ≡ₚ loan_transactions (working (settle_transactions conn')).
Proof.
  intros table table' ND P.
  assert (ND' : NoDup (map tx_id table')) by (rewrite <- P; exact ND).
  assert (E : loan_transactions (working (settle_transactions conn))
              = map (settled_row table) table).
  { rewrite settle_transactions_working. simpl. apply run_as_map, ND. }
  assert (E' : loan_transactions (working (settle_transactions conn'))
               = map (settled_row table) table').
  { rewrite settle_transactions_working. simpl. fold table'.
    rewrite (run_as_map table' ND'). apply map_ext. intros row.
    unfold settled_row. destruct (tx_loan_id row) as [loan|]; [|reflexivity].
    rewrite (fetch_transactions_perm table table' loan P ND). reflexivity. }
  split; [exact E|]. split; [exact E'|].
  rewrite E, E'. apply Permutation_map. exact P.
Qed.

End SettlementRun.

Module SettlementRunExamples.
Import Py Schema Settlement SettlementSpec SettlementRunSpec SettlementRun.

Lemma settlement_writes_balances_only_witness :
  let conn := Samples.charged_ledger in
  loans (working (settle_transactions conn)) = loans (working conn) /\
  length (loan_transactions (working (settle_transactions conn))) = 3%nat.
Proof.
  intros conn.
  destruct (settlement_writes_balances_only conn) as (H1 & _ & _ & H4 & _).
  - apply (bool_decide_unpack _). reflexivity.
  - split; [exact H1 | exact H4].
Defined.

Lemma settlement_stable_from_second_run_witness :
  let conn := Samples.disbursed_ledger in
  settle_transactions (settle_transactions (settle_transactions conn))
  = settle_transactions (settle_transactions conn).
Proof.
  apply (settlement_stable_from_second_run Samples.disbursed_ledger).
  apply (bool_decide_unpack _). reflexivity.
Defined.

Lemma settlement_ignores_storage_order_witness :
  let conn := Samples.charged_ledger in
  let conn' := Samples.ledger (rev (loan_transactions (working Samples.charged_ledger))) in
  loan_transactions (working (settle_transactions conn))
  ≡ₚ loan_transactions (working (settle_transactions conn')).
Proof.
  intros conn conn'.
  apply (settlement_ignores_storage_order conn conn').
  - apply (bool_decide_unpack _). reflexivity.
  - simpl. apply Permutation_rev.
Defined.

End SettlementRunExamples.

Module EarlySettlementRun.
Import Py Schema EarlySettlement EarlySettlementFacts.

Section with_runtime.
Context {runtime : Runtime}.

(** X4.  A handling of a loan that completes is committed, and when the
    first unpaid installment is not the last installment it leaves what
    the procedure promises: the loan closed with its term one lower, the
    last installment and no other removed, and the first unpaid
    installment flagged as early repayment with the fee of the removed
    installment as fees due and repaid. *)
Theorem early_settlement_completed (conn conn' : connection) (loan : Z) :
  NoDup (map inst_id (loan_repayment_schedules (working conn))) ->
  handle_early_settlement conn loan = (conn', Ok Settled) ->
  let db := working conn in
  let db' := working conn' in
  let schedule := filter (fun r => inst_loan_id r = Some loan) (loan_repayment_schedules db) in
  committed conn' = db' /\
  exists settlement first_unpaid,
    last_installment schedule = Some settlement /\
    first_installment (filter (fun r => unpaid r = true) schedule) = Some first_unpaid /\
    (forall l, l ∈ loans db -> loan_id l = loan ->
       exists l', l' ∈ loans db' /\ loan_id l' = loan /\
                  loan_term l' = (fun t => t - 1) <$> loan_term l /\
                  loan_status l' = "closed"%string) /\
    (length (loan_repayment_schedules db') + 1 = length (loan_repayment_schedules db))%nat /\
    (forall id, id ∈ map inst_id (loan_repayment_schedules db') <->
                id ∈ map inst_id (loan_repayment_schedules db) /\ id <> inst_id settlement) /\
    (inst_id first_unpaid <> inst_id settlement ->
     exists r, r ∈ loan_repayment_schedules db' /\
               inst_id r = inst_id first_unpaid /\
               inst_is_early_repayment r = Some true /\
               inst_fees r = Some (float_or_0 (inst_interest settlement)) /\
               inst_fees_repaid_derived r = Some (float_or_0 (inst_interest settlement))).
Proof.
  intros ND E db db' schedule.
  unfold handle_early_settlement in E. fold db in E.
  destruct (early_settlement_steps db loan) as [[db1 e]|e] eqn:Es; [|discriminate].
  assert (He : e = Settled /\ conn' = commit (mk_connection (committed conn) db1)).
  { destruct e; inversion E; auto. }
  destruct He as [-> ->]. simpl in db'. subst db'.
  split; [reflexivity|].
  destruct (early_settlement_invariants db db1 loan ND Es)
    as (settlement & first_unpaid & Hl & Hf & Hloans & Hlen & Hids & Hmark).
  exists settlement, first_unpaid.
  split; [exact Hl|]. split; [exact Hf|]. split; [|split; [exact Hlen|split; [exact Hids|exact Hmark]]].
  intros l Hin Hid. destruct (Hloans l Hin Hid) as (H1 & H2 & H3).
  exists (close_loan (decrease_term l)). repeat split; try assumption.
Qed.

(** X5.  The transactions that a completed handling of a loan leaves: those
    that were booked against the removed last installment are gone, every
    other one stays in place, and at most three are added after them, in
    this order and each only for a positive amount: the early settlement
    fee (type 15), the settlement of the principal still due plus the fee
    (type 14) and the waiver of the interest still due (type 4).  The new
    rows belong to the loan, carry the date of the settlement and take the
    next ids of the table; the waiver always reports a total balance of
    0. *)
Theorem early_settlement_transactions (db db' : database) (loan : Z) :
  early_settlement_steps db loan = Ok (db', Settled) ->
  let schedule := filter (fun r => inst_loan_id r = Some loan) (loan_repayment_schedules db) in
  exists settlement first_unpaid when,
    last_installment schedule = Some settlement /\
    first_installment (filter (fun r => unpaid r = true) schedule) = Some first_unpaid /\
    transaction_datetime (inst_paid_by_date settlement) = Ok when /\
    let fee := float_or_0 (inst_interest settlement) in
    let range :=
      List.filter (fun r => of_loan loan r && (inst_id first_unpaid <=? inst_id r))
                  (loan_repayment_schedules db') in
    let total_principal := float_or_0 (sum_column (map inst_principal range)) in
    let total_interest := float_or_0 (sum_column (map inst_interest range)) in
    exists added,
      loan_transactions db'
      = filter (fun t => tx_repayment_schedule_id t <> Some (inst_id settlement))
               (loan_transactions db) ++ added /\
      map (fun t => (tx_type t, tx_amount t)) added
      = (if positive fee then [(Some 15, Some fee)] else []) ++
        (if positive (total_principal + fee)
         then [(Some 14, Some (total_principal + fee)%Q)] else []) ++
        (if positive total_interest then [(Some 4, Some total_interest)] else []) /\
      Forall (fun t => tx_loan_id t = Some loan /\ tx_repayment_schedule_id t = None /\
                       tx_created_at t = when /\ tx_submitted_on t = when /\
                       (tx_type t = Some 4 -> tx_total_balance t = Some 0%Q)) added /\
      map tx_id added
      = map (fun i => next_transaction_id db + Z.of_nat i) (seq 0 (length added)) /\
      next_transaction_id db' = next_transaction_id db + Z.of_nat (length added).
Proof.
  intros E schedule. unfold early_settlement_steps in E. fold schedule in E.
  destruct (last_installment schedule) as [settlement|]; [|discriminate].
  destruct (List.find (fun l => loan_id l =? loan) (loans db)) as [l|]; [|discriminate].
  simpl in E.
  destruct (first_installment (filter (fun r => unpaid r = true) schedule))
    as [first_unpaid|]; [|discriminate].
  apply PyFacts.bind_ok in E as (when & Hwhen & E).
  exists settlement, first_unpaid, when.
  split; [reflexivity|]. split; [reflexivity|]. split; [exact Hwhen|].
  destruct (positive (float_or_0 (inst_interest settlement))) eqn:P1;
    match type of E with context [if positive ?q then _ else _] =>
      destruct (positive q) eqn:P2 end;
    match type of E with context [if positive ?q then _ else _] =>
      destruct (positive q) eqn:P3 end;
    simpl in E; injection E as <-; simpl; rewrite ?P1, ?P2, ?P3;
    eexists;
    (split; [first [reflexivity | symmetry; apply app_nil_r
                   | rewrite <- !app_assoc; reflexivity]|]);
    simpl; repeat split; repeat constructor; try reflexivity; try discriminate;
    rewrite ?Z.add_0_r; try reflexivity; try lia;
    repeat (apply (f_equal2 cons); [lia|]); reflexivity.
Qed.


(** A row-wise update followed by a deletion and another row-wise update
    leaves the rows alone that none of the three conditions selects. *)
Lemma other_rows_kept (P : installment_row -> Prop) `{forall r, Decision (P r)}
    (f g : installment_row -> installment_row) (c1 c2 : installment_row -> bool)
    (id : Z) (rows : list installment_row) :
  (forall r, P (f r) <-> P r) -> (forall r, P (g r) <-> P r) ->
  (forall r, inst_id (f r) = inst_id r) ->
  (forall r, r ∈ rows -> P r -> c1 r = false /\ inst_id r <> id /\ c2 r = false) ->
  filter P (set_installment g c2 (filter (fun r => inst_id r <> id) (set_installment f c1 rows)))
  = filter P rows.
Proof.
  intros Hf Hg Hid Hsel. unfold set_installment.
  induction rows as [|r rest IH]; [reflexivity|].
  assert (IH' := IH (fun r' Hr' => Hsel r' (list_elem_of_further _ _ _ Hr'))).
  clear IH. simpl.
  destruct (decide (P r)) as [Hp|Hp].
  - destruct (Hsel r (list_elem_of_here _ _) Hp) as (C1 & Hne & C2).
    rewrite C1. rewrite filter_cons, decide_True by exact Hne. simpl.
    rewrite C2. rewrite !filter_cons, !decide_True by exact Hp.
    f_equal. exact IH'.
  - rewrite (filter_cons P r), decide_False by exact Hp. rewrite <- IH'.
    set (r1 := if c1 r then f r else r).
    assert (Hp1 : ~ P r1) by (unfold r1; destruct (c1 r); [rewrite Hf|]; exact Hp).
    rewrite filter_cons. destruct (decide (inst_id r1 <> id)); [|reflexivity].
    simpl. rewrite filter_cons, decide_False; [reflexivity|].
    destruct (c2 r1); [rewrite Hg|]; exact Hp1.
Qed.

Lemma set_loan_other (f : loan_row -> loan_row) (loan : Z) (rows : list loan_row) :
  (forall l, loan_id (f l) = loan_id l) ->
  filter (fun l => loan_id l <> loan) (set_loan f loan rows)
  = filter (fun l => loan_id l <> loan) rows.
Proof.
  intros Hf. unfold set_loan. induction rows as [|l rest IH]; [reflexivity|]. simpl.
  destruct (Z.eqb_spec (loan_id l) loan) as [Eid|Hne].
  - rewrite !filter_cons, !decide_False by (rewrite ?Hf; intros Hn; apply Hn; exact Eid).
    exact IH.
  - rewrite !filter_cons, !decide_True by exact Hne. f_equal. exact IH.
Qed.

(** X6.  Handling one loan leaves the other loans alone: whatever the
    outcome of the steps, every installment of another loan and every loan
    with another id is as before, provided the installments have unique
    ids. *)
Theorem early_settlement_leaves_other_loans (db db' : database) (loan : Z) (e : ending) :
  NoDup (map inst_id (loan_repayment_schedules db)) ->
  early_settlement_steps db loan = Ok (db', e) ->
  filter (fun r => inst_loan_id r <> Some loan) (loan_repayment_schedules db')
  = filter (fun r => inst_loan_id r <> Some loan) (loan_repayment_schedules db) /\
  filter (fun l => loan_id l <> loan) (loans db')
  = filter (fun l => loan_id l <> loan) (loans db).
Proof.
  intros ND E.
  destruct e.
  - (* no installment: nothing was written *)
    unfold early_settlement_steps in E.
    destruct (last_installment _) as [settlement|];
      [destruct (List.find _ (loans db)) as [l|]|]; try (injection E as <-; auto).
    simpl in E.
    destruct (first_installment _); [|discriminate].
    apply PyFacts.bind_ok in E as (when & _ & E).
    repeat match type of E with context [if positive ?q then _ else _] =>
      destruct (positive q) end; discriminate E.
  - (* no unpaid installment: only transactions were deleted *)
    unfold early_settlement_steps in E.
    destruct (last_installment _) as [settlement|];
      [destruct (List.find _ (loans db)) as [l|]|]; try discriminate.
    simpl in E.
    destruct (first_installment _); [|injection E as <-; auto].
    apply PyFacts.bind_ok in E as (when & _ & E).
    repeat match type of E with context [if positive ?q then _ else _] =>
      destruct (positive q) end; discriminate E.
  - destruct (settled_shape db db' loan E) as (settlement & first_unpaid & Hl & Hf & El & Es).
    assert (Hs_in : settlement ∈ loan_repayment_schedules db /\
                    inst_loan_id settlement = Some loan).
    { apply last_installment_elem in Hl. apply list_elem_of_filter in Hl. tauto. }
    assert (Hu_in : first_unpaid ∈ loan_repayment_schedules db /\
                    inst_loan_id first_unpaid = Some loan).
    { apply first_installment_elem in Hf.
      apply list_elem_of_filter in Hf as [_ Hf]. apply list_elem_of_filter in Hf. tauto. }
    assert (Hsame : forall r r', r ∈ loan_repayment_schedules db ->
                      r' ∈ loan_repayment_schedules db -> inst_id r = inst_id r' -> r = r').
    { intros r r' Hr Hr' Eid.
      apply list_elem_of_lookup in Hr as [i Hi]. apply list_elem_of_lookup in Hr' as [j Hj].
      assert (i = j).
      { eapply NoDup_lookup; [exact ND| |].
        - rewrite list_lookup_fmap, Hi. reflexivity.
        - rewrite list_lookup_fmap, Hj. simpl. rewrite Eid. reflexivity. }
      subst j. congruence. }
    split.
    + rewrite Es. apply other_rows_kept; try reflexivity.
      intros r Hr Hother. split; [|split].
      * apply Z.eqb_neq. intros Eid.
        apply Hother. rewrite (Hsame r first_unpaid Hr (proj1 Hu_in) Eid). apply Hu_in.
      * intros Eid.
        apply Hother. rewrite (Hsame r settlement Hr (proj1 Hs_in) Eid). apply Hs_in.
      * unfold of_loan. rewrite bool_decide_eq_false_2 by exact Hother. reflexivity.
    + rewrite El. rewrite !set_loan_other by reflexivity. reflexivity.
Qed.

(** *** The loop over the loans *)

Lemma settle_each_app conn (done rest : list loan_row) :
  settle_each conn (done ++ rest)
  = match settle_each conn done with
    | (conn1, Ok _) => settle_each conn1 rest
    | (conn1, Raise e) => (conn1, Raise e)
    end.
Proof.
  revert conn. induction done as [|l done IH]; intros conn; simpl; [reflexivity|].
  destruct (handle_early_settlement conn (loan_id l)) as [conn1 [x|e]]; [apply IH|reflexivity].
Qed.

Lemma settle_each_raise conn loans conn' e :
  settle_each conn loans = (conn', Raise e) -> working conn' = committed conn'.
Proof.
  revert conn. induction loans as [|l rest IH]; intros conn E; simpl in E; [discriminate|].
  destruct (handle_early_settlement conn (loan_id l)) as [conn1 [x|e1]] eqn:H.
  - eapply IH. exact E.
  - injection E as <- <-. apply handle_early_settlement_raise in H. subst conn1. reflexivity.
Qed.

(** X7.  A failure while a loan is handled undoes that loan's writes and
    nothing else.  When the loop has handled the loans [done] and the
    handling of the next loan raises, the loop stops with the connection
    rolled back to what stood committed after [done]: the settlements
    completed before stay, the loans after the failing one are not
    visited.  A run of [settle_installments] that raises therefore leaves
    nothing pending, and the roll back of the caller changes nothing. *)
Theorem settle_installments_failure (conn : connection) :
  (forall done l rest conn1 e,
     settle_each conn done = (conn1, Ok tt) ->
     snd (handle_early_settlement conn1 (loan_id l)) = Raise e ->
     settle_each conn (done ++ l :: rest) = (rollback conn1, Raise e)) /\
  (forall keys conn' e,
     settle_installments conn keys = (conn', Raise e) ->
     working conn' = committed conn' /\
     run_settle_installments conn keys = conn').
Proof.
  split.
  - intros done l rest conn1 e Hdone Hl.
    rewrite settle_each_app, Hdone. simpl.
    destruct (handle_early_settlement conn1 (loan_id l)) as [conn2 [x|e2]] eqn:H;
      simpl in Hl; [discriminate|].
    injection Hl as ->. apply handle_early_settlement_raise in H. subst conn2. reflexivity.
  - intros keys conn' e E.
    assert (Hw : working conn' = committed conn').
    { unfold settle_installments in E.
      destruct keys as [|k keys]; [discriminate|].
      destruct (List.filter _ (loans (working conn))) as [|l ls]; [discriminate|].
      destruct (settle_each conn (l :: ls)) as [conn1 [[]|e1]]; [discriminate|].
      injection E as <- <-. reflexivity. }
    split; [exact Hw|].
    unfold run_settle_installments. rewrite E.
    destruct conn' as [c w]. simpl in Hw. subst w. reflexivity.
Qed.

End with_runtime.

End EarlySettlementRun.

Module EarlySettlementExamples.
Import Py Schema EarlySettlement EarlySettlementRun.

Lemma early_settlement_completed_witness :
  let conn := Samples.early_settled_loan in
  let conn' := fst (@handle_early_settlement bare_runtime conn 1) in
  committed conn' = working conn' /\
  map inst_id (loan_repayment_schedules (working conn')) = [10; 11].
Proof.
  intros conn conn'.
  destruct (@early_settlement_completed bare_runtime conn conn' 1) as [Hc _].
  - apply (bool_decide_unpack _). reflexivity.
  - reflexivity.
  - split; [exact Hc | reflexivity].
Defined.

Lemma early_settlement_transactions_witness :
  let db := working Samples.early_settled_loan in
  exists db' added,
    @early_settlement_steps bare_runtime db 1 = Ok (db', Settled) /\
    loan_transactions db' = [] ++ added /\
    next_transaction_id db' = next_transaction_id db + Z.of_nat (length added).
Proof.
  intros db.
  destruct (@early_settlement_steps bare_runtime db 1) as [[db' e]|] eqn:E;
    [|discriminate E].
  assert (e = Settled) by (vm_compute in E; injection E as _ <-; reflexivity).
  subst e.
  destruct (@early_settlement_transactions bare_runtime db db' 1 E)
    as (s & u & when & _ & _ & _ & added & H1 & _ & _ & _ & H5).
  exists db', added. split; [reflexivity|]. split; [exact H1 | exact H5].
Defined.

(** Loan 1 is settled in a database that also holds loan 2: the two
    installments of loan 2 and its loan row stay, while the schedule and
    the row of loan 1 change. *)
Lemma early_settlement_leaves_other_loans_witness :
  let db := working MoreSamples.two_loans in
  let db' := fst (result_or (@early_settlement_steps bare_runtime db 1) (db, NoInstallments)) in
  filter (fun r => inst_loan_id r <> Some 1) (loan_repayment_schedules db')
  = [Samples.installment 20 2 1 300 30 300 30 (VDate (mkdate 2024 4 1));
     Samples.installment 21 2 2 300 30 0 0 VNone] /\
  filter (fun l => loan_id l <> 1) (loans db') = [MoreSamples.loan_2] /\
  map inst_id (loan_repayment_schedules db') = [20; 10; 11; 21] /\
  map loan_status (loans db') = ["active"; "closed"]%string.
Proof.
  intros db db'.
  destruct (@early_settlement_leaves_other_loans bare_runtime db db' 1 Settled) as [H1 H2].
  - apply (bool_decide_unpack _). reflexivity.
  - reflexivity.
  - rewrite H1, H2. repeat split; reflexivity.
Defined.

Lemma settle_installments_failure_witness :
  let conn := MoreSamples.text_date_loan in
  @settle_each bare_runtime conn ([] ++ [Samples.loan_1]) = (rollback conn, Raise ValueError).
Proof.
  intros conn.
  apply (proj1 (@settle_installments_failure bare_runtime conn) [] Samples.loan_1 [] conn ValueError).
  - reflexivity.
  - reflexivity.
Defined.

End EarlySettlementExamples.

Module TransactionRows.
Import Py Transform Transactions Calendar PyFacts TransformFacts TransactionsFacts.

Section with_target.
Context {runtime : Runtime} {target : Target}.

Lemma float_raises (v : val) (e : exn) :
  float v = Raise e -> e = ValueError \/ e = TypeError.
Proof.
  destruct v; simpl; try discriminate; try (intros E; injection E as <-; auto);
    destruct (float_of_string s); intros E; try discriminate; injection E as <-; auto.
Qed.

(** X8.  A transaction whose type code cannot be converted to an integer
    (a text that is no number, a date) is never processed to the end: the
    transformer raises before it inserts or counts anything, with the
    error of the unset variable or of the conversion of the penalties, and
    the row loop counts the row as failed and inserts nothing for it. *)
Theorem unconvertible_type_fails
    (target_table : string) (row_data source_row : dict) (w : world)
    (t : CustomLogic.tallies) :
  source_row <> ∅ ->
  convert_type (get source_row "trans_act") = None ->
  (exists e,
     CustomLogic.process_columns Transactions row_data source_row w = (w, Raise e) /\
     (e = UnboundLocalError \/ e = ValueError \/ e = TypeError)) /\
  CustomLogic.migrate_transaction_row target_table row_data source_row (w, t)
  = (w, CustomLogic.mk_tallies (CustomLogic.successful_inserts t)
                               (CustomLogic.failed_inserts t + 1)).
Proof.
  intros Hne Hconv.
  assert (H : exists e,
             CustomLogic.process_columns Transactions row_data source_row w = (w, Raise e) /\
             (e = UnboundLocalError \/ e = ValueError \/ e = TypeError)).
  { unfold CustomLogic.process_columns, process_transactions.
    rewrite bool_decide_eq_false_2 by exact Hne. rewrite Hconv.
    set (prepared := prepare _ _).
    unfold penalty_side_record, fees_side_record, mbind, lift, ret.
    destruct (float (get_or prepared "penalties_repaid_derived" (VInt 0))) as [q|e] eqn:F.
    - destruct (positive q && has_key prepared "loan_id"); eauto.
    - apply float_raises in F. exists e. split; [reflexivity | tauto]. }
  split; [exact H|].
  destruct H as (e & E & _). unfold CustomLogic.migrate_transaction_row. rewrite E. reflexivity.
Qed.

(** *** What the steps before the normalisation leave alone *)

Lemma common_lookups_frame (row_data source_row : dict) (g : string) :
  g <> "branch_id"%string -> g <> "old_branch_code"%string ->
  g <> "loan_officer_id"%string -> g <> "created_by_id"%string ->
  common_lookups Transactions row_data source_row !! g = row_data !! g.
Proof.
  intros G1 G2 G3 G4. unfold common_lookups.
  destruct (bool_decide (source_row = ∅)); [reflexivity|].
  repeat match goal with
         | |- context [if ?c then _ else _] => destruct c
         end;
    rewrite ?lookup_insert_ne by congruence; reflexivity.
Qed.

Lemma resolve_loan_frame (row_data source_row : dict) (g : string) :
  g <> "loan_id"%string -> g <> "reversed"%string -> g <> "repayment_schedule_id"%string ->
  resolve_loan row_data source_row !! g = row_data !! g.
Proof.
  intros G1 G2 G3. unfold resolve_loan.
  destruct (truthy (get source_row "loan_key")); [|reflexivity].
  destruct (truthy (get_record_value "loans" "external_id" (get source_row "loan_key") "id"));
    destruct (truthy (get source_row "installment_key"));
    rewrite ?lookup_insert_ne by congruence; reflexivity.
Qed.

Lemma coalesce_zero_frame (field : string) (row_data : dict) (g : string) :
  g <> field -> coalesce_zero field row_data !! g = row_data !! g.
Proof.
  intros G. unfold coalesce_zero.
  destruct (get row_data field); rewrite ?lookup_insert_ne by congruence; reflexivity.
Qed.

Lemma prepare_frame (row_data source_row : dict) (g : string) :
  g <> "loan_id"%string -> g <> "reversed"%string -> g <> "repayment_schedule_id"%string ->
  g <> "amount"%string -> g <> "interest_repaid_derived"%string ->
  g <> "penalties_repaid_derived"%string ->
  prepare row_data source_row !! g = row_data !! g.
Proof.
  intros. unfold prepare.
  rewrite !coalesce_zero_frame by assumption. apply resolve_loan_frame; assumption.
Qed.

(** The dates of a row after the normalisation. *)
Lemma normalise_amounts_dates (r r' : dict) :
  normalise_amounts r = Ok r' ->
  r' !! "updated_at" = Some now /\
  (match r !! "created_at" with
   | Some (VDateTime d us) =>
       exists d' us', add_one_hour d us = Ok (d', us') /\
                      r' !! "created_at" = Some (VDateTime d' us')
   | other => r' !! "created_at" = other
   end) /\
  (match r !! "submitted_on" with
   | None | Some VNone =>
       is_Some (r' !! "created_at") /\ r' !! "submitted_on" = r' !! "created_at"
   | Some v => r' !! "submitted_on" = Some v
   end).
Proof.
  unfold normalise_amounts. intros E.
  apply bind_ok in E as (r1 & H1 & E).
  apply bind_ok in E as (r2 & H2 & E).
  apply bind_ok in E as (r3 & H3 & E).
  apply bind_ok in E as (r5 & H5 & E).
  apply bind_ok in E as (r6 & H6 & E).
  apply bind_ok in E as (a & Ha & E).
  apply bind_ok in E as (i & Hi & E).
  apply bind_ok in E as (p & Hp & E).
  injection E as <-.
  apply make_non_negative_spec in H1 as [F1 _].
  apply make_non_negative_spec in H2 as [F2 _].
  apply make_non_negative_spec in H3 as [F3 _].
  set (r4 := <["updated_at" := now]> r3) in *.
  assert (Ec : r4 !! "created_at" = r !! "created_at").
  { unfold r4. rewrite lookup_insert_ne, F3, F2, F1 by done. reflexivity. }
  assert (Es : r4 !! "submitted_on" = r !! "submitted_on").
  { unfold r4. rewrite lookup_insert_ne, F3, F2, F1 by done. reflexivity. }
  assert (Eu : r4 !! "updated_at" = Some now) by apply lookup_insert_eq.
  rewrite !lookup_insert_ne by done.
  rewrite <- Ec, <- Es. clearbody r4. clear F1 F2 F3 Ec Es Ha Hi Hp.
  (* the shift of created_at *)
  assert (S5 : r5 !! "updated_at" = Some now /\
               r5 !! "submitted_on" = r4 !! "submitted_on" /\
               match r4 !! "created_at" with
               | Some (VDateTime d us) =>
                   exists d' us', add_one_hour d us = Ok (d', us') /\
                                  r5 !! "created_at" = Some (VDateTime d' us')
               | other => r5 !! "created_at" = other
               end).
  { unfold shift_created_at in H5.
    destruct (r4 !! "created_at") as [[]|] eqn:C;
      try (injection H5 as <-; rewrite ?C; auto).
    apply bind_ok in H5 as ([d' us'] & Hadd & H5). injection H5 as <-.
    rewrite !lookup_insert_ne by done. split; [exact Eu|]. split; [reflexivity|].
    exists d', us'. split; [exact Hadd|]. apply lookup_insert_eq. }
  destruct S5 as (U5 & S5 & C5).
  (* the default of submitted_on *)
  assert (S6 : r6 !! "updated_at" = Some now /\
               r6 !! "created_at" = r5 !! "created_at" /\
               match r5 !! "submitted_on" with
               | None | Some VNone =>
                   is_Some (r6 !! "created_at") /\ r6 !! "submitted_on" = r6 !! "created_at"
               | Some v => r6 !! "submitted_on" = Some v
               end).
  { unfold default_submitted_on in H6.
    assert (Hgen : (created_at <- item r5 "created_at" ;;
                    Ok (<["submitted_on" := created_at]> r5)) = Ok r6 ->
                   r6 !! "updated_at" = Some now /\
                   r6 !! "created_at" = r5 !! "created_at" /\
                   is_Some (r6 !! "created_at") /\
                   r6 !! "submitted_on" = r6 !! "created_at").
    { intros E'. apply bind_ok in E' as (x & Hx & E'). injection E' as <-.
      unfold item in Hx. destruct (r5 !! "created_at") as [c|] eqn:C; [|discriminate].
      injection Hx as ->.
      rewrite !lookup_insert_ne by done. rewrite lookup_insert_eq, C. eauto. }
    destruct (r5 !! "submitted_on") as [[]|] eqn:S;
      try (injection H6 as <-; rewrite ?S; auto);
      destruct (Hgen H6) as (? & ? & ? & ?); auto. }
  destruct S6 as (U6 & C6 & S6).
  split; [exact U6|]. split; [rewrite C6; exact C5|].
  rewrite <- S5. exact S6.
Qed.

Lemma make_negative_frame (field : string) (r : dict) (g : string) :
  g <> field -> make_negative field r !! g = r !! g.
Proof.
  intros G. unfold make_negative.
  destruct (float (get r field)) as [q|]; [|reflexivity].
  destruct (positive q); rewrite ?lookup_insert_ne by congruence; reflexivity.
Qed.

Lemma negate_cancellation_frame (r : dict) (g : string) :
  g <> "amount"%string -> g <> "interest_repaid_derived"%string ->
  g <> "penalties_repaid_derived"%string -> g <> "principal_repaid_derived"%string ->
  negate_cancellation r !! g = r !! g.
Proof.
  intros G1 G2 G3 G4. unfold negate_cancellation, recalculate_principal.
  repeat match goal with
         | |- context [match ?c with Ok _ => _ | Raise _ => _ end] => destruct c
         end;
    rewrite ?lookup_insert_ne by congruence;
    rewrite !make_negative_frame by congruence; reflexivity.
Qed.

Lemma finish_row_frame (r : dict) (t : option Z) (w w' : world) (row' : dict) (g : string) :
  finish_row r t w = (w', Ok row') ->
  g <> "amount"%string -> g <> "interest_repaid_derived"%string ->
  g <> "penalties_repaid_derived"%string -> g <> "principal_repaid_derived"%string ->
  g <> "loan_transaction_type_id"%string -> g <> "debit"%string -> g <> "credit"%string ->
  g <> "_skip_this_row"%string ->
  row' !! g = r !! g.
Proof.
  intros E G1 G2 G3 G4 G5 G6 G7 G8.
  destruct (mapped t) as [target_type|] eqn:Hm.
  - destruct (finish_row_mapped _ _ _ _ _ _ Hm E) as (F & _).
    rewrite F by assumption.
    destruct (is_cancellation t); [apply negate_cancellation_frame; assumption|reflexivity].
  - unfold finish_row in E. rewrite Hm in E.
    unfold mbind, count_skipped, ret in E. simpl in E. injection E as <- <-.
    rewrite lookup_insert_ne by congruence. reflexivity.
Qed.

(** The shape of a run that is processed to the end. *)
Lemma process_transactions_ok (row_data source_row : dict) (w w' : world) (row' : dict) :
  source_row <> ∅ ->
  CustomLogic.process_columns Transactions row_data source_row w = (w', Ok row') ->
  let prepared := prepare (common_lookups Transactions row_data source_row) source_row in
  exists t w1 w2 r,
    convert_type (get source_row "trans_act") = Some t /\
    penalty_side_record prepared (Some t) w = (w1, Ok tt) /\
    fees_side_record prepared (Some t) w1 = (w2, Ok tt) /\
    normalise_amounts prepared = Ok r /\
    finish_row r t w2 = (w', Ok row').
Proof.
  intros Hne E prepared.
  unfold CustomLogic.process_columns, process_transactions in E.
  rewrite bool_decide_eq_false_2 in E by exact Hne. fold prepared in E.
  destruct (convert_type (get source_row "trans_act")) as [t|] eqn:Hconv.
  - apply mbind_ok in E as ([] & w1 & Hpen & E).
    apply mbind_ok in E as ([] & w2 & Hfee & E).
    apply mbind_ok in E as (r & w3 & Hn & E).
    apply lift_ok in Hn as [Hn ->]. simpl in E.
    exists t, w1, w2, r. auto.
  - exfalso.
    apply mbind_ok in E as ([] & w1 & Hpen & E).
    apply mbind_ok in E as ([] & w2 & Hfee & E).
    unfold fees_side_record, lift in Hfee. discriminate Hfee.
Qed.


(** *** The two separate records *)

Lemma try_insert_record_ok (table : string) (data : dict) (w w' : world) :
  try_insert_record table data w = (w', Ok tt) ->
  self w' = self w /\
  inserted (db w') = inserted (db w) ++ (if accepts table data then [(table, data)] else []) /\
  next_id (db w') = next_id (db w) + (if accepts table data then 1 else 0).
Proof.
  unfold try_insert_record, insert_record.
  destruct (accepts table data); intros E; injection E as <-; simpl.
  - auto.
  - rewrite app_nil_r, Z.add_0_r. auto.
Qed.

Lemma penalty_side_record_ok (prepared : dict) (t : option Z) (w w' : world) :
  penalty_side_record prepared (Some t) w = (w', Ok tt) ->
  exists penalties,
    float (get_or prepared "penalties_repaid_derived" (VInt 0)) = Ok penalties /\
    let record :=
      penalties_tx_data prepared
        (if is_cancellation t then (- penalties)%Q else penalties) (is_cancellation t) in
    let sent := positive penalties && has_key prepared "loan_id"
                && accepts "loan_transactions" record in
    self w' = self w /\
    inserted (db w')
    = inserted (db w) ++ (if sent then [("loan_transactions"%string, record)] else []) /\
    next_id (db w') = next_id (db w) + (if sent then 1 else 0).
Proof.
  unfold penalty_side_record. intros E.
  apply mbind_ok in E as (pen & w0 & Hf & E). apply lift_ok in Hf as [Hf ->].
  exists pen. split; [exact Hf|]. simpl.
  destruct (positive pen && has_key prepared "loan_id"); simpl.
  - apply try_insert_record_ok in E. exact E.
  - apply ret_ok in E as [_ ->]. rewrite app_nil_r, Z.add_0_r. auto.
Qed.

Lemma fees_side_record_ok (prepared : dict) (t : option Z) (w w' : world) :
  fees_side_record prepared (Some t) w = (w', Ok tt) ->
  self w' = self w /\
  exists sent : list (string * dict),
    inserted (db w') = inserted (db w) ++ sent /\
    next_id (db w') = next_id (db w) + Z.of_nat (length sent) /\
    (sent <> [] ->
     (t = Some 17 \/ t = Some 18) /\ has_key prepared "loan_id" = true) /\
    ((t = Some 17 \/ t = Some 18) -> has_key prepared "loan_id" = true ->
     exists amount,
       float (get_or prepared "amount" (VInt 0)) = Ok amount /\
       let cancellation := bool_decide (t = Some 18) in
       let record :=
         fees_tx_data prepared (if cancellation then (- amount)%Q else amount) cancellation in
       sent = if positive amount && accepts "loan_transactions" record
              then [("loan_transactions"%string, record)] else []).
Proof.
  unfold fees_side_record. intros E.
  destruct (bool_decide (t = Some 17 \/ t = Some 18)) eqn:T; simpl in E.
  - apply bool_decide_eq_true_1 in T.
    destruct (has_key prepared "loan_id") eqn:K; simpl in E.
    + apply mbind_ok in E as (amount & w0 & Hf & E). apply lift_ok in Hf as [Hf ->].
      destruct (positive amount) eqn:P; simpl.
      * apply try_insert_record_ok in E as (E1 & E2 & E3).
        split; [exact E1|]. eexists. split; [exact E2|].
        split; [|split].
        -- rewrite E3. destruct (accepts _ _); reflexivity.
        -- auto.
        -- intros _ _. exists amount. split; [exact Hf|]. rewrite P. reflexivity.
      * apply ret_ok in E as [_ ->]. split; [reflexivity|]. exists [].
        rewrite app_nil_r, Z.add_0_r. repeat split; try congruence.
        intros _ _. exists amount. split; [exact Hf|]. rewrite P. reflexivity.
    + apply ret_ok in E as [_ ->]. split; [reflexivity|]. exists [].
      rewrite app_nil_r, Z.add_0_r. repeat split; congruence.
  - apply bool_decide_eq_false_1 in T.
    apply ret_ok in E as [_ ->]. split; [reflexivity|]. exists [].
    rewrite app_nil_r, Z.add_0_r. repeat split; try congruence; contradiction.
Qed.

(** X11.  What the transformer itself inserts for a transaction that it
    processes to the end, whatever the type: at most two records, both
    into the transactions table and both built from the row as it stands
    before any amount is normalised.  First the penalty record (type 12),
    exactly when the penalties are positive, the loan was resolved and the
    target accepts the record, with the sign turned for a cancellation
    type; then the charges record (type 2), only for the source types 17
    and 18 with a resolved loan, exactly when the amount is positive and
    the record is accepted, negative for type 18.  The row itself is not
    inserted by the transformer. *)
Theorem transaction_side_records
    (row_data source_row : dict) (w w' : world) (row' : dict) (t : option Z) :
  source_row <> ∅ ->
  convert_type (get source_row "trans_act") = Some t ->
  CustomLogic.process_columns Transactions row_data source_row w = (w', Ok row') ->
  let prepared := prepare (common_lookups Transactions row_data source_row) source_row in
  exists penalties (charges : list (string * dict)),
    float (get_or prepared "penalties_repaid_derived" (VInt 0)) = Ok penalties /\
    let penalty_record :=
      penalties_tx_data prepared
        (if is_cancellation t then (- penalties)%Q else penalties) (is_cancellation t) in
    let penalty :=
      if positive penalties && has_key prepared "loan_id"
         && accepts "loan_transactions" penalty_record
      then [("loan_transactions"%string, penalty_record)] else [] in
    inserted (db w') = inserted (db w) ++ penalty ++ charges /\
    next_id (db w') = next_id (db w) + Z.of_nat (length (penalty ++ charges)) /\
    (charges <> [] -> (t = Some 17 \/ t = Some 18) /\ has_key prepared "loan_id" = true) /\
    ((t = Some 17 \/ t = Some 18) -> has_key prepared "loan_id" = true ->
     exists amount,
       float (get_or prepared "amount" (VInt 0)) = Ok amount /\
       let cancellation := bool_decide (t = Some 18) in
       let record :=
         fees_tx_data prepared (if cancellation then (- amount)%Q else amount) cancellation in
       charges = if positive amount && accepts "loan_transactions" record
                 then [("loan_transactions"%string, record)] else []).
Proof.
  intros Hne Hconv E prepared.
  destruct (process_transactions_ok _ _ _ _ _ Hne E) as (t' & w1 & w2 & r & Ht & Hpen & Hfee & Hn & Hfin).
  fold prepared in Hpen, Hfee, Hn.
  rewrite Hconv in Ht. injection Ht as <-.
  apply penalty_side_record_ok in Hpen as (pen & Hf & _ & Hp1 & Hp2).
  apply fees_side_record_ok in Hfee as (_ & charges & Hc1 & Hc2 & Hc3 & Hc4).
  assert (Hdb : db w' = db w2).
  { destruct (mapped t) as [target_type|] eqn:Hm.
    - apply (finish_row_mapped _ _ _ _ _ _ Hm Hfin).
    - unfold finish_row in Hfin. rewrite Hm in Hfin.
      unfold mbind, count_skipped, ret in Hfin. simpl in Hfin.
      injection Hfin as <- _. reflexivity. }
  exists pen, charges. split; [exact Hf|]. simpl.
  rewrite Hdb, Hc1, Hp1, Hc2, Hp2.
  split; [rewrite app_assoc; reflexivity|].
  split; [|split; assumption].
  rewrite length_app, Nat2Z.inj_add.
  destruct (positive pen && has_key prepared "loan_id" && accepts _ _); simpl; lia.
Qed.

(** *** Amounts, sides and dates of the row *)

Lemma mapped_cases (t target_type : Z) :
  mapped (Some t) = Some target_type ->
  (t, target_type) ∈ [(1, 2); (3, 1); (7, 6); (17, 10); (2, 2); (4, 1); (8, 6); (18, 10)].
Proof. simpl. unfold trans_type_mapping. apply elem_of_list_to_map_2. Qed.

Lemma source_row_not_empty (source_row : dict) (t : Z) :
  int (get source_row "trans_act") = Ok t -> source_row <> ∅.
Proof.
  intros Hint ->. unfold get in Hint. rewrite lookup_empty in Hint. discriminate Hint.
Qed.


(** X10.  A transaction whose source type is in the remap table and that
    is processed to the end gets the target type of the table (1 and 2
    become 2, 3 and 4 become 1, 7 and 8 become 6, 17 and 18 become 10), is
    counted as inserted and not as skipped, and carries its amount on
    exactly one side: in [debit] with [credit] 0 for the target types 1
    and 10, in [credit] with [debit] 0 for the target types 2 and 6. *)
Theorem mapped_transaction_sides
    (row_data source_row : dict) (w w' : world) (row' : dict) (t target_type : Z) :
  int (get source_row "trans_act") = Ok t ->
  mapped (Some t) = Some target_type ->
  CustomLogic.process_columns Transactions row_data source_row w = (w', Ok row') ->
  target_type = (if bool_decide (t = 1 \/ t = 2) then 2
                 else if bool_decide (t = 3 \/ t = 4) then 1
                 else if bool_decide (t = 7 \/ t = 8) then 6 else 10) /\
  row' !! "loan_transaction_type_id" = Some (VInt target_type) /\
  (exists amount,
     row' !! "amount" = Some amount /\
     if bool_decide (target_type = 1 \/ target_type = 10)
     then row' !! "debit" = Some amount /\ row' !! "credit" = Some (VInt 0)
     else row' !! "debit" = Some (VInt 0) /\ row' !! "credit" = Some amount) /\
  inserted_transactions (self w') = inserted_transactions (self w) + 1 /\
  skipped_transactions (self w') = skipped_transactions (self w) /\
  skipped_types_count (self w') = skipped_types_count (self w).
Proof.
  intros Hint Hm E.
  pose proof (source_row_not_empty _ _ Hint) as Hne.
  destruct (process_transactions_ok _ _ _ _ _ Hne E)
    as (t' & w1 & w2 & r & Hconv & Hpen & Hfee & Hn & Hfin).
  rewrite (convert_type_int _ _ Hint) in Hconv. injection Hconv as <-.
  apply penalty_side_record_ok in Hpen as (pen & _ & Hs1 & _).
  apply fees_side_record_ok in Hfee as (Hs2 & _).
  simpl in Hs1.
  split.
  { apply mapped_cases in Hm.
    repeat (apply elem_of_cons in Hm as [Hm|Hm]; [injection Hm as -> ->; reflexivity|]).
    inversion Hm. }
  apply normalise_amounts_spec in Hn
    as (a0 & i0 & p0 & vi & vp & _ & _ & _ & Ha & Hi & Hfi & Hp & Hfp & _).
  assert (Hamount : exists amount,
             (if is_cancellation (Some t) then negate_cancellation r else r) !! "amount"
             = Some amount).
  { destruct (is_cancellation (Some t)); [|eauto].
    destruct (negate_cancellation_spec r (VFloat (a0 + p0)) vi vp (a0 + p0) i0 p0
                Ha eq_refl Hi Hfi Hp Hfp) as (va' & _ & _ & _ & _ & _ & H1 & _).
    eauto. }
  destruct Hamount as [amount Hamount].
  destruct (finish_row_mapped _ _ _ _ _ _ Hm Hfin) as (F & Htype & Hins & Hskip & _).
  unfold finish_row in Hfin. rewrite Hm in Hfin.
  set (r1 := if is_cancellation (Some t) then negate_cancellation r else r) in *.
  clearbody r1.
  unfold mbind, count_inserted, ret in Hfin. simpl in Hfin.
  injection Hfin as Hw <-.
  split; [exact Htype|]. split.
  - exists amount. unfold get.
    destruct (bool_decide (target_type = 1 \/ target_type = 10));
      rewrite ?lookup_insert_eq, !lookup_insert_ne by done;
      rewrite ?lookup_insert_eq, Hamount; auto.
  - rewrite Hins, Hskip, <- Hw. simpl. rewrite Hs2, Hs1. auto.
Qed.

(** X12.  The dates of a transaction that is processed to the end.
    [updated_at] is the time of the run.  A [created_at] that is a
    datetime is moved one hour forward (past midnight into the next day);
    any other value is kept.  A row without [submitted_on], or with an
    empty one, gets the moved [created_at] as [submitted_on] and must
    therefore have a [created_at]; a [submitted_on] that is present is
    kept. *)
Theorem transaction_dates
    (row_data source_row : dict) (w w' : world) (row' : dict) :
  source_row <> ∅ ->
  CustomLogic.process_columns Transactions row_data source_row w = (w', Ok row') ->
  row' !! "updated_at" = Some now /\
  (match row_data !! "created_at" with
   | Some (VDateTime d us) =>
       exists d' us', add_one_hour d us = Ok (d', us') /\
                      row' !! "created_at" = Some (VDateTime d' us')
   | other => row' !! "created_at" = other
   end) /\
  (match row_data !! "submitted_on" with
   | None | Some VNone =>
       is_Some (row_data !! "created_at") /\ row' !! "submitted_on" = row' !! "created_at"
   | Some v => row' !! "submitted_on" = Some v
   end).
Proof.
  intros Hne E.
  destruct (process_transactions_ok _ _ _ _ _ Hne E)
    as (t & w1 & w2 & r & _ & _ & _ & Hn & Hfin).
  apply normalise_amounts_dates in Hn as (Hu & Hc & Hs).
  rewrite !prepare_frame, !common_lookups_frame in Hc, Hs by done.
  rewrite !(finish_row_frame _ _ _ _ _ _ Hfin) by done.
  split; [exact Hu|]. split; [exact Hc|].
  destruct (row_data !! "submitted_on") as [[]|]; try exact Hs;
    (split; [|apply Hs]); destruct Hs as [[c Hs] _];
    destruct (row_data !! "created_at") as [[]|]; eauto;
    try (destruct Hc as (? & ? & _ & Hc)); congruence.
Qed.

End with_target.

End TransactionRows.

Module TransactionRowsExamples.
Import Py Transform Transactions Calendar TransformFacts TransactionRows.

Lemma unconvertible_type_fails_witness :
  @CustomLogic.migrate_transaction_row bare_runtime Samples.sample_target
    "loan_transactions" (Samples.transaction_row 100 10 0) MoreSamples.text_type_source_row
    (Samples.empty_world, CustomLogic.mk_tallies 0 0)
  = (Samples.empty_world, CustomLogic.mk_tallies 0 (0 + 1)).
Proof.
  apply (proj2 (@unconvertible_type_fails bare_runtime Samples.sample_target
                  "loan_transactions" (Samples.transaction_row 100 10 0)
                  MoreSamples.text_type_source_row Samples.empty_world
                  (CustomLogic.mk_tallies 0 0)
                  ltac:(intros H; apply (f_equal (fun m : dict => m !! "trans_act")) in H;
                        discriminate H)
                  eq_refl)).
Defined.

(** The run of the transformer on a sample transaction of a given type. *)
Ltac sample_run r trans_act amount interest penalties :=
  set (r := @CustomLogic.process_columns bare_runtime Samples.sample_target Transactions
              (Samples.transaction_row amount interest penalties)
              (Samples.transaction_source_row trans_act) Samples.empty_world);
  assert (r = (fst r, Ok (result_or (snd r) ∅)))
    by (apply result_shape; vm_compute; reflexivity).

Lemma transaction_side_records_witness :
  exists (w' : world) (row' : dict),
    @CustomLogic.process_columns bare_runtime Samples.sample_target Transactions
      (Samples.transaction_row 50 0 5) (Samples.transaction_source_row 17)
      Samples.empty_world = (w', Ok row') /\
    exists records, inserted (db w') = [] ++ records /\
                    next_id (db w') = 1 + Z.of_nat (length records).
Proof.
  sample_run r 17 50%Q 0%Q 5%Q.
  exists (fst r), (result_or (snd r) ∅). split; [assumption|].
  destruct (@transaction_side_records bare_runtime Samples.sample_target
              (Samples.transaction_row 50 0 5) (Samples.transaction_source_row 17)
              Samples.empty_world (fst r) (result_or (snd r) ∅) (Some 17))
    as (penalties & charges & _ & H1 & H2 & _).
  - intros H0. apply (f_equal (fun m : dict => m !! "trans_act")) in H0. discriminate H0.
  - reflexivity.
  - assumption.
  - eexists. split; [exact H1 | exact H2].
Defined.


Lemma mapped_transaction_sides_witness :
  exists (w' : world) (row' : dict),
    @CustomLogic.process_columns bare_runtime Samples.sample_target Transactions
      (Samples.transaction_row 1000 100 0) (Samples.transaction_source_row 3)
      Samples.empty_world = (w', Ok row') /\
    row' !! "loan_transaction_type_id" = Some (VInt 1) /\
    row' !! "credit" = Some (VInt 0) /\
    inserted_transactions (self w') = 0 + 1.
Proof.
  sample_run r 3 1000%Q 100%Q 0%Q.
  exists (fst r), (result_or (snd r) ∅). split; [assumption|].
  destruct (@mapped_transaction_sides bare_runtime Samples.sample_target
              (Samples.transaction_row 1000 100 0) (Samples.transaction_source_row 3)
              Samples.empty_world (fst r) (result_or (snd r) ∅) 3 1)
    as (_ & H1 & (amount & _ & _ & H2) & H3 & _).
  - reflexivity.
  - reflexivity.
  - assumption.
  - repeat split; assumption.
Defined.

Lemma transaction_dates_witness :
  exists (w' : world) (row' : dict),
    @CustomLogic.process_columns bare_runtime Samples.sample_target Transactions
      (Samples.transaction_row 100 10 0) (Samples.transaction_source_row 1)
      Samples.empty_world = (w', Ok row') /\
    exists d' us',
      add_one_hour (mkdate 2024 3 1) 0 = Ok (d', us') /\
      row' !! "created_at" = Some (VDateTime d' us') /\
      row' !! "submitted_on" = row' !! "created_at".
Proof.
  sample_run r 1 100%Q 10%Q 0%Q.
  exists (fst r), (result_or (snd r) ∅). split; [assumption|].
  destruct (@transaction_dates bare_runtime Samples.sample_target
              (Samples.transaction_row 100 10 0) (Samples.transaction_source_row 1)
              Samples.empty_world (fst r) (result_or (snd r) ∅))
    as (_ & (d' & us' & H1 & H2) & _ & H3).
  - intros H0. apply (f_equal (fun m : dict => m !! "trans_act")) in H0. discriminate H0.
  - assumption.
  - exists d', us'. repeat split; assumption.
Defined.

End TransactionRowsExamples.

Module MigrationLoopFacts.
Import Py Transform Transactions MigrationLoop MigrationLoopSpec TransformFacts.

Section with_target.
Context {runtime : Runtime} {target : Target}.

Lemma grows_mbind {A B : Type} (m : M A) (k : A -> M B) :
  grows m -> (forall a, grows (k a)) -> grows (mbind m k).
Proof.
  intros Hm Hk w. unfold mbind. specialize (Hm w).
  destruct (m w) as [w1 [a|e]]; simpl in *; [|exact Hm].
  etransitivity; [exact Hm | apply Hk].
Qed.

Lemma grows_lift {A : Type} (r : result A) : grows (lift r).
Proof. intros w. reflexivity. Qed.

Lemma grows_ret {A : Type} (a : A) : grows (ret a).
Proof. intros w. reflexivity. Qed.

Lemma grows_insert_record (table : string) (data : dict) : grows (insert_record table data).
Proof.
  intros w. unfold insert_record. destruct (accepts table data); simpl; [|reflexivity].
  apply prefix_app_r. reflexivity.
Qed.

Lemma grows_try_insert_record (table : string) (data : dict) :
  grows (try_insert_record table data).
Proof.
  intros w. unfold try_insert_record.
  pose proof (grows_insert_record table data w) as H.
  destruct (insert_record table data w) as [w1 [a|e]]; exact H.
Qed.

Lemma grows_process_transactions (row_data source_row : dict) :
  grows (CustomLogic.process_columns Transactions row_data source_row).
Proof.
  unfold CustomLogic.process_columns, process_transactions.
  destruct (bool_decide (source_row = ∅)); [apply grows_ret|].
  apply grows_mbind; [|intros ?; apply grows_mbind; [|intros ?; apply grows_mbind; [|intros ?]]].
  - unfold penalty_side_record.
    apply grows_mbind; [apply grows_lift|]. intros q.
    destruct (positive q && has_key _ "loan_id"); [|apply grows_ret].
    destruct (convert_type _); [apply grows_try_insert_record | apply grows_lift].
  - unfold fees_side_record.
    destruct (convert_type _); [|apply grows_lift].
    destruct (_ && _); [|apply grows_ret].
    apply grows_mbind; [apply grows_lift|]. intros q.
    destruct (positive q); [apply grows_try_insert_record | apply grows_ret].
  - apply grows_lift.
  - unfold finish_row. destruct (mapped _).
    + apply grows_mbind; [intros w; reflexivity|]. intros ?. apply grows_ret.
    + apply grows_mbind; [intros w; reflexivity|]. intros ?. apply grows_ret.
Qed.

Lemma migrate_transaction_row_step (target_table : string) (processed_row source_row : dict)
    (st : world * CustomLogic.tallies) :
  row_step st (CustomLogic.migrate_transaction_row target_table processed_row source_row st).
Proof.
  destruct st as [w t]. unfold CustomLogic.migrate_transaction_row.
  pose proof (grows_process_transactions processed_row source_row w) as H.
  destruct (CustomLogic.process_columns Transactions processed_row source_row w)
    as [w1 [row'|e]]; simpl in H.
  - unfold insert_record. destruct (accepts target_table row'); split; simpl.
    + etransitivity; [exact H|]. apply prefix_app_r. reflexivity.
    + left. split; [reflexivity|]. split; [reflexivity|].
      apply prefix_length in H. rewrite length_app. simpl. lia.
    + exact H.
    + right. auto.
  - split; [exact H|]. right. auto.
Qed.

Lemma migrate_row_step (migration : list mapping) (row : list val)
    (st : world * CustomLogic.tallies) :
  row_step st (migrate_row migration row st).
Proof.
  unfold migrate_row.
  destruct (build_row migration row ∅ ∅) as [[processed_row source_row]|];
    [destruct migration as [|m rest]|];
    try apply migrate_transaction_row_step;
    (split; [reflexivity | right; auto]).
Qed.

Lemma migrate_rows_steps (migration : list mapping) (data : list (list val))
    (st : world * CustomLogic.tallies) :
  let st' := migrate_rows migration data st in
  inserted (db (fst st)) `prefix_of` inserted (db (fst st')) /\
  CustomLogic.successful_inserts (snd st') + CustomLogic.failed_inserts (snd st')
  = CustomLogic.successful_inserts (snd st) + CustomLogic.failed_inserts (snd st)
    + Z.of_nat (length data) /\
  CustomLogic.successful_inserts (snd st) <= CustomLogic.successful_inserts (snd st') /\
  CustomLogic.failed_inserts (snd st) <= CustomLogic.failed_inserts (snd st') /\
  Z.of_nat (length (inserted (db (fst st))))
  + (CustomLogic.successful_inserts (snd st') - CustomLogic.successful_inserts (snd st))
  <= Z.of_nat (length (inserted (db (fst st')))).
Proof.
  unfold migrate_rows. revert st. induction data as [|row rest IH]; intros st; simpl.
  - repeat split; try reflexivity; lia.
  - destruct (IH (migrate_row migration row st)) as (P & S & L1 & L2 & N).
    destruct (migrate_row_step migration row st) as [P0 C].
    pose proof (prefix_length _ _ P0) as Len.
    split; [etransitivity; eassumption|].
    destruct C as [(C1 & C2 & C3)|(C1 & C2)]; repeat split; lia.
Qed.

(** X13.  The migration of the transactions table over any fetched rows.
    Every row is counted once, as a success or as a failure, so the two
    tallies add up to the number of rows; a row that is shorter than the
    mapping is a failure that touches nothing.  Nothing is removed from
    the target during the loop, and every success added at least its own
    record.  The batch is committed when at least one row succeeded and
    rolled back otherwise: after a batch without success the target holds
    what it held before, whatever the transformer inserted on the way;
    after any other batch it holds everything that was inserted, the
    records of the failed rows included. *)
Theorem migration_batch_outcome
    (migration : list mapping) (data : list (list val)) (w : world) :
  let st := migrate_rows migration data (w, CustomLogic.mk_tallies 0 0) in
  let outcome := run_migration migration data w in
  snd outcome = snd st /\
  CustomLogic.successful_inserts (snd st) + CustomLogic.failed_inserts (snd st)
  = Z.of_nat (length data) /\
  0 <= CustomLogic.successful_inserts (snd st) /\
  0 <= CustomLogic.failed_inserts (snd st) /\
  inserted (db w) `prefix_of` inserted (db (fst st)) /\
  Z.of_nat (length (inserted (db w))) + CustomLogic.successful_inserts (snd st)
  <= Z.of_nat (length (inserted (db (fst st)))) /\
  (CustomLogic.successful_inserts (snd st) = 0 -> fst outcome = inserted (db w)) /\
  (0 < CustomLogic.successful_inserts (snd st) -> fst outcome = inserted (db (fst st))) /\
  (forall row st0,
     (length row < length migration)%nat ->
     migrate_row migration row st0 = count_failed st0).
Proof.
  intros st outcome.
  destruct (migrate_rows_steps migration data (w, CustomLogic.mk_tallies 0 0))
    as (P & S & L1 & L2 & N).
  fold st in P, S, L1, L2, N. simpl in P, S, L1, L2, N.
  split; [reflexivity|]. split; [lia|]. split; [exact L1|]. split; [exact L2|].
  split; [exact P|]. split; [lia|].
  subst outcome. unfold run_migration. fold st. simpl.
  split; [|split].
  - intros ->. reflexivity.
  - intros Hpos. destruct (Z.ltb_spec 0 (CustomLogic.successful_inserts (snd st))); [reflexivity|lia].
  - intros row st0 Hlen. unfold migrate_row.
    assert (Hnone : forall m r p s, (length r < length m)%nat -> build_row m r p s = None).
    { clear. induction m as [|x m IH]; intros r p s H; simpl in *; [lia|].
      destruct r as [|v r]; [reflexivity|]. apply IH. simpl in H. lia. }
    rewrite Hnone by exact Hlen. reflexivity.
Qed.

End with_target.

End MigrationLoopFacts.

Module MigrationLoopExamples.
Import Py Transform MigrationLoop MigrationLoopFacts.

Lemma migration_batch_outcome_witness :
  let outcome := @run_migration bare_runtime Samples.sample_target
                   MoreSamples.transactions_mapping MoreSamples.fetched_transactions
                   Samples.empty_world in
  CustomLogic.successful_inserts (snd outcome) + CustomLogic.failed_inserts (snd outcome) = 3 /\
  @migrate_row bare_runtime Samples.sample_target MoreSamples.transactions_mapping
    [VInt 1; VStr "L7"] (Samples.empty_world, CustomLogic.mk_tallies 0 0)
  = count_failed (Samples.empty_world, CustomLogic.mk_tallies 0 0).
Proof.
  intros outcome.
  destruct (@migration_batch_outcome bare_runtime Samples.sample_target
              MoreSamples.transactions_mapping MoreSamples.fetched_transactions
              Samples.empty_world) as (H1 & H2 & _ & _ & _ & _ & _ & _ & H9).
  fold outcome in H1. rewrite H1. split; [exact H2|].
  apply H9. simpl. lia.
Defined.

(** Of the three sample rows the first is inserted and the two others
    fail; the batch is committed with the one record. *)
Example sample_batch :
  let outcome := @run_migration bare_runtime Samples.sample_target
                   MoreSamples.transactions_mapping MoreSamples.fetched_transactions
                   Samples.empty_world in
  (CustomLogic.successful_inserts (snd outcome), CustomLogic.failed_inserts (snd outcome),
   length (fst outcome)) = (1, 2, 1%nat).
Proof. vm_compute. reflexivity. Qed.

End MigrationLoopExamples.

Module ClientRows.
Import Py Transform Clients ClientsSpec PyFacts TransformFacts.

Lemma join_texts (sep : string) (texts : list string) :
  join sep (VStr <$> texts) = Ok (String.concat sep texts).
Proof.
  induction texts as [|s rest IH]; [reflexivity|].
  destruct rest as [|s' rest]; [reflexivity|].
  change (join sep (VStr <$> s :: s' :: rest))
    with (r <- join sep (VStr <$> s' :: rest) ;; Ok (s ++ sep ++ r)%string).
  rewrite IH. reflexivity.
Qed.

Lemma join_ok (sep : string) (parts : list val) (s : string) :
  join sep parts = Ok s -> forall p, p ∈ parts -> exists t, p = VStr t.
Proof.
  revert s. induction parts as [|p rest IH]; intros s E q Hq; [inversion Hq|].
  destruct p; try discriminate E.
  apply elem_of_cons in Hq as [->|Hq]; [eauto|].
  destruct rest as [|p' rest]; [inversion Hq|].
  simpl in E. apply bind_ok in E as (r & Hr & _). eapply IH; eauto.
Qed.

Section with_target.
Context {runtime : Runtime} {target : Target}.

Lemma truthy_nonblank (s : string) :
  truthy (VStr s) && nonblank (str (VStr s)) = nonblank s.
Proof. destruct s; reflexivity. Qed.

Lemma kept_texts (parts : list val) :
  (forall p, p ∈ parts -> p = VNone \/ exists s, p = VStr s) ->
  List.filter (fun part => truthy part && nonblank (str part)) parts
  = VStr <$> omap address_text parts.
Proof.
  induction parts as [|p rest IH]; intros H; [reflexivity|].
  assert (IH' := IH (fun q Hq => H q (list_elem_of_further _ _ _ Hq))). clear IH.
  destruct (H p (list_elem_of_here _ _)) as [->|[s ->]].
  - exact IH'.
  - cbn [List.filter]. rewrite truthy_nonblank, IH'.
    cbn [omap list_omap address_text].
    destruct (nonblank s); reflexivity.
Qed.

(** The steps of the branch before the address, as far as the address
    needs them. *)
Lemma process_clients_address (row_data source_row : dict) (w w' : world) (row' : dict) :
  CustomLogic.process_columns Clients row_data source_row w = (w', Ok row') ->
  exists p1 p2 p3 address,
    source_row !! "home_add_1" = Some p1 /\
    source_row !! "home_add_2" = Some p2 /\
    source_row !! "home_add_3" = Some p3 /\
    (let address_parts :=
       List.filter (fun part => truthy part && nonblank (str part)) [p1; p2; p3] in
     match address_parts with
     | [] => Ok VNone
     | _ => s <- join ", " address_parts ;; Ok (VStr s)
     end) = Ok address /\
    row' !! "address" = Some address.
Proof.
  intros E. unfold CustomLogic.process_columns, process_clients in E.
  do 9 (apply mbind_ok in E as (? & ? & _ & E)).
  apply mbind_ok in E as (p1 & ? & H1 & E).
  apply mbind_ok in E as (p2 & ? & H2 & E).
  apply mbind_ok in E as (p3 & ? & H3 & E).
  apply mbind_ok in E as (address & ? & Ha & E).
  apply mbind_ok in E as (r & ? & Hc & E).
  apply ret_ok in E as [-> ->].
  apply lift_ok in H1 as [H1 _]. apply lift_ok in H2 as [H2 _].
  apply lift_ok in H3 as [H3 _]. apply lift_ok in Ha as [Ha _].
  apply lift_ok in Hc as [Hc _].
  unfold item in H1, H2, H3.
  destruct (source_row !! "home_add_1") as [q1|]; [injection H1 as -> | discriminate H1].
  destruct (source_row !! "home_add_2") as [q2|]; [injection H2 as -> | discriminate H2].
  destruct (source_row !! "home_add_3") as [q3|]; [injection H3 as -> | discriminate H3].
  exists p1, p2, p3, address.
  split; [reflexivity|]. split; [reflexivity|]. split; [reflexivity|].
  split; [exact Ha|].
  repeat (rewrite lookup_insert_ne by done).
  unfold set_coordinates in Hc.
  destruct (truthy (get source_row "home_geography"));
    [destruct (Wkb.extract_lat_lon_from_wkb _) as [[lat lon]|]; [|discriminate]|];
    injection Hc as <-;
    repeat (rewrite lookup_insert_ne by done); apply lookup_insert_eq.
Qed.

(** X14.  The address of a client that is processed to the end is built
    from the three source columns home_add_1, home_add_2 and home_add_3,
    which must be present.  Every part that is kept (not empty, not zero,
    and with a text that is not only white space) is text: a number that
    is not 0 in one of the columns fails the row.  When the three parts
    are text or null, the address is the parts with something else than
    white space, in their order, joined by ", ", and null when there is
    none. *)
Theorem client_address (row_data source_row : dict) (w w' : world) (row' : dict) :
  CustomLogic.process_columns Clients row_data source_row w = (w', Ok row') ->
  exists p1 p2 p3,
    source_row !! "home_add_1" = Some p1 /\
    source_row !! "home_add_2" = Some p2 /\
    source_row !! "home_add_3" = Some p3 /\
    (forall p, p ∈ [p1; p2; p3] -> truthy p && nonblank (str p) = true ->
               exists s, p = VStr s) /\
    ((forall p, p ∈ [p1; p2; p3] -> p = VNone \/ exists s, p = VStr s) ->
     row' !! "address" = Some (joined_address [p1; p2; p3])).
Proof.
  intros E.
  destruct (process_clients_address _ _ _ _ _ E) as (p1 & p2 & p3 & address & H1 & H2 & H3 & Ha & Hr).
  cbv zeta in Ha.
  exists p1, p2, p3. split; [exact H1|]. split; [exact H2|]. split; [exact H3|]. split.
  - intros p Hp Hkept.
    destruct (List.filter _ [p1; p2; p3]) as [|q kept] eqn:F.
    + exfalso.
      assert (Hin : p ∈ List.filter (fun part => truthy part && nonblank (str part)) [p1; p2; p3]).
      { apply list_elem_of_In, filter_In. split; [apply list_elem_of_In; exact Hp | exact Hkept]. }
      rewrite F in Hin. inversion Hin.
    + apply bind_ok in Ha as (s & Hj & _).
      eapply join_ok; [exact Hj|]. rewrite <- F.
      apply list_elem_of_In, filter_In. split; [apply list_elem_of_In; exact Hp | exact Hkept].
  - intros Htext. rewrite Hr. f_equal.
    rewrite (kept_texts _ Htext) in Ha. unfold joined_address.
    destruct (omap address_text [p1; p2; p3]) as [|t texts].
    + injection Ha as <-. reflexivity.
    + change (VStr t :: (VStr <$> texts)) with (VStr <$> (t :: texts)) in Ha.
      rewrite join_texts in Ha. injection Ha as <-. reflexivity.
Qed.


(** *** The user and the wallet of a client *)

Lemma keeps_world_lift {A : Type} (r : result A) : keeps_world (lift r).
Proof. intros w. reflexivity. Qed.

Lemma keeps_world_ret {A : Type} (a : A) : keeps_world (ret a).
Proof. intros w. reflexivity. Qed.

Lemma keeps_world_mbind {A B : Type} (m : M A) (k : A -> M B) :
  keeps_world m -> (forall a, keeps_world (k a)) -> keeps_world (mbind m k).
Proof.
  intros Hm Hk w. unfold mbind. specialize (Hm w).
  destruct (m w) as [w1 [a|e]]; simpl in *; [|exact Hm].
  rewrite Hk. exact Hm.
Qed.

(** X15.  The [clients] migration first inserts a user (role 3) built from
    five columns of the row and then a cash wallet of amount 0 for that
    user.  When one of the five columns is missing the row fails with a
    key error before anything is inserted.  When they are present and the
    target accepts the two records, these are the two records, and the
    only ones, that the transformer inserts, the wallet pointing at the id
    the user got; this holds whether the rest of the row is processed to
    the end or fails, so the user and the wallet of a failed row stay in
    the open transaction.  A row that is processed to the end carries the
    user id. *)
Theorem client_user_and_wallet (row_data source_row : dict) (w : world) :
  let row := common_lookups Clients row_data source_row in
  let run := CustomLogic.process_columns Clients row_data source_row w in
  (row !! "name" = None \/ row !! "national_id" = None \/ row !! "branch_id" = None \/
   row !! "gender" = None \/ row !! "created_at" = None ->
   fst run = w /\ exists key, snd run = Raise (KeyError key)) /\
  (forall name national_id branch_id gender created_at,
     row !! "name" = Some name -> row !! "national_id" = Some national_id ->
     row !! "branch_id" = Some branch_id -> row !! "gender" = Some gender ->
     row !! "created_at" = Some created_at ->
     let user_data : dict :=
       <["name" := name]> (<["national_id" := national_id]> (<["branch_id" := branch_id]>
       (<["gender" := gender]> (<["created_at" := created_at]> (<["role_id" := VInt 3]> ∅))))) in
     let wallet_data : dict :=
       <["user_id" := VInt (next_id (db w))]> (<["role_id" := VInt 3]>
       (<["currency_id" := VInt 1]> (<["wallet_type" := VStr "cash"]> (<["amount" := VInt 0]>
       (<["active" := VBool true]> (<["created_at" := created_at]> ∅)))))) in
     accepts "users" user_data = true -> accepts "wallets" wallet_data = true ->
     inserted (db (fst run))
     = inserted (db w) ++ [("users"%string, user_data); ("wallets"%string, wallet_data)] /\
     next_id (db (fst run)) = next_id (db w) + 2 /\
     self (fst run) = self w /\
     forall row', snd run = Ok row' -> row' !! "user_id" = Some (VInt (next_id (db w)))).
Proof.
  intros row run. split.
  - intros Hmiss.
    assert (H : exists key, run = (w, Raise (KeyError key))).
    { subst run. unfold CustomLogic.process_columns. fold row. unfold process_clients.
      unfold mbind at 1, lift at 1, item at 1.
      destruct (row !! "name") as [name|]; [|eauto].
      unfold mbind at 1, lift at 1, item at 1.
      destruct (row !! "national_id") as [national_id|]; [|eauto].
      unfold mbind at 1, lift at 1, item at 1.
      destruct (row !! "branch_id") as [branch_id|]; [|eauto].
      unfold mbind at 1, lift at 1, item at 1.
      destruct (row !! "gender") as [gender|]; [|eauto].
      unfold mbind at 1, lift at 1, item at 1.
      destruct (row !! "created_at") as [created_at|]; [|eauto].
      exfalso. destruct Hmiss as [H|[H|[H|[H|H]]]]; discriminate H. }
    destruct H as [key ->]. simpl. eauto.
  - intros name national_id branch_id gender created_at Hn Hi Hb Hg Hc
           user_data wallet_data Hau Haw.
    set (w2 := {| db := {| inserted := (inserted (db w) ++ [("users"%string, user_data)])
                                       ++ [("wallets"%string, wallet_data)];
                           next_id := next_id (db w) + 1 + 1 |};
                  self := self w |}).
    assert (H : exists res,
                run = (w2, res) /\
                forall row', res = Ok row' ->
                             row' !! "user_id" = Some (VInt (next_id (db w)))).
    { subst run. unfold CustomLogic.process_columns. fold row. unfold process_clients.
      unfold mbind at 1, lift at 1, item at 1. rewrite Hn.
      unfold mbind at 1, lift at 1, item at 1. rewrite Hi.
      unfold mbind at 1, lift at 1, item at 1. rewrite Hb.
      unfold mbind at 1, lift at 1, item at 1. rewrite Hg.
      unfold mbind at 1, lift at 1, item at 1. rewrite Hc.
      fold user_data.
      unfold mbind at 1, insert_record at 1. rewrite Hau. cbn [db next_id inserted].
      fold wallet_data.
      unfold mbind at 1, insert_record at 1. cbn [db next_id inserted self]. rewrite Haw.
      fold w2.
      match goal with
      | |- context [?rest w2 = _] => set (tail := rest)
      end.
      assert (Hrest : keeps_world tail).
      { subst tail.
        repeat first [ apply keeps_world_mbind; [apply keeps_world_lift | intros ?]
                     | apply keeps_world_ret ]. }
      specialize (Hrest w2).
      destruct (tail w2) as [w3 res] eqn:E'. simpl in Hrest. subst w3.
      exists res. split; [reflexivity|].
      intros row' ->.
      subst tail. cbv beta in E'.
      do 6 (apply mbind_ok in E' as (? & ? & _ & E')).
      apply mbind_ok in E' as (r & ? & Hco & E').
      apply ret_ok in E' as [-> _]. apply lift_ok in Hco as [Hco _].
      repeat (rewrite lookup_insert_ne by done).
      unfold set_coordinates in Hco.
      destruct (truthy (get source_row "home_geography"));
        [destruct (Wkb.extract_lat_lon_from_wkb _) as [[lat lon]|]; [|discriminate]|];
        injection Hco as <-;
        repeat (rewrite lookup_insert_ne by done); apply lookup_insert_eq. }
    destruct H as (res & -> & Hrow). subst w2. cbn [fst snd db next_id inserted self].
    split; [rewrite <- app_assoc; reflexivity|]. split; [lia|]. split; [reflexivity|].
    exact Hrow.
Qed.

End with_target.

End ClientRows.

Module ClientRowsExamples.
Import Py Transform Clients ClientsSpec TransformFacts ClientRows.

Lemma client_address_witness :
  exists (w' : world) (row' : dict),
    @CustomLogic.process_columns bare_runtime Samples.sample_target Clients
      Samples.client_row MoreSamples.plain_client_source_row Samples.empty_world
    = (w', Ok row') /\
    row' !! "address" = Some (VStr "12 Nile St, Giza").
Proof.
  set (r := @CustomLogic.process_columns bare_runtime Samples.sample_target Clients
              Samples.client_row MoreSamples.plain_client_source_row Samples.empty_world).
  assert (E : r = (fst r, Ok (result_or (snd r) ∅)))
    by (apply result_shape; vm_compute; reflexivity).
  exists (fst r), (result_or (snd r) ∅). split; [exact E|].
  destruct (@client_address bare_runtime Samples.sample_target _ _ _ _ _ E)
    as (p1 & p2 & p3 & H1 & H2 & H3 & _ & Ha).
  vm_compute in H1, H2, H3.
  injection H1 as <-. injection H2 as <-. injection H3 as <-.
  rewrite Ha; [reflexivity|].
  intros p Hp. right.
  repeat (apply elem_of_cons in Hp as [->|Hp]; [eauto|]). inversion Hp.
Defined.

Lemma client_user_and_wallet_witness :
  let run := @CustomLogic.process_columns bare_runtime Samples.sample_target Clients
               Samples.client_row Samples.client_source_row Samples.empty_world in
  length (inserted (db (fst run))) = 2%nat /\ next_id (db (fst run)) = 1 + 2.
Proof.
  intros run.
  destruct (proj2 (@client_user_and_wallet bare_runtime Samples.sample_target
                     Samples.client_row Samples.client_source_row Samples.empty_world)
              (VStr "Mona") (VStr "29001010512345") (VInt 2) (VInt 2)
              (VDate (mkdate 2024 1 15)))
    as (H1 & H2 & _); try (vm_compute; reflexivity).
  fold run in H1, H2. rewrite H1. split; [reflexivity | exact H2].
Defined.

End ClientRowsExamples.

Module WkbFacts.
Import Py Wkb WkbSpec.

Lemma length_substring (n m : nat) (s : string) :
  (n + m <= String.length s)%nat -> String.length (String.substring n m s) = m.
Proof.
  revert n m. induction s as [|c s IH]; intros n m H; simpl in H.
  - assert (n = 0%nat /\ m = 0%nat) as [-> ->] by lia. reflexivity.
  - destruct n as [|n]; simpl.
    + destruct m as [|m]; [reflexivity|]. simpl. f_equal. apply (IH 0%nat). lia.
    + apply IH. lia.
Qed.

(** Strings two characters at a time. *)
Lemma string_pairs_ind (P : string -> Prop) :
  P EmptyString ->
  (forall c, P (String c EmptyString)) ->
  (forall c1 c2 s, P s -> P (String c1 (String c2 s))) ->
  forall s, P s.
Proof.
  intros H0 H1 H2.
  assert (H : forall s, P s /\ forall c, P (String c s)).
  { induction s as [|c s [IHs IHc]]; [split; [exact H0 | exact H1]|].
    split; [apply IHc|]. intros c'. apply H2. exact IHs. }
  intros s. apply H.
Qed.

Lemma unhexlify_length (s b : string) :
  unhexlify s = Some b -> String.length s = (2 * String.length b)%nat.
Proof.
  revert b. induction s as [| |c1 c2 s IH] using string_pairs_ind; intros b E.
  - injection E as <-. reflexivity.
  - discriminate E.
  - simpl in E.
    destruct (hex_value c1), (hex_value c2), (unhexlify s) as [bytes|]; try discriminate.
    injection E as <-. simpl. rewrite (IH bytes eq_refl). lia.
Qed.

Lemma unhexlify_some (s : string) :
  is_Some (unhexlify s) <->
  Nat.even (String.length s) = true /\ forallb is_hex (list_ascii_of_string s) = true.
Proof.
  induction s as [| |c1 c2 s IH] using string_pairs_ind.
  - simpl. split; [auto | eauto].
  - simpl. split; [intros [? H]; discriminate H | intros [H _]; discriminate H].
  - change (String.length (String c1 (String c2 s))) with (S (S (String.length s))).
    change (Nat.even (S (S (String.length s)))) with (Nat.even (String.length s)).
    simpl unhexlify. simpl list_ascii_of_string. simpl forallb. unfold is_hex at 1 2.
    destruct (hex_value c1), (hex_value c2); simpl;
      try (split; [intros [? H]; discriminate H | intros [_ H]; discriminate H]).
    rewrite <- IH.
    destruct (unhexlify s); split; eauto; intros [? H]; discriminate H.
Qed.

Section with_runtime.
Context {runtime : Runtime}.

Lemma coordinate_slices (b : string) :
  (22 <= String.length b)%nat ->
  String.length (slice 6 14 b) = 8%nat /\ String.length (slice 14 22 b) = 8%nat.
Proof.
  intros L. unfold slice. split; apply length_substring; simpl; lia.
Qed.

(** X16.  Raw bytes are decoded by position alone.  Fewer than 22 bytes
    give nothing; any 22 bytes or more give the doubles read in bytes 6 to
    13 (latitude) and 14 to 21 (longitude): the header is not looked at,
    the values are not checked against the ranges of a latitude and a
    longitude, and the second length check of the decoder never fires. *)
Theorem bytes_geography_by_position (b : string) :
  extract_lat_lon_from_wkb (VBytes b)
  = if (String.length b <? 22)%nat then None
    else Some (unpack_double (slice 6 14 b), unpack_double (slice 14 22 b)).
Proof.
  unfold extract_lat_lon_from_wkb. cbn [mbind option_bind].
  destruct (Nat.ltb_spec (String.length b) 22) as [|L]; [reflexivity|].
  destruct (coordinate_slices b L) as [-> ->]. reflexivity.
Qed.

(** X17.  A text is decoded exactly when, after an optional 0x or 0X, it
    starts with E6100000010F (in upper case), has at least 76 characters,
    an even number of them, and only hex digits, in either case.  Then it
    gives what its bytes give: the doubles in bytes 6 to 13 and 14 to 21;
    every other text gives nothing. *)
Theorem text_geography_decodes (s : string) :
  let hex := drop_0x s in
  (well_formed hex = false -> extract_lat_lon_from_wkb (VStr s) = None) /\
  (well_formed hex = true ->
   exists b,
     unhexlify hex = Some b /\
     String.length hex = (2 * String.length b)%nat /\
     extract_lat_lon_from_wkb (VStr s) = extract_lat_lon_from_wkb (VBytes b) /\
     extract_lat_lon_from_wkb (VStr s)
     = Some (unpack_double (slice 6 14 b), unpack_double (slice 14 22 b))).
Proof.
  intros hex. unfold well_formed.
  assert (Hstr : extract_lat_lon_from_wkb (VStr s)
                 = if String.prefix specific_prefix hex && (min_len <=? String.length hex)%nat
                   then b ← unhexlify hex; extract_lat_lon_from_wkb (VBytes b)
                   else None).
  { unfold extract_lat_lon_from_wkb at 1, binary_of_text. cbv zeta. fold hex.
    destruct (String.prefix specific_prefix hex); cbn [negb andb]; [|reflexivity].
    destruct (Nat.ltb_spec (String.length hex) min_len) as [L|L],
             (Nat.leb_spec min_len (String.length hex)); try lia; [reflexivity|].
    destruct (unhexlify hex); reflexivity. }
  pose proof (unhexlify_some hex) as Hsome.
  split.
  - intros W. rewrite Hstr.
    destruct (String.prefix specific_prefix hex && (min_len <=? String.length hex)%nat);
      [|reflexivity].
    cbn [andb] in W. destruct (unhexlify hex) as [b|]; [|reflexivity].
    exfalso. destruct (proj1 Hsome) as [H1 H2]; [eauto|].
    rewrite H1, H2 in W. discriminate W.
  - intros W. apply andb_prop in W as [W W4]. apply andb_prop in W as [W W3].
    destruct (proj2 Hsome (conj W3 W4)) as [b Hb].
    pose proof (unhexlify_length _ _ Hb) as Hlen.
    exists b. split; [exact Hb|]. split; [exact Hlen|].
    rewrite Hstr, W, Hb. cbn [mbind option_bind]. split; [reflexivity|].
    apply andb_prop in W as [_ W2]. apply Nat.leb_le in W2. unfold min_len in W2.
    unfold extract_lat_lon_from_wkb. cbn [mbind option_bind].
    destruct (Nat.ltb_spec (String.length b) 22) as [|L]; [lia|].
    destruct (coordinate_slices b L) as [-> ->]. reflexivity.
Qed.

End with_runtime.

End WkbFacts.

Module WkbExamples.
Import Py Wkb WkbSpec WkbFacts.

Lemma text_geography_decodes_witness :
  @extract_lat_lon_from_wkb bare_runtime (VStr MoreSamples.geography_text)
  = Some (VFloat 0, VFloat 0).
Proof.
  destruct (proj2 (@text_geography_decodes bare_runtime MoreSamples.geography_text))
    as (b & _ & _ & _ & H).
  - vm_compute. reflexivity.
  - exact H.
Defined.

End WkbExamples.

Module FirstPaymentValue.
Import Py Calendar LoansFirstPayment FirstPaymentSpec FirstPaymentFacts.

(** The handler of the [ValueError] runs exactly when the day does not
    exist in the target month. *)
Lemma one_month_later_clamped (d : date) :
  valid_date d = true ->
  ~ (year d = MAXYEAR /\ month d = 12) ->
  one_month_later d
  = Ok (advance_one_month d,
        days_in_month (target_year d) (target_month d) <? day d).
Proof.
  intros V NotLast.
  destruct (one_month_later_advances d V NotLast) as [clamped E]. rewrite E.
  do 2 f_equal.
  destruct d as [y m dd].
  apply valid_date_bounds in V. destruct V as (Hy & Hm & Hd).
  unfold MAXYEAR in NotLast. simpl in NotLast.
  unfold one_month_later, target_year, target_month in *. simpl in *.
  set (tm := if m =? 12 then 1 else m + 1) in *.
  set (ty := if m =? 12 then y + 1 else y) in *.
  assert (Epair : (if 12 <? m + 1 then (1, y + 1) else (m + 1, y)) = (tm, ty)).
  { unfold tm, ty. destruct (Z.ltb_spec 12 (m + 1)), (Z.eqb_spec m 12); try lia; reflexivity. }
  rewrite Epair in E.
  assert (Htm : 1 <= tm <= 12) by (unfold tm; destruct (Z.eqb_spec m 12); lia).
  assert (Hty : 1 <= ty <= 9999) by (unfold ty; destruct (Z.eqb_spec m 12); lia).
  unfold replace_year_month, make_date in E. simpl in E.
  destruct (valid_date (mkdate ty tm dd)) eqn:V.
  - injection E as _ <-. apply valid_date_bounds in V.
    symmetry. apply Z.ltb_ge. lia.
  - destruct (Z.ltb_spec (days_in_month ty tm) dd) as [Hlt|Hle].
    + destruct (if tm =? 12 then _ else _) as [first|]; [|discriminate E].
      simpl in E. destruct (previous_day first); [|discriminate E].
      injection E as _ <-. reflexivity.
    + assert (valid_date (mkdate ty tm dd) = true) as V' by (apply valid_date_bounds; lia).
      congruence.
Qed.

(** X18.  The value that the first payment date gets.  For a valid
    disbursed date other than one in December 9999, the day is kept when
    it exists in the next month, and then the result has the type of the
    source (a date stays a date, a datetime keeps its time of day);
    otherwise the result is the last day of the next month as a datetime
    at midnight, whatever the source was.  The handler that builds this
    last day never meets December as the next month, so its December
    branch is dead.  A disbursed date that is a non-empty text fails with
    an attribute error, and a date in December 9999 with a value error. *)
Theorem first_payment_date_value (row_data : dict) (d : date) :
  valid_date d = true ->
  (replace_year_month d (target_year d) (target_month d) = Raise ValueError ->
   target_month d <> 12) /\
  (~ (year d = MAXYEAR /\ month d = 12) ->
   let next := advance_one_month d in
   let clamped := days_in_month (target_year d) (target_month d) <? day d in
   (clamped = false -> day next = day d) /\
   (clamped = true -> day next = days_in_month (year next) (month next) /\ day next < day d) /\
   (row_data !! "disbursed_on_date" = Some (VDate d) ->
    set_first_payment_date row_data
    = Ok (<["first_payment_date" := if clamped then VDateTime next 0 else VDate next]> row_data)) /\
   (forall us,
      row_data !! "disbursed_on_date" = Some (VDateTime d us) ->
      set_first_payment_date row_data
      = Ok (<["first_payment_date" := if clamped then VDateTime next 0 else VDateTime next us]>
              row_data))) /\
  (year d = MAXYEAR /\ month d = 12 ->
   row_data !! "disbursed_on_date" = Some (VDate d) ->
   set_first_payment_date row_data = Raise ValueError) /\
  (forall s, s <> EmptyString ->
     row_data !! "disbursed_on_date" = Some (VStr s) ->
     set_first_payment_date row_data = Raise AttributeError).
Proof.
  intros V. split; [|split; [|split]].
  - destruct d as [y m dd]. apply valid_date_bounds in V. destruct V as (Hy & Hm & Hd).
    unfold target_year, target_month, replace_year_month, make_date. simpl.
    intros E T. destruct (Z.eqb_spec m 12) as [->|Hne]; [discriminate T|].
    assert (m = 11) by lia. subst m. simpl in E.
    assert (Vt : valid_date (mkdate y 12 dd) = true).
    { apply valid_date_bounds. unfold days_in_month in *. simpl in *. lia. }
    change (11 + 1) with 12 in E. rewrite Vt in E. discriminate E.
  - intros NotLast next clamped.
    pose proof (one_month_later_clamped d V NotLast) as E. fold next clamped in E.
    assert (Hday : day next = Z.min (day d) (days_in_month (target_year d) (target_month d)))
      by reflexivity.
    split; [|split; [|split]].
    + intros C. apply Z.ltb_ge in C. lia.
    + intros C. apply Z.ltb_lt in C. split; [|lia].
      rewrite Hday. unfold next, advance_one_month. simpl. lia.
    + intros Hv. unfold set_first_payment_date, has_key, get. rewrite Hv. simpl.
      rewrite E. simpl. reflexivity.
    + intros us Hv. unfold set_first_payment_date, has_key, get. rewrite Hv. simpl.
      rewrite E. simpl. reflexivity.
  - intros [Hy Hm] Hv. unfold set_first_payment_date, has_key, get. rewrite Hv. simpl.
    destruct d as [y m dd]. simpl in Hy, Hm. subst y m.
    unfold one_month_later, replace_year_month, make_date. simpl.
    unfold valid_date, MAXYEAR. simpl. reflexivity.
  - intros s Hs Hv. unfold set_first_payment_date, has_key, get. rewrite Hv. simpl.
    destruct s; [contradiction|reflexivity].
Qed.

End FirstPaymentValue.

Module FirstPaymentValueExamples.
Import Py Calendar LoansFirstPayment FirstPaymentSpec FirstPaymentValue.

Lemma first_payment_date_value_witness :
  set_first_payment_date MoreSamples.jan31_2024_morning
  = Ok (<["first_payment_date" := VDateTime (mkdate 2024 2 29) 0]>
          MoreSamples.jan31_2024_morning).
Proof.
  destruct (@first_payment_date_value MoreSamples.jan31_2024_morning (mkdate 2024 1 31) eq_refl)
    as (_ & H & _).
  destruct H as (_ & _ & _ & H).
  - intros [H _]. discriminate H.
  - apply (H 37800000000). reflexivity.
Defined.

End FirstPaymentValueExamples.

Module LoanProductRates.
Import Py Rounding Binary64 LoanProducts LoanProductsSpec RoundingFacts LoanProductsFacts.

Lemma ratio_bounds (flat : Q) (n : Z) :
  (0 <= flat)%Q -> 1 <= n ->
  (flat <= (2 * flat * inject_Z n) / (inject_Z n + 1) <= 2 * flat)%Q.
Proof.
  intros Hf Hn.
  assert (H1 : (1 <= inject_Z n)%Q) by (change 1%Q with (inject_Z 1); rewrite <- Zle_Qle; lia).
  assert (Hpos : (0 < inject_Z n + 1)%Q) by lra.
  split.
  - apply Qle_shift_div_l; [exact Hpos|]. nra.
  - apply Qle_shift_div_r; [exact Hpos|]. nra.
Qed.

(** X20.  The declining rate that [flat_to_declining] gives for a flat
    rate between 10^-9 and 10^9 and a term between 1 and 10^9: the call
    does not raise, and the rate is the float of a number of four
    decimals that lies between the flat rate and twice the flat rate,
    each rounded to four decimals, up to one unit of the fourth decimal.
    The unit cannot be left out: the rate of 0.00015 over one period is
    0.0001, below the 0.0002 that the flat rate rounds to. *)
Theorem declining_rate_bounds (flat : Q) (n : Z) :
  ((1 # 1000000000) <= flat <= 1000000000)%Q -> 1 <= n <= 1000000000 ->
  exists k : Z,
    flat_to_declining flat n = Ok (b64 (inject_Z k / inject_Z (10 ^ 4))) /\
    (round flat 4 - (1 # 10000) <= inject_Z k / inject_Z (10 ^ 4)
     <= round (2 * flat) 4 + (1 # 10000))%Q.
Proof.
  intros HF [Hn _].
  destruct (declining_binary64_near flat n HF Hn) as (k & E & Hk).
  assert (NZ : Qeq_bool flat 0 = false).
  { destruct (Qeq_bool flat 0) eqn:Z0; [|reflexivity].
    apply Qeq_bool_iff in Z0. destruct HF as [HF _]. lra. }
  exists k. split.
  - pose proof (rate_of_flat flat n ltac:(intros _; lia)) as R.
    rewrite NZ in R. simpl in R. rewrite R, E. reflexivity.
  - unfold declining in Hk. rewrite NZ in Hk.
    destruct (ratio_bounds flat n ltac:(destruct HF; lra) Hn) as [Hl Hu].
    pose proof (round_mono _ _ 4 ltac:(lia) Hl) as Rl.
    pose proof (round_mono _ _ 4 ltac:(lia) Hu) as Ru.
    apply Qabs_Qle_condition in Hk.
    revert Hk Rl Ru.
    generalize (round (2 * flat * inject_Z n / (inject_Z n + 1)) 4).
    generalize (round flat 4). generalize (round (2 * flat) 4).
    generalize (inject_Z k / inject_Z (10 ^ 4))%Q.
    intros; lra.
Qed.

Section with_runtime.
Context {runtime : Runtime}.

(** X19.  Three ways in which a [loan_products] row fails.  A flat default
    rate that is present but null is a type error (the default 0 only
    stands in for a missing column).  With the six numbers read, a term of
    -1 next to a rate that is not zero divides by zero.  And with rates
    and terms in order, a row without the column of the processing
    strategy is a key error. *)
Theorem loan_products_failures (row_data : dict) :
  (row_data !! "flat_default_interest_rate" = Some VNone ->
   process_loan_products row_data = Raise TypeError) /\
  (forall fd fmin fmax nd nmin nmax,
     float (get_or row_data "flat_default_interest_rate" (VInt 0)) = Ok fd ->
     float (get_or row_data "flat_minimum_interest_rate" (VInt 0)) = Ok fmin ->
     float (get_or row_data "flat_maximum_interest_rate" (VInt 0)) = Ok fmax ->
     int (get_or row_data "default_loan_term" (VInt 12)) = Ok nd ->
     int (get_or row_data "minimum_loan_term" (VInt 12)) = Ok nmin ->
     int (get_or row_data "maximum_loan_term" (VInt 12)) = Ok nmax ->
     (~ (fd == 0)%Q -> nd = -1 -> process_loan_products row_data = Raise ZeroDivisionError) /\
     ((~ (fd == 0)%Q -> nd <> -1) -> (~ (fmin == 0)%Q -> nmin <> -1) ->
      (~ (fmax == 0)%Q -> nmax <> -1) ->
      row_data !! "loan_transaction_processing_strategy_id" = None ->
      process_loan_products row_data
      = Raise (KeyError "loan_transaction_processing_strategy_id"))).
Proof.
  split.
  - intros Hv. unfold process_loan_products, get_or.
    rewrite !lookup_insert_ne by done. rewrite Hv. reflexivity.
  - intros fd fmin fmax nd nmin nmax Fd Fmin Fmax Nd Nmin Nmax.
    unfold process_loan_products. unfold get_or in *.
    rewrite !lookup_insert_ne by done.
    rewrite Fd, Fmin, Fmax, Nd, Nmin, Nmax. simpl bind. split.
    + intros NZ ->.
      destruct (Qeq_bool fd 0) eqn:E; [apply Qeq_bool_iff in E; contradiction|].
      reflexivity.
    + intros Hd Hmin Hmax Hs.
      rewrite (rate_of_flat fd nd Hd), (rate_of_flat fmin nmin Hmin),
        (rate_of_flat fmax nmax Hmax).
      simpl bind. unfold item. rewrite !lookup_insert_ne by done. rewrite Hs. reflexivity.
Qed.

End with_runtime.

End LoanProductRates.

Module LoanProductRatesExamples.
Import Py Rounding Binary64 LoanProducts LoanProductRates.

(** The rate of 0.00015 over one period is the float of 0.0001, one unit
    below the flat rate rounded to four decimals, which is 0.0002. *)
Lemma declining_rate_bounds_witness :
  exists k : Z,
    flat_to_declining (15 # 100000) 1 = Ok (b64 (inject_Z k / inject_Z (10 ^ 4))) /\
    (round (15 # 100000) 4 - (1 # 10000) <= inject_Z k / inject_Z (10 ^ 4)
     <= round (2 * (15 # 100000)) 4 + (1 # 10000))%Q /\
    flat_to_declining (15 # 100000) 1 = Ok (b64 (1 # 10000)) /\
    (round (15 # 100000) 4 == 2 # 10000)%Q.
Proof.
  destruct (declining_rate_bounds (15 # 100000) 1) as (k & H1 & H2).
  - split; discriminate.
  - lia.
  - exists k. split; [exact H1|]. split; [exact H2|].
    split; [vm_compute; reflexivity | reflexivity].
Defined.

Lemma loan_products_failures_witness :
  @process_loan_products bare_runtime (<["flat_default_interest_rate" := VNone]> ∅)
  = Raise TypeError.
Proof.
  apply (proj1 (@loan_products_failures bare_runtime
                  (<["flat_default_interest_rate" := VNone]> ∅))).
  apply lookup_insert_eq.
Defined.

End LoanProductRatesExamples.

Module InstallmentsFacts.
Import Py Transform Transactions Installments PyFacts TransactionsFacts.

Section with_target.
Context {runtime : Runtime} {target : Target}.

(** One turn of the loop: the other fields stay, an absent or null field
    stays, and a number is replaced by its absolute value. *)
Lemma make_non_negative_abs (field : string) (r r' : dict) :
  make_non_negative field r = Ok r' ->
  (forall g, g <> field -> r' !! g = r !! g) /\
  (r !! field = None -> r' !! field = None) /\
  (r !! field = Some VNone -> r' !! field = Some VNone) /\
  (forall v, r !! field = Some v -> v <> VNone ->
     exists v' q, float v = Ok q /\ r' !! field = Some v' /\ float v' = Ok (Qabs q)).
Proof.
  unfold make_non_negative. intros E.
  destruct (r !! field) as [v|] eqn:Hv.
  - assert (Hgen : (value <- float v ;;
                    Ok (if negative value then <[field := VFloat (Qabs value)]> r else r))
                   = Ok r' ->
                   (forall g, g <> field -> r' !! g = r !! g) /\
                   exists v' q, float v = Ok q /\ r' !! field = Some v' /\
                                float v' = Ok (Qabs q)).
    { intros E'. apply bind_ok in E' as (value & Hf & E').
      destruct (negative value) eqn:N; injection E' as <-.
      - split; [intros g Hg; rewrite lookup_insert_ne by congruence; reflexivity|].
        exists (VFloat (Qabs value)), value. rewrite lookup_insert_eq. auto.
      - split; [reflexivity|]. exists v, value. split; [exact Hf|]. split; [exact Hv|].
        rewrite Hf. f_equal. apply negative_false in N.
        destruct value as [n d]. unfold Qle in N. simpl in N.
        unfold Qabs. f_equal. symmetry. apply Z.abs_eq. lia. }
    destruct v;
      try (destruct (Hgen E) as [F X]; repeat split;
           [exact F | discriminate | discriminate | intros v0 H0 _; injection H0 as <-; exact X]).
    injection E as <-. repeat split; try discriminate; auto.
    intros v0 H0 H1. injection H0 as <-. contradiction.
  - injection E as <-. repeat split; auto; discriminate.
Qed.

Lemma make_fields_non_negative_abs (fields : list string) (r r' : dict) :
  NoDup fields ->
  make_fields_non_negative fields r = Ok r' ->
  (forall g, g ∉ fields -> r' !! g = r !! g) /\
  (forall f, f ∈ fields ->
     (r !! f = None -> r' !! f = None) /\
     (r !! f = Some VNone -> r' !! f = Some VNone) /\
     (forall v, r !! f = Some v -> v <> VNone ->
        exists v' q, float v = Ok q /\ r' !! f = Some v' /\ float v' = Ok (Qabs q))).
Proof.
  revert r. induction fields as [|field rest IH]; intros r ND E; simpl in E.
  - injection E as <-. split; [reflexivity|]. intros f Hf. inversion Hf.
  - apply NoDup_cons in ND as [Hfresh ND].
    apply bind_ok in E as (r1 & H1 & E).
    destruct (make_non_negative_abs _ _ _ H1) as (F1 & N1 & V1 & A1).
    destruct (IH r1 ND E) as (F & A).
    split.
    + intros g Hg. apply not_elem_of_cons in Hg as [Hg1 Hg2].
      rewrite F by exact Hg2. apply F1. exact Hg1.
    + intros f Hf. apply elem_of_cons in Hf as [->|Hf].
      * rewrite (F field Hfresh). auto.
      * assert (Hne : f <> field) by (intros ->; contradiction).
        rewrite <- (F1 f Hne). apply A. exact Hf.
Qed.

Lemma item_float (r : dict) (k : string) (q : Q) :
  (v <- item r k ;; float v) = Ok q -> exists v, r !! k = Some v /\ float v = Ok q.
Proof.
  intros E. apply bind_ok in E as (v & Hi & Hf).
  unfold item in Hi. destruct (r !! k); [|discriminate]. injection Hi as ->. eauto.
Qed.

Lemma ok_shape {A : Type} (r : result A) (dflt : A) :
  is_ok r = true -> r = Ok (result_or r dflt).
Proof. destruct r; simpl; [reflexivity | discriminate]. Qed.

Lemma float_not_none (v : val) (q : Q) : float v = Ok q -> v <> VNone.
Proof. intros E ->. discriminate E. Qed.

(** The four columns that the status step may write. *)
Lemma status_step_frame (principal repaid : Q) (r : dict) (g : string) :
  g <> "status"%string -> g <> "paid_by_date"%string ->
  active_or_closed principal repaid r !! g = r !! g.
Proof.
  intros G1 G2. unfold active_or_closed.
  destruct (negb (Qle_bool principal repaid));
    rewrite !lookup_insert_ne by congruence; reflexivity.
Qed.

(** X21.  An installment that is processed to the end.  Its principal,
    repaid principal, interest and repaid interest were present in the
    row as numbers (a null in one of them fails the row, though the loop
    over the fields lets nulls pass).  With [P], [PR], [I] and [IR] their
    absolute values, the row ends with interest [I], repaid interest
    [IR], principal [P - I] and repaid principal [PR - IR]: the principal
    of the source is read as principal plus interest.  The status is one
    of written_off, rescheduled, active and closed; it is active only
    when [P] exceeds [PR], and then the paid_by_date is emptied, and
    closed only when it does not: the comparison is made before the
    interest is taken off. *)
Theorem installment_split_and_status (row_data source_row row' : dict) :
  process_installments row_data source_row = Ok row' ->
  exists (vp vpr vi vir : val) (p pr i ir : Q),
    row_data !! "principal" = Some vp /\ float vp = Ok p /\
    row_data !! "principal_repaid_derived" = Some vpr /\ float vpr = Ok pr /\
    row_data !! "interest" = Some vi /\ float vi = Ok i /\
    row_data !! "interest_repaid_derived" = Some vir /\ float vir = Ok ir /\
    row' !! "interest" = Some (VFloat (Qabs i)) /\
    row' !! "interest_repaid_derived" = Some (VFloat (Qabs ir)) /\
    row' !! "principal" = Some (VFloat (Qabs p - Qabs i)) /\
    row' !! "principal_repaid_derived" = Some (VFloat (Qabs pr - Qabs ir)) /\
    exists status,
      row' !! "status" = Some (VStr status) /\
      (status = "written_off" \/ status = "rescheduled" \/
       status = "active" \/ status = "closed")%string /\
      (status = "active"%string ->
       (Qabs pr < Qabs p)%Q /\ row' !! "paid_by_date" = Some VNone) /\
      (status = "closed"%string -> (Qabs p <= Qabs pr)%Q).
Proof.
  unfold process_installments. intros E.
  apply bind_ok in E as (r1 & Hn & E).
  apply bind_ok in E as (P & HP & E).
  apply bind_ok in E as (PR & HPR & E).
  set (r2 := if _ && truthy (get source_row "loan_key") then _ else r1) in E.
  set (r3 := if _ && has_key source_row "inst_cond" then _ else _) in E.
  apply bind_ok in E as (I & HI & E).
  apply bind_ok in E as (IR & HIR & E).
  injection E as <-.
  assert (ND : NoDup non_negative_fields).
  { apply (bool_decide_unpack _). reflexivity. }
  destruct (make_fields_non_negative_abs _ _ _ ND Hn) as (_ & A).
  assert (F2 : forall g, g <> "loan_id"%string -> r2 !! g = r1 !! g).
  { intros g Hg. unfold r2.
    destruct (_ && truthy (get source_row "loan_key")); [|reflexivity].
    destruct (truthy _); rewrite ?lookup_insert_ne by congruence; reflexivity. }
  assert (F3 : forall g, g <> "status"%string -> g <> "paid_by_date"%string ->
                         r3 !! g = r2 !! g).
  { intros g G1 G2. unfold r3.
    repeat match goal with
           | |- context [if ?c then _ else _] => destruct c
           end;
      rewrite ?status_step_frame by assumption;
      rewrite ?lookup_insert_ne by congruence; reflexivity. }
  apply item_float in HP as (vP & HvP & HfP).
  apply item_float in HPR as (vPR & HvPR & HfPR).
  apply item_float in HI as (vI & HvI & HfI).
  apply item_float in HIR as (vIR & HvIR & HfIR).
  rewrite F3, F2 in HvI, HvIR by done.
  (* back to the source row *)
  assert (Hback : forall f v' q',
             f ∈ non_negative_fields -> r1 !! f = Some v' -> float v' = Ok q' ->
             exists v q, row_data !! f = Some v /\ float v = Ok q /\ q' = Qabs q).
  { intros f v' q' Hf Hv' Hq'.
    destruct (A f Hf) as (An & Av & Aa).
    destruct (row_data !! f) as [v|] eqn:Hv; [|rewrite An in Hv' by reflexivity; discriminate].
    assert (Hcase : v = VNone \/ v <> VNone)
      by (destruct v; [left; reflexivity | right; discriminate ..]).
    destruct Hcase as [->|Hnn].
    - rewrite Av in Hv' by reflexivity. injection Hv' as <-. discriminate Hq'.
    - destruct (Aa v eq_refl Hnn) as (v1 & q & Hq & Hv1 & Hq1).
      rewrite Hv1 in Hv'. injection Hv' as ->. rewrite Hq1 in Hq'. injection Hq' as <-.
      eauto. }
  destruct (Hback "principal"%string vP P) as (vp & p & Hp1 & Hp2 & ->);
    [apply list_elem_of_In; simpl; tauto | assumption | assumption |].
  destruct (Hback "principal_repaid_derived"%string vPR PR) as (vpr & pr & Hpr1 & Hpr2 & ->);
    [apply list_elem_of_In; simpl; tauto | assumption | assumption |].
  destruct (Hback "interest"%string vI I) as (vi & i & Hi1 & Hi2 & ->);
    [apply list_elem_of_In; simpl; tauto | assumption | assumption |].
  destruct (Hback "interest_repaid_derived"%string vIR IR) as (vir & ir & Hir1 & Hir2 & ->);
    [apply list_elem_of_In; simpl; tauto | assumption | assumption |].
  exists vp, vpr, vi, vir, p, pr, i, ir.
  repeat (split; [assumption|]).
  split; [rewrite !lookup_insert_ne by done; apply lookup_insert_eq|].
  split; [rewrite !lookup_insert_ne by done; apply lookup_insert_eq|].
  split; [rewrite !lookup_insert_ne by done; apply lookup_insert_eq|].
  split; [apply lookup_insert_eq|].
  rewrite !lookup_insert_ne by done.
  (* the status *)
  assert (Hac : forall r : dict,
             exists status,
               active_or_closed (Qabs p) (Qabs pr) r !! "status" = Some (VStr status) /\
               (status = "active" \/ status = "closed")%string /\
               (status = "active"%string ->
                (Qabs pr < Qabs p)%Q /\
                active_or_closed (Qabs p) (Qabs pr) r !! "paid_by_date" = Some VNone) /\
               (status = "closed"%string -> (Qabs p <= Qabs pr)%Q)).
  { intros r. unfold active_or_closed.
    destruct (Qle_bool (Qabs p) (Qabs pr)) eqn:C; simpl.
    - exists "closed"%string. rewrite lookup_insert_eq.
      repeat split; auto; try discriminate. intros _. apply Qle_bool_iff, C.
    - exists "active"%string. rewrite lookup_insert_ne by done. rewrite !lookup_insert_eq.
      repeat split; auto; try discriminate.
      apply Qnot_le_lt. intros L. apply Qle_bool_iff in L. congruence. }
  unfold r3.
  destruct (_ && has_key source_row "inst_cond").
  - destruct (is_written_off _ && _).
    + exists "written_off"%string. rewrite lookup_insert_eq.
      repeat split; auto; discriminate.
    + destruct (eq_int (get source_row "inst_status") 8).
      * exists "rescheduled"%string. rewrite lookup_insert_eq.
        repeat split; auto; discriminate.
      * destruct (Hac r2) as (status & H1 & H2 & H3 & H4).
        exists status. repeat split; try tauto.
  - destruct (Hac r2) as (status & H1 & H2 & H3 & H4).
    exists status. repeat split; try tauto.
Qed.

End with_target.

End InstallmentsFacts.

Module InstallmentsExamples.
Import Py Transform Installments InstallmentsFacts.

Lemma installment_split_and_status_witness :
  exists row',
    @process_installments bare_runtime Samples.sample_target
      MoreSamples.negative_installment MoreSamples.installment_source_row = Ok row' /\
    row' !! "principal" = Some (VFloat (Qabs (inject_Z (-110)) - Qabs (inject_Z 10))) /\
    row' !! "interest" = Some (VFloat (Qabs (inject_Z 10))).
Proof.
  set (r := @process_installments bare_runtime Samples.sample_target
              MoreSamples.negative_installment MoreSamples.installment_source_row).
  assert (E : r = Ok (result_or r ∅)) by (apply ok_shape; vm_compute; reflexivity).
  exists (result_or r ∅). split; [exact E|].
  destruct (@installment_split_and_status bare_runtime Samples.sample_target _ _ _ E)
    as (vp & vpr & vi & vir & p & pr & i & ir & H1 & H2 & _ & _ & H5 & H6 & _ & _
        & Hi & _ & Hp & _).
  vm_compute in H1, H5. injection H1 as <-. injection H5 as <-.
  injection H2 as <-. injection H6 as <-.
  split; [exact Hp | exact Hi].
Defined.

Example installment_is_active :
  let row' := result_or (@process_installments bare_runtime Samples.sample_target
                           MoreSamples.negative_installment MoreSamples.installment_source_row) ∅ in
  (fun k => row' !! k) <$> ["principal"; "interest"; "status"; "paid_by_date"; "loan_id"]%string
  = [Some (VFloat 100); Some (VFloat 10); Some (VStr "active"); Some VNone; Some (VInt 7)].
Proof. vm_compute. reflexivity. Qed.

End InstallmentsExamples.

Module ConfigFacts.
Import Py MigrationLoop Config ConfigSpec.

Lemma load_snoc rows row :
  group_rows (rows ++ [row]) = append_to (migration_name row) (mapping_of row) (group_rows rows).
Proof. unfold group_rows. rewrite fold_left_app. reflexivity. Qed.

Lemma keys_append_to name m migrations :
  map fst (append_to name m migrations)
  = if bool_decide (name ∈ map fst migrations) then map fst migrations
    else map fst migrations ++ [name].
Proof.
  induction migrations as [|[key ms] rest IH]; simpl; [reflexivity|].
  destruct (String.eqb_spec key name) as [->|Hne]; simpl.
  - rewrite bool_decide_eq_true_2 by left. reflexivity.
  - rewrite IH. destruct (decide (name ∈ map fst rest)) as [Hin|Hout].
    + rewrite !bool_decide_eq_true_2; [reflexivity|right; exact Hin|exact Hin].
    + rewrite !bool_decide_eq_false_2; [reflexivity| |exact Hout].
      intros Hin. apply elem_of_cons in Hin as [->|Hin]; contradiction.
Qed.

Lemma group_append_to name m migrations key :
  group key (append_to name m migrations)
  = if String.eqb name key then group key migrations ++ [m] else group key migrations.
Proof.
  induction migrations as [|[k ms] rest IH]; simpl.
  - rewrite String.eqb_sym. destruct (String.eqb key name); reflexivity.
  - destruct (String.eqb_spec k name) as [->|Hne]; simpl.
    + destruct (String.eqb_spec name key); reflexivity.
    + destruct (String.eqb_spec k key) as [->|Hk].
      * destruct (String.eqb_spec name key) as [->|_]; [contradiction|reflexivity].
      * exact IH.
Qed.

Lemma first_occurrences_snoc names name :
  first_occurrences (names ++ [name])
  = if bool_decide (name ∈ names) then first_occurrences names
    else first_occurrences names ++ [name].
Proof.
  unfold first_occurrences. rewrite reverse_snoc. cbn [remove_dups].
  destruct (decide_rel elem_of name (reverse names)) as [Hin|Hout].
  - rewrite elem_of_reverse in Hin.
    rewrite bool_decide_eq_true_2 by exact Hin. reflexivity.
  - rewrite elem_of_reverse in Hout.
    rewrite bool_decide_eq_false_2 by exact Hout. rewrite reverse_cons. reflexivity.
Qed.

Lemma first_occurrences_elem names name :
  name ∈ first_occurrences names <-> name ∈ names.
Proof.
  unfold first_occurrences.
  rewrite elem_of_reverse, elem_of_remove_dups, elem_of_reverse. tauto.
Qed.

Lemma load_keys rows :
  map fst (group_rows rows) = first_occurrences (map migration_name rows).
Proof.
  induction rows as [|row rows IH] using rev_ind; [reflexivity|].
  rewrite load_snoc, keys_append_to, map_app.
  change (map migration_name [row]) with [migration_name row].
  rewrite first_occurrences_snoc, IH.
  destruct (decide (migration_name row ∈ map migration_name rows)) as [Hin|Hout].
  - rewrite !bool_decide_eq_true_2; [reflexivity|exact Hin|].
    apply first_occurrences_elem. exact Hin.
  - rewrite !bool_decide_eq_false_2; [reflexivity|exact Hout|].
    rewrite first_occurrences_elem. exact Hout.
Qed.

Lemma load_group rows key :
  group key (group_rows rows)
  = map mapping_of (List.filter (fun row => String.eqb (migration_name row) key) rows).
Proof.
  induction rows as [|row rows IH] using rev_ind; [reflexivity|].
  rewrite load_snoc, group_append_to, IH, List.filter_app, map_app. simpl.
  destruct (String.eqb (migration_name row) key); simpl; [reflexivity|].
  rewrite app_nil_r. reflexivity.
Qed.

Lemma required_headers_found (fieldnames : list string) :
  forallb (fun header => bool_decide (header ∈ fieldnames)) required_headers = true <->
  forall header, header ∈ required_headers -> header ∈ fieldnames.
Proof.
  rewrite forallb_forall. split.
  - intros H header Hin.
    specialize (H header (proj1 (list_elem_of_In _ _) Hin)).
    apply bool_decide_eq_true in H. exact H.
  - intros H header Hin. apply bool_decide_eq_true. apply H.
    apply list_elem_of_In. exact Hin.
Qed.

(** X22.  Loading the mapping file.  A file whose header lacks one of the
    five required columns is refused with a value error.  Otherwise the
    configuration has one group for every migration name of the file, the
    names in the order of their first line; the group of a name holds the
    mappings of exactly the lines with that name, in the order of the
    file, so no line is lost or doubled and no group is empty. *)
Theorem load_migration_config_groups (fieldnames : list string) (rows : list config_row) :
  ((exists header, header ∈ required_headers /\ header ∉ fieldnames) ->
   load_migration_config (Some fieldnames) rows = Raise ValueError) /\
  ((forall header, header ∈ required_headers -> header ∈ fieldnames) ->
   exists config,
     load_migration_config (Some fieldnames) rows = Ok config /\
     map fst config = first_occurrences (map migration_name rows) /\
     NoDup (map fst config) /\
     (forall name,
        group name config
        = map mapping_of (List.filter (fun row => String.eqb (migration_name row) name) rows)) /\
     (forall name, name ∈ map fst config -> group name config <> []) /\
     (forall name, name ∉ map fst config -> group name config = [])).
Proof.
  split.
  - intros (header & Hreq & Hmiss). unfold load_migration_config.
    destruct (forallb _ required_headers) eqn:F; [|reflexivity].
    exfalso. apply Hmiss. apply (proj1 (required_headers_found fieldnames) F). exact Hreq.
  - intros Hall. unfold load_migration_config.
    rewrite (proj2 (required_headers_found fieldnames) Hall).
    fold (group_rows rows). exists (group_rows rows). split; [reflexivity|].
    split; [apply load_keys|]. split; [|split; [apply load_group|split]].
    + rewrite load_keys. unfold first_occurrences.
      rewrite reverse_Permutation. apply NoDup_remove_dups.
    + intros name Hin. rewrite load_keys, first_occurrences_elem in Hin.
      apply list_elem_of_fmap in Hin as (row & -> & Hrow).
      rewrite load_group. intros E. apply (f_equal (@length mapping)) in E.
      rewrite length_map in E.
      assert (Hf : In row (List.filter (fun r => String.eqb (migration_name r) (migration_name row))
                                       rows)).
      { apply filter_In. split; [apply list_elem_of_In; exact Hrow | apply String.eqb_refl]. }
      destruct (List.filter _ rows); [inversion Hf | discriminate E].
    + intros name Hout. rewrite load_keys, first_occurrences_elem in Hout.
      rewrite load_group.
      destruct (List.filter _ rows) as [|row kept] eqn:F; [reflexivity|].
      exfalso. apply Hout.
      assert (Hf : In row (List.filter (fun r => String.eqb (migration_name r) name) rows))
        by (rewrite F; left; reflexivity).
      apply filter_In in Hf as [Hrow Hname]. apply String.eqb_eq in Hname. subst name.
      apply list_elem_of_fmap. exists row. split; [reflexivity|].
      apply list_elem_of_In. exact Hrow.
Qed.

(** X23.  Choosing a migration by its number.  A manager exists for every
    file with the required header and at least one line, and for no other
    file.  An index below 0 or from the number of migrations on is refused
    with a value error: there is no counting from the end.  An index in
    range gives the mappings of the lines that carry the name at that
    place in the order of first lines; this list is never empty, so the
    tables named by its first mapping exist. *)
Theorem get_migration_by_index_in_range (fieldnames : list string) (rows : list config_row) :
  (forall header, header ∈ required_headers -> header ∈ fieldnames) ->
  (rows = [] -> new_manager (Some fieldnames) rows = Raise ValueError) /\
  (rows <> [] ->
   exists self,
     new_manager (Some fieldnames) rows = Ok self /\
     migrations self = first_occurrences (map migration_name rows) /\
     migrations self <> [] /\
     (forall index,
        index < 0 \/ Z.of_nat (length (migrations self)) <= index ->
        get_migration_by_index self index = Raise ValueError) /\
     (forall index name,
        0 <= index ->
        migrations self !! Z.to_nat index = Some name ->
        exists first rest,
          get_migration_by_index self index = Ok (first :: rest) /\
          first :: rest
          = map mapping_of
              (List.filter (fun row => String.eqb (migration_name row) name) rows))).
Proof.
  intros Hall.
  assert (Hload : load_migration_config (Some fieldnames) rows = Ok (group_rows rows)).
  { unfold load_migration_config.
    rewrite (proj2 (required_headers_found fieldnames) Hall). reflexivity. }
  unfold new_manager. rewrite Hload. simpl bind. rewrite load_keys.
  split.
  - intros ->. reflexivity.
  - intros Hne.
    destruct (first_occurrences (map migration_name rows)) as [|name0 names] eqn:Ekeys.
    { exfalso. destruct rows as [|row rows]; [contradiction|].
      assert (Hin : migration_name row ∈ first_occurrences (map migration_name (row :: rows)))
        by (apply first_occurrences_elem; left).
      rewrite Ekeys in Hin. inversion Hin. }
    eexists. split; [reflexivity|]. cbn [migrations migration_config].
    split; [reflexivity|]. split; [discriminate|]. split.
    + intros index Hout. unfold get_migration_by_index. cbn [migrations].
      destruct (Z.leb_spec 0 index), (Z.ltb_spec index (Z.of_nat (length (name0 :: names))));
        try reflexivity; lia.
    + intros index name Hpos Hname.
      assert (Hrange : index < Z.of_nat (length (name0 :: names))).
      { apply lookup_lt_Some in Hname. lia. }
      unfold get_migration_by_index. cbn [migrations migration_config].
      destruct (Z.leb_spec 0 index), (Z.ltb_spec index (Z.of_nat (length (name0 :: names))));
        try lia.
      simpl andb. cbv iota. rewrite Hname, load_group.
      assert (Hin : name ∈ map migration_name rows).
      { apply first_occurrences_elem. rewrite Ekeys.
        eapply list_elem_of_lookup_2. exact Hname. }
      apply list_elem_of_fmap in Hin as (row & -> & Hrow).
      assert (Hf : In row (List.filter (fun r => String.eqb (migration_name r) (migration_name row))
                                       rows)).
      { apply filter_In. split; [apply list_elem_of_In; exact Hrow | apply String.eqb_refl]. }
      destruct (List.filter _ rows) as [|r kept]; [inversion Hf|].
      simpl. eauto.
Qed.

End ConfigFacts.

Module ConfigExamples.
Import Py MigrationLoop Config ConfigSpec ConfigFacts.

Lemma load_migration_config_groups_witness :
  exists config,
    load_migration_config (Some required_headers) MoreSamples.mapping_file = Ok config /\
    map fst config = ["clients"; "officers"]%string /\
    length (group "clients" config) = 2%nat.
Proof.
  destruct (proj2 (load_migration_config_groups required_headers MoreSamples.mapping_file))
    as (config & H1 & H2 & _ & H4 & _).
  - intros header H. exact H.
  - exists config. split; [exact H1|]. split; [rewrite H2; reflexivity|].
    rewrite H4. reflexivity.
Defined.

Lemma get_migration_by_index_in_range_witness :
  exists self first rest,
    new_manager (Some required_headers) MoreSamples.mapping_file = Ok self /\
    get_migration_by_index self 1 = Ok (first :: rest) /\
    get_migration_by_index self 2 = Raise ValueError /\
    get_migration_by_index self (-1) = Raise ValueError.
Proof.
  destruct (get_migration_by_index_in_range required_headers MoreSamples.mapping_file)
    as [_ H].
  - intros header Hh. exact Hh.
  - destruct H as (self & H1 & H2 & _ & Hout & Hin); [discriminate|].
    destruct (Hin 1 "officers"%string) as (first & rest & H3 & _).
    + lia.
    + rewrite H2. reflexivity.
    + exists self, first, rest. split; [exact H1|]. split; [exact H3|].
      split; apply Hout; rewrite H2; simpl; lia.
Defined.

End ConfigExamples.

Module OfficersFacts.
Import Py Transform Officers PyFacts.

Lemma email_char (c : ascii) :
  let c' := if Ascii.eqb (lower_char c) " " then "."%char else lower_char c in
  c' <> " "%char /\ ~ (65 <= code c' <= 90)%N.
Proof.
  assert (H : forall c,
             (let c' := if Ascii.eqb (lower_char c) " " then "."%char else lower_char c in
              negb (Ascii.eqb c' " ") && negb ((65 <=? code c') && (code c' <=? 90))%N) = true).
  { clear. intros c. destruct c as [[] [] [] [] [] [] [] []]; vm_compute; reflexivity. }
  specialize (H c). cbv zeta in *.
  set (c' := if Ascii.eqb (lower_char c) " " then "."%char else lower_char c) in *.
  apply andb_prop in H as [H1 H2].
  apply negb_true_iff in H1, H2. split.
  - intros E. rewrite E in H1. discriminate H1.
  - intros [L U]. apply N.leb_le in L, U. rewrite L, U in H2. discriminate H2.
Qed.

Lemma email_local_part (s : string) :
  String.length (spaces_to_dots (lower s)) = String.length s /\
  Forall (fun c => c <> " "%char /\ ~ (65 <= code c <= 90)%N)
         (list_ascii_of_string (spaces_to_dots (lower s))).
Proof.
  induction s as [|c s [IHl IHf]]; simpl; [split; [reflexivity|constructor]|].
  split; [rewrite IHl; reflexivity|].
  constructor; [apply email_char | exact IHf].
Qed.

Section with_target.
Context {runtime : Runtime} {target : Target}.

(** X24.  An officer row that is processed has a gender column, which
    becomes true for the source value 1 and false for every other value;
    a row without gender fails with a key error.  The role is 60.  A row
    with a name column gets the email "local@sandah.org", where the local
    part is the text of the name, character by character, in lower case
    and with a dot for every space: it is as long as the name and holds
    neither a space nor a capital letter A to Z (a null name gives
    "none@sandah.org").  A row without name column gets no email.  No
    other column changes. *)
Theorem officer_email_and_role (row_data : dict) :
  (row_data !! "gender" = None ->
   process_officers row_data = Raise (KeyError "gender")) /\
  (forall gender,
     row_data !! "gender" = Some gender ->
     exists row',
       process_officers row_data = Ok row' /\
       row' !! "gender" = Some (VBool (eq_int gender 1)) /\
       row' !! "role_id" = Some (VInt 60) /\
       (row_data !! "name" = None -> row' !! "email" = row_data !! "email") /\
       (forall name,
          row_data !! "name" = Some name ->
          exists local_part,
            row' !! "email" = Some (VStr (local_part ++ "@sandah.org")) /\
            local_part = spaces_to_dots (lower (str name)) /\
            String.length local_part = String.length (str name) /\
            Forall (fun c => c <> " "%char /\ ~ (65 <= code c <= 90)%N)
                   (list_ascii_of_string local_part) /\
            (name = VNone -> local_part = "none"%string)) /\
       (forall g, g <> "gender"%string -> g <> "role_id"%string -> g <> "email"%string ->
                  row' !! g = row_data !! g)).
Proof.
  unfold process_officers. split.
  - intros Hg. unfold item.
    destruct (row_data !! "name"); rewrite ?lookup_insert_ne by done; rewrite Hg; reflexivity.
  - intros gender Hg. unfold item.
    destruct (row_data !! "name") as [name|] eqn:Hn;
      rewrite ?lookup_insert_ne by done; rewrite Hg; simpl;
      eexists; (split; [reflexivity|]);
      (split; [rewrite lookup_insert_ne by done; apply lookup_insert_eq|]);
      (split; [apply lookup_insert_eq|]).
    + split; [discriminate|]. split.
      * intros name' E. injection E as <-.
        exists (spaces_to_dots (lower (str name))).
        rewrite !lookup_insert_ne by done. rewrite lookup_insert_eq.
        destruct (email_local_part (str name)) as [Hl Hf].
        repeat split; try assumption. intros ->. reflexivity.
      * intros g G1 G2 G3. rewrite !lookup_insert_ne by congruence. reflexivity.
    + split; [intros _; rewrite !lookup_insert_ne by done; reflexivity|]. split.
      * intros name' E. discriminate E.
      * intros g G1 G2 G3. rewrite !lookup_insert_ne by congruence. reflexivity.
Qed.

(** X25.  The row loop for officers counts the main insert at once and
    inserts the wallet of the new officer (role 60, cash, amount 0) after
    it.  When the wallet is accepted the row is one success and the
    target has the officer and the wallet.  When the wallet is refused
    the same row is counted once more, as a failure, while the officer
    stays inserted without a wallet: the two tallies then add up to more
    than the number of rows. *)
Theorem officer_wallet_is_counted_twice
    (target_table : string) (processed_row source_row row' : dict) (w : world)
    (t : CustomLogic.tallies) :
  process_officers (common_lookups processed_row source_row) = Ok row' ->
  accepts target_table row' = true ->
  next_id (db w) <> 0 ->
  let officer := (target_table, row') in
  let wallet := ("wallets"%string, wallet_data (VInt (next_id (db w)))) in
  let run := migrate_officer_row target_table processed_row source_row (w, t) in
  self (fst run) = self w /\
  (accepts "wallets" (snd wallet) = true ->
   inserted (db (fst run)) = inserted (db w) ++ [officer; wallet] /\
   snd run = CustomLogic.mk_tallies (CustomLogic.successful_inserts t + 1)
                                    (CustomLogic.failed_inserts t)) /\
  (accepts "wallets" (snd wallet) = false ->
   inserted (db (fst run)) = inserted (db w) ++ [officer] /\
   snd run = CustomLogic.mk_tallies (CustomLogic.successful_inserts t + 1)
                                    (CustomLogic.failed_inserts t + 1)).
Proof.
  intros E Ha Hid officer wallet run.
  assert (Hrun :
    run = if accepts "wallets" (snd wallet)
          then (mk_world (mk_store ((inserted (db w) ++ [officer]) ++ [wallet])
                                   (next_id (db w) + 1 + 1)) (self w),
                CustomLogic.mk_tallies (CustomLogic.successful_inserts t + 1)
                                       (CustomLogic.failed_inserts t))
          else (mk_world (mk_store (inserted (db w) ++ [officer]) (next_id (db w) + 1))
                         (self w),
                CustomLogic.mk_tallies (CustomLogic.successful_inserts t + 1)
                                       (CustomLogic.failed_inserts t + 1))).
  { subst run. unfold migrate_officer_row, process_columns, lift. rewrite E.
    unfold insert_record at 1. rewrite Ha. cbn [truthy].
    destruct (Z.eqb_spec (next_id (db w)) 0) as [|_]; [contradiction|]. cbn [negb].
    unfold insert_record. cbn [db inserted next_id self snd].
    subst wallet. cbn [snd].
    destruct (accepts "wallets" (wallet_data (VInt (next_id (db w))))); reflexivity. }
  rewrite Hrun.
  destruct (accepts "wallets" (snd wallet)); cbn [fst snd db inserted self].
  - split; [reflexivity|]. split; [|discriminate].
    intros _. rewrite <- app_assoc. auto.
  - split; [reflexivity|]. split; [discriminate|]. auto.
Qed.

End with_target.

End OfficersFacts.

Module LoansStatusFacts.
Import Py LoansStatus.

(** A value equals at most one integer constant. *)
Lemma eq_int_other (v : val) (n m : Z) : eq_int v n = true -> n <> m -> eq_int v m = false.
Proof.
  destruct v as [|b|z|q|s|s|d|d us]; simpl; try discriminate.
  - destruct b; intros H N; apply Z.eqb_eq in H; apply Z.eqb_neq; lia.
  - intros H N. apply Z.eqb_eq in H. apply Z.eqb_neq. lia.
  - intros H N. apply Qeq_bool_iff in H.
    destruct (Qeq_bool q (inject_Z m)) eqn:E; [|reflexivity].
    apply Qeq_bool_iff in E. rewrite H in E.
    unfold Qeq, inject_Z in E. simpl in E. lia.
Qed.

(** X26.  The status of a migrated loan.  A loan with condition 2 and a
    fully-paid date is written_off whatever its status code; otherwise
    the codes 0, 1, 5 and 6 give submitted, active, closed and withdrawn,
    and every other value, a missing one included, gives pending.  The
    status is never "approved", so the test that follows it always
    passes: principal_disbursed_derived is set to the approved amount on
    every loan, and a row without approved_amount fails with a key
    error. *)
Theorem loan_status_is_never_approved (row_data source_row : dict) :
  let status := status_of source_row in
  let loan_status := get source_row "loan_status" in
  (status = "written_off" \/ status = "submitted" \/ status = "active" \/
   status = "closed" \/ status = "withdrawn" \/ status = "pending")%string /\
  status <> "approved"%string /\
  (eq_int (get source_row "loan_cond") 2 = true ->
   get source_row "fully_paid_date" <> VNone -> status = "written_off"%string) /\
  (eq_int (get source_row "loan_cond") 2 = false \/
   get source_row "fully_paid_date" = VNone ->
   (eq_int loan_status 0 = true -> status = "submitted"%string) /\
   (eq_int loan_status 1 = true -> status = "active"%string) /\
   (eq_int loan_status 5 = true -> status = "closed"%string) /\
   (eq_int loan_status 6 = true -> status = "withdrawn"%string) /\
   (eq_int loan_status 0 = false -> eq_int loan_status 1 = false ->
    eq_int loan_status 5 = false -> eq_int loan_status 6 = false ->
    status = "pending"%string) /\
   (source_row !! "loan_status" = None -> status = "pending"%string)) /\
  (source_row !! "loan_status" = None -> source_row !! "loan_cond" = None ->
   status = "pending"%string) /\
  (row_data !! "approved_amount" = None ->
   set_status row_data source_row = Raise (KeyError "approved_amount")) /\
  (forall approved_amount,
     row_data !! "approved_amount" = Some approved_amount ->
     set_status row_data source_row
     = Ok (<["principal_disbursed_derived" := approved_amount]>
             (<["status" := VStr status]> row_data))).
Proof.
  intros status loan_status.
  assert (Hcases : (status = "written_off" \/ status = "submitted" \/ status = "active" \/
                    status = "closed" \/ status = "withdrawn" \/ status = "pending")%string).
  { subst status. unfold status_of.
    repeat match goal with
           | |- context [if ?c then _ else _] => destruct c
           end; tauto. }
  assert (Hne : status <> "approved"%string).
  { destruct Hcases as [ -> | [ -> | [ -> | [ -> | [ -> | -> ] ] ] ] ]; discriminate. }
  split; [exact Hcases|]. split; [exact Hne|]. split; [|split; [|split; [|split]]].
  - intros Hc Hd. subst status. unfold status_of. rewrite Hc.
    destruct (get source_row "fully_paid_date"); try reflexivity. contradiction.
  - intros Hnw.
    assert (Hw : eq_int (get source_row "loan_cond") 2
                 && negb (match get source_row "fully_paid_date" with
                          | VNone => true | _ => false end) = false).
    { destruct Hnw as [Hc|Hd]; [rewrite Hc; reflexivity|].
      rewrite Hd. apply andb_false_r. }
    subst status. unfold status_of. rewrite Hw. fold loan_status.
    split; [|split; [|split; [|split; [|split]]]].
    + intros H0. rewrite H0. reflexivity.
    + intros H1. rewrite (eq_int_other _ 1 0 H1), H1 by lia. reflexivity.
    + intros H5. rewrite (eq_int_other _ 5 0 H5), (eq_int_other _ 5 1 H5), H5 by lia.
      reflexivity.
    + intros H6. rewrite (eq_int_other _ 6 0 H6), (eq_int_other _ 6 1 H6),
        (eq_int_other _ 6 5 H6), H6 by lia. reflexivity.
    + intros H0 H1 H5 H6. rewrite H0, H1, H5, H6. reflexivity.
    + intros Hs. subst loan_status. unfold get. rewrite Hs. reflexivity.
  - intros Hs Hc. subst status. unfold status_of, get. rewrite Hs, Hc. reflexivity.
  - intros Ha. unfold set_status. fold status.
    apply String.eqb_neq in Hne. rewrite Hne. simpl.
    unfold item. rewrite lookup_insert_ne by done. rewrite Ha. reflexivity.
  - intros approved_amount Ha. unfold set_status. fold status.
    apply String.eqb_neq in Hne. rewrite Hne. simpl.
    unfold item. rewrite lookup_insert_ne by done. rewrite Ha. reflexivity.
Qed.

End LoansStatusFacts.

Module OfficersExamples.
Import Py Transform Officers OfficersFacts LoansStatus LoansStatusFacts.

Lemma officer_email_and_role_witness :
  exists row',
    @process_officers bare_runtime MoreSamples.officer_sample = Ok row' /\
    row' !! "email" = Some (VStr "ali.hassan@sandah.org") /\
    row' !! "gender" = Some (VBool true).
Proof.
  destruct (proj2 (@officer_email_and_role bare_runtime MoreSamples.officer_sample) (VInt 1))
    as (row' & H1 & H2 & _ & _ & H5 & _).
  - reflexivity.
  - destruct (H5 (VStr "Ali Hassan")) as (local_part & H6 & -> & _); [reflexivity|].
    exists row'. split; [exact H1|]. split; [exact H6 | exact H2].
Defined.

Lemma officer_wallet_is_counted_twice_witness :
  let run := @migrate_officer_row bare_runtime MoreSamples.target_without_wallets "users"
               MoreSamples.officer_sample MoreSamples.officer_source_row
               (Samples.empty_world, CustomLogic.mk_tallies 0 0) in
  snd run = CustomLogic.mk_tallies (0 + 1) (0 + 1) /\
  length (inserted (db (fst run))) = 1%nat.
Proof.
  intros run.
  set (row' := result_or (@process_officers bare_runtime
                            (@common_lookups MoreSamples.target_without_wallets
                               MoreSamples.officer_sample MoreSamples.officer_source_row)) ∅).
  destruct (@officer_wallet_is_counted_twice bare_runtime MoreSamples.target_without_wallets
              "users" MoreSamples.officer_sample MoreSamples.officer_source_row row'
              Samples.empty_world (CustomLogic.mk_tallies 0 0))
    as (_ & _ & H); try (vm_compute; reflexivity).
  - discriminate.
  - destruct H as [H1 H2]; [reflexivity|].
    fold run in H1, H2. rewrite H1, H2. split; reflexivity.
Defined.

(** A written-off loan whose status code is still 1, and a loan with
    condition 2 but no fully-paid date, whose status code 5 decides. *)
Lemma loan_status_is_never_approved_witness :
  set_status MoreSamples.approved_loan_row MoreSamples.written_off_source_row
  = Ok (<["principal_disbursed_derived" := VInt 5000]>
          (<["status" := VStr "written_off"]> MoreSamples.approved_loan_row)) /\
  status_of MoreSamples.closed_source_row = "closed"%string.
Proof.
  split.
  - destruct (loan_status_is_never_approved MoreSamples.approved_loan_row
                MoreSamples.written_off_source_row) as (_ & _ & H3 & _ & _ & _ & H7).
    rewrite (H7 (VInt 5000)) by reflexivity.
    rewrite H3; [reflexivity | reflexivity | discriminate].
  - destruct (loan_status_is_never_approved MoreSamples.approved_loan_row
                MoreSamples.closed_source_row) as (_ & _ & _ & H4 & _).
    apply H4; [right|]; reflexivity.
Defined.

End OfficersExamples.
